(** * Attendance Tracker Pro: the attendance state machine, record store,
      offline queue and statistics, embedded from the JavaScript sources

    Sources embedded here:
    - js/utils.js   ([Utils] and [Storage])
    - js/config.js  ([CONFIG])
    - the attendance and reports modules ([Attendance], [Reports]).

    JavaScript objects are finite maps from property names to values,
    arrays are lists, the browser's key-value store is a record, and
    everything the handlers await from the outside world (clock,
    geolocation, camera, connectivity) is an explicit environment. *)

From Stdlib Require Import ZArith Lia String Ascii List Bool.
From Stdlib Require Import Floats.SpecFloat.
From stdpp Require Import gmap strings list fin_maps pretty.

Open Scope Z_scope.

(** ** The JavaScript platform, as far as the application uses it *)

Module JS.

(** IEEE-754 binary64, the only number format of the language. Integer
    quantities that stay far below [2^53] (minutes, counts, time values)
    are carried as [Z]; where the source divides or calls [Math.*] the
    double-precision operations below are used. *)
Definition prec : Z := 53.
Definition emax : Z := 1024.
Abbreviation float64 := spec_float.

Definition of_Z (n : Z) : float64 := binary_normalize prec emax n 0 false.
Definition fadd : float64 -> float64 -> float64 := SFadd prec emax.
Definition fsub : float64 -> float64 -> float64 := SFsub prec emax.
Definition fmul : float64 -> float64 -> float64 := SFmul prec emax.
Definition fdiv : float64 -> float64 -> float64 := SFdiv prec emax.
Definition fsqrt : float64 -> float64 := SFsqrt prec emax.
(** [x <= y], [x < y] and [x === y] on numbers: each is [false] as soon
    as one side is [NaN]. *)
Definition fle : float64 -> float64 -> bool := SFleb.
Definition flt : float64 -> float64 -> bool := SFltb.
Definition feq : float64 -> float64 -> bool := SFeqb.
(** [Number.isFinite]: neither an infinity nor [NaN]. *)
Definition is_finite (x : float64) : bool :=
  match x with
  | S754_zero _ | S754_finite _ _ _ => true
  | _ => false
  end.

(** [Math.round]: the integer closest to [x], ties going towards
    [+Infinity]; [None] stands for a result that is not finite. *)
Definition MathRound (x : float64) : option Z :=
  match x with
  | S754_zero _ => Some 0
  | S754_finite s m e =>
      let n := if s then Z.neg m else Z.pos m in
      (* x = n * 2^e, so floor (x + 1/2) = floor ((2 n 2^e + 1) / 2) *)
      if 0 <=? e then Some (n * 2 ^ e)
      else Some ((2 * n + 2 ^ (- e)) / (2 * 2 ^ (- e)))
  | S754_infinity _ | S754_nan => None
  end.

(** Numbers that come out of string parsing and integer arithmetic:
    an integer, or [None] for [NaN]. *)
Definition num := option Z.

Definition num_add (a b : num) : num :=
  match a, b with Some x, Some y => Some (x + y) | _, _ => None end.
Definition num_sub (a b : num) : num :=
  match a, b with Some x, Some y => Some (x - y) | _, _ => None end.
Definition num_mul (a b : num) : num :=
  match a, b with Some x, Some y => Some (x * y) | _, _ => None end.
(** Relational operators answer [false] when an operand is [NaN]. *)
Definition num_gt (a b : num) : bool :=
  match a, b with Some x, Some y => y <? x | _, _ => false end.
Definition num_lt (a b : num) : bool :=
  match a, b with Some x, Some y => x <? y | _, _ => false end.

(** *** Strings *)

(** [String(n)] for an integer [n]. *)
Definition toString (n : Z) : string := pretty n.

(** [s.padStart(n, c)] with a one-character filler. *)
Definition padStart (n : nat) (c : ascii) (s : string) : string :=
  String.concat "" (replicate (n - String.length s) (String c "")) +:+ s.

(** [s.split(sep)] with a one-character separator: never empty. *)
Fixpoint split (sep : ascii) (s : string) : list string :=
  match s with
  | EmptyString => [ EmptyString ]
  | String c rest =>
      if Ascii.eqb c sep then EmptyString :: split sep rest
      else match split sep rest with
           | [] => [ String c EmptyString ]
           | w :: ws => String c w :: ws
           end
  end.

Definition digit (c : ascii) : option Z :=
  let n := Z.of_N (N_of_ascii c) in
  if (48 <=? n) && (n <=? 57) then Some (n - 48) else None.

Fixpoint digits (acc : Z) (s : string) : num :=
  match s with
  | EmptyString => Some acc
  | String c rest =>
      match digit c with
      | Some d => digits (10 * acc + d) rest
      | None => None
      end
  end.

(** [Number(s)] on the strings the application feeds it: a run of
    decimal digits is its value, the empty string is [0], and any other
    text is [NaN]. Signs, fractions, exponents, radix prefixes and
    surrounding white space, which the language also accepts, are not
    part of this model. *)
Definition Number (s : string) : num := digits 0 s.

(** Array destructuring [const [a, b] = parts.map(Number)]: a missing
    element is [undefined], which arithmetic turns into [NaN]. *)
Definition nth_num (i : nat) (parts : list string) : num :=
  match parts !! i with
  | Some s => Number s
  | None => None
  end.

(** *** Dates

    A [Date] is represented by its local time value: milliseconds on the
    local clock, that is the time value shifted by the zone offset, which
    is taken constant. Every accessor the application calls
    ([getFullYear], [getMonth], [getDate], [getHours], ...) reads the
    local clock, the [Date(y, m, d)] constructor builds from it, and
    comparisons of two dates are unaffected by the common shift.
    [None] stands for [Invalid Date]. *)
Definition msPerDay : Z := 86400000.

Definition Day (t : Z) : Z := t / msPerDay.
Definition HourFromTime (t : Z) : Z := (t / 3600000) mod 24.
Definition MinFromTime (t : Z) : Z := (t / 60000) mod 60.
Definition SecFromTime (t : Z) : Z := (t / 1000) mod 60.

(** Day number of the first day of year [y] (days since 1 January 1970). *)
Definition DayFromYear (y : Z) : Z :=
  365 * (y - 1970) + (y - 1969) / 4 - (y - 1901) / 100 + (y - 1601) / 400.

(** 1 in a leap year, else 0. *)
Definition LeapYear (y : Z) : Z :=
  if negb (y mod 4 =? 0) then 0
  else if negb (y mod 100 =? 0) then 1
  else if negb (y mod 400 =? 0) then 0
  else 1.

(** The year a day number falls in: the largest [y] whose first day is
    not after it. The quotient by the mean year length is at most one
    off, and is adjusted. *)
Definition YearFromDay (day : Z) : Z :=
  let y := 1970 + (400 * day) / 146097 in
  if day <? DayFromYear y then y - 1
  else if DayFromYear (y + 1) <=? day then y + 1
  else y.

Definition YearFromTime (t : Z) : Z := YearFromDay (Day t).
Definition InLeapYear (t : Z) : Z := LeapYear (YearFromTime t).
Definition DayWithinYear (t : Z) : Z := Day t - DayFromYear (YearFromTime t).

(** Day within the year on which month [m] (from 0) starts. *)
Definition MonthStart (m leap : Z) : Z :=
  if m =? 0 then 0
  else if m =? 1 then 31
  else if m =? 2 then 59 + leap
  else if m =? 3 then 90 + leap
  else if m =? 4 then 120 + leap
  else if m =? 5 then 151 + leap
  else if m =? 6 then 181 + leap
  else if m =? 7 then 212 + leap
  else if m =? 8 then 243 + leap
  else if m =? 9 then 273 + leap
  else if m =? 10 then 304 + leap
  else 334 + leap.

(** Months are counted from 0, as [getMonth] does. *)
Definition MonthFromTime (t : Z) : Z :=
  let d := DayWithinYear t in
  let leap := InLeapYear t in
  if d <? 31 then 0
  else if d <? 59 + leap then 1
  else if d <? 90 + leap then 2
  else if d <? 120 + leap then 3
  else if d <? 151 + leap then 4
  else if d <? 181 + leap then 5
  else if d <? 212 + leap then 6
  else if d <? 243 + leap then 7
  else if d <? 273 + leap then 8
  else if d <? 304 + leap then 9
  else if d <? 334 + leap then 10
  else 11.

(** Day of the month, from 1. *)
Definition DateFromTime (t : Z) : Z :=
  DayWithinYear t - MonthStart (MonthFromTime t) (InLeapYear t) + 1.

(** [MakeDay(year, month, date)], with the month index normalised into
    the year and the day of month counted from the first of the month. *)
Definition MakeDay (year month date : Z) : Z :=
  let ym := year + month / 12 in
  let mn := month mod 12 in
  DayFromYear ym + MonthStart mn (LeapYear ym) + date - 1.

(** [new Date(year, monthIndex, day)]: local midnight of that day; a
    year from 0 to 99 means 1900 + year. The function is the source's
    constructor for arguments within [in_Date_range]; beyond the range
    of time values the constructor gives an Invalid Date, which is not
    modelled here. *)
Definition newDate (year monthIndex day : Z) : Z :=
  let yr := if (0 <=? year) && (year <=? 99) then 1900 + year else year in
  MakeDay yr monthIndex day * msPerDay.

(** A time value lies at most 8.64e15 ms, a hundred million days, from
    the epoch. The arguments of [new Date(year, monthIndex, day)] are in
    range when the local midnight they name is a time value in every
    time zone, that is, at least a day inside the range, and when they
    are small enough for the arithmetic of doubles on them to be
    exact. *)
Definition maxTime : Z := 8640000000000000.
Definition in_Date_range (year monthIndex day : Z) : Prop :=
  Z.abs year <= 2 ^ 31 /\ Z.abs monthIndex <= 2 ^ 31 /\ Z.abs day <= 2 ^ 31
  /\ Z.abs (newDate year monthIndex day) <= maxTime - msPerDay.

(** [TimeWithinDay(t)], and [WeekDay(t)] as [getDay] gives it: 0 is
    Sunday, and day 0 was a Thursday. *)
Definition TimeWithinDay (t : Z) : Z := t mod msPerDay.
Definition WeekDay (t : Z) : Z := (Day t + 4) mod 7.

(** [date.setDate(dt)]: the day of the month is replaced, through
    [MakeDay], and the year, the month and the time of day are kept. *)
Definition setDate (t dt : Z) : Z :=
  MakeDay (YearFromTime t) (MonthFromTime t) dt * msPerDay + TimeWithinDay t.

(** [a || b] for a string [a] that may be [undefined]. *)
Definition or_else (s : option string) (fallback : string) : string :=
  match s with
  | Some x => if String.eqb x "" then fallback else x
  | None => fallback
  end.

End JS.

Import JS.

(** *** Regular expressions

    The patterns of the application: a sequence of pieces, each one
    character or a run of characters, taken from a literal or a
    character class. Strings are sequences of code units below 256. *)
Module RegExp.

Inductive item :=
| Lit (c : ascii)              (* the character itself *)
| Range (lo hi : ascii)        (* [lo-hi] *)
| Space                        (* \s *)
| Digit.                       (* \d *)

Definition code (c : ascii) : Z := Z.of_N (N_of_ascii c).

Definition item_ok (i : item) (c : ascii) : bool :=
  match i with
  | Lit d => Ascii.eqb c d
  | Range lo hi => (code lo <=? code c) && (code c <=? code hi)
  | Space =>
      (* tab, line feed, vertical tab, form feed, carriage return, space
         and no-break space *)
      bool_decide (code c ∈ [9; 10; 11; 12; 13; 32; 160])
  | Digit => (48 <=? code c) && (code c <=? 57)
  end.

Inductive atom :=
| Char (c : ascii)                              (* c, also written \c *)
| Class (negated : bool) (items : list item).   (* [...] and [^...] *)

Definition atom_ok (a : atom) (c : ascii) : bool :=
  match a with
  | Char d => Ascii.eqb c d
  | Class negated items => xorb negated (existsb (fun i => item_ok i c) items)
  end.

Inductive piece :=
| One (a : atom)        (* a *)
| Many (a : atom)       (* a+ *)
| Star (a : atom).      (* a* *)

Definition regex := list piece.

(** The states that reading [c] leads to. *)
Fixpoint step (c : ascii) (r : regex) : list regex :=
  match r with
  | [] => []
  | One a :: rest => if atom_ok a c then [ rest ] else []
  | Many a :: rest => if atom_ok a c then [ Star a :: rest ] else []
  | Star a :: rest =>
      (if atom_ok a c then [ Star a :: rest ] else []) ++ step c rest
  end.

Fixpoint nullable (r : regex) : bool :=
  match r with
  | [] => true
  | Star _ :: rest => nullable rest
  | _ => false
  end.

Fixpoint run (states : list regex) (s : string) : bool :=
  match s with
  | EmptyString => existsb nullable states
  | String c rest => run (flat_map (step c) states) rest
  end.

(** Any character. *)
Definition any : atom := Class true [].

(** [/^body$/.test(s)] and [/body/.test(s)] *)
Definition test_anchored (body : regex) (s : string) : bool := run [ body ] s.
Definition test (body : regex) (s : string) : bool :=
  run [ Star any :: body ++ [ Star any ] ] s.

End RegExp.

(** ** Values and objects *)

(** A position fix: [{latitude, longitude, accuracy}]. *)
Record Coords := mkCoords {
  latitude : float64;
  longitude : float64;
  accuracy : float64
}.

(** The values stored in attendance records. [VInstant t] is the ISO-8601
    string that [toISOString] writes for the date [t] and that
    [new Date(...)] reads back as [t]; [VStr] holds every other string. *)
Inductive value :=
| VUndefined
| VNull
| VBool (b : bool)
| VNum (n : Z)
| VStr (s : string)
| VInstant (t : Z)
| VCoords (c : Coords).

#[global] Instance spec_float_eq_dec : EqDecision spec_float.
Proof. solve_decision. Defined.
#[global] Instance Coords_eq_dec : EqDecision Coords.
Proof. solve_decision. Defined.
#[global] Instance value_eq_dec : EqDecision value.
Proof. solve_decision. Defined.

(** An object is a finite map from property names to values; reading a
    property that is not there gives [undefined]. *)
Abbreviation record := (gmap string value).

Definition field (r : record) (k : string) : value :=
  default VUndefined (r !! k).

(** Truthiness, as [if (v)], [!v] and [a && b] see a value. *)
Definition truthy (v : value) : bool :=
  match v with
  | VUndefined | VNull => false
  | VBool b => b
  | VNum n => negb (n =? 0)
  | VStr s => negb (String.eqb s "")
  | VInstant _ | VCoords _ => true
  end.

(** [v === w] on primitive values. Coordinate objects are only written
    into [location] properties and never compared by the application. *)
Definition strict_eq (v w : value) : bool := bool_decide (v = w).

(** [{...r, ...updates}]: every property of [updates] wins. *)
Definition spread (r updates : record) : record := updates ∪ r.

(** [new Date(v)] for a stored value. Only the timestamps written by
    [toISOString] are taken as valid dates. *)
Definition toDate (v : value) : option Z :=
  match v with
  | VInstant t => Some t
  | _ => None
  end.

(** ** js/config.js *)

Record WorkSchedule := mkWorkSchedule {
  startTime : string;
  endTime : string;
  lateThreshold : Z;
  earlyLeaveThreshold : Z
}.

Record Config := mkConfig {
  OFFICE_LOCATION : float64 * float64;
  GEO_FENCE_RADIUS : float64;
  WORK_SCHEDULE : WorkSchedule;
  OFFLINE_enabled : bool;
  FEATURES_faceRecognition : bool;
  ERRORS_outsideGeofence : string;
  ERRORS_unknownError : string;
  ERRORS_notCheckedIn : string;
  SUCCESS_checkinSuccess : string;
  SUCCESS_checkoutSuccess : string
}.

(** The literal [CONFIG] object of the repository. *)
Definition CONFIG : Config := {|
  (* 24.969478 and 67.177018 *)
  OFFICE_LOCATION := (S754_finite false 7028283238527237 (-48),
                      S754_finite false 4727162394260330 (-46));
  GEO_FENCE_RADIUS := of_Z 1000;
  WORK_SCHEDULE := {| startTime := "09:00"; endTime := "17:00";
                      lateThreshold := 15; earlyLeaveThreshold := 30 |};
  OFFLINE_enabled := true;
  FEATURES_faceRecognition := true;
  ERRORS_outsideGeofence :=
    "You are outside the office area. Please move closer to mark attendance.";
  ERRORS_unknownError := "An unexpected error occurred. Please try again.";
  ERRORS_notCheckedIn := "You must check in before checking out.";
  SUCCESS_checkinSuccess := "Checked in successfully!";
  SUCCESS_checkoutSuccess := "Checked out successfully!"
|}.

(** [CONFIG.getError(key)] is [ERRORS[key] || ERRORS.unknownError] and
    [CONFIG.getSuccess(key)] is [SUCCESS[key] || 'Operation successful!']. *)
Definition getError (cfg : Config) (pick : Config -> string) : string :=
  if String.eqb (pick cfg) "" then ERRORS_unknownError cfg else pick cfg.
Definition getSuccess (cfg : Config) (pick : Config -> string) : string :=
  if String.eqb (pick cfg) "" then "Operation successful!" else pick cfg.

(** ** js/utils.js: [Utils] *)

Module Utils.

(** [formatDate(date)] with the default format ['DD/MM/YYYY']. The three
    [replace] calls put the zero-padded day, the zero-padded month and the
    year in the places of [DD], [MM] and [YYYY]. *)
Definition formatDate (date : option Z) : string :=
  match date with
  | None => "Invalid Date"
  | Some d =>
      let day := padStart 2 "0" (toString (DateFromTime d)) in
      let month := padStart 2 "0" (toString (MonthFromTime d + 1)) in
      let year := toString (YearFromTime d) in
      day +:+ "/" +:+ month +:+ "/" +:+ year
  end.

(** [formatTime(date)] with the default format ['HH:mm:ss']. *)
Definition formatTime (date : option Z) : string :=
  match date with
  | None => "Invalid Time"
  | Some d =>
      let hours := padStart 2 "0" (toString (HourFromTime d)) in
      let minutes := padStart 2 "0" (toString (MinFromTime d)) in
      let seconds := padStart 2 "0" (toString (SecFromTime d)) in
      hours +:+ ":" +:+ minutes +:+ ":" +:+ seconds
  end.

Record Duration := mkDuration {
  hours : Z;
  minutes : Z;
  totalMinutes : option Z;      (* [None]: the property is not there *)
  total : string
}.

(** [calculateTimeDifference(startTime, endTime)]: whole minutes between
    two dates, rounded down, split into hours and the remainder that
    [%] leaves (it has the sign of the dividend). With an invalid date
    the result has no [totalMinutes]. *)
Definition calculateTimeDifference (startTime endTime : option Z) : Duration :=
  match startTime, endTime with
  | Some start, Some end_ =>
      let diffMs := end_ - start in
      let diffMins := diffMs / 60000 in
      let hours := diffMins / 60 in
      let minutes := Z.rem diffMins 60 in
      {| hours := hours; minutes := minutes; totalMinutes := Some diffMins;
         total := toString hours +:+ "h " +:+ toString minutes +:+ "m" |}
  | _, _ => {| hours := 0; minutes := 0; totalMinutes := None; total := "0h 0m" |}
  end.

(** [isLate(actualTime, scheduledTime, threshold)]: both times are split
    at [':'] and their first two fields read as numbers. *)
Definition isLate (actualTime scheduledTime : string) (threshold : Z) : bool :=
  let actual := split ":" actualTime in
  let sched := split ":" scheduledTime in
  let actualHour := nth_num 0 actual in
  let actualMin := nth_num 1 actual in
  let schedHour := nth_num 0 sched in
  let schedMin := nth_num 1 sched in
  let actualMins := num_add (num_mul actualHour (Some 60)) actualMin in
  let schedMins := num_add (num_mul schedHour (Some 60)) schedMin in
  num_gt actualMins (num_add schedMins (Some threshold)).

(** The trigonometric functions of [Math] are approximations that the
    language leaves to the engine; they are taken as given. *)
Section Geofence.
Variables (Math_sin Math_cos : float64 -> float64).
Variable (Math_atan2 : float64 -> float64 -> float64).

(** [Math.PI], the double nearest to pi. *)
Definition Math_PI : float64 := S754_finite false 7074237752028440 (-51).

Definition calculateDistance (lat1 lon1 lat2 lon2 : float64) : float64 :=
  let R := of_Z 6371000 in
  let phi1 := fdiv (fmul lat1 Math_PI) (of_Z 180) in
  let phi2 := fdiv (fmul lat2 Math_PI) (of_Z 180) in
  let dphi := fdiv (fmul (fsub lat2 lat1) Math_PI) (of_Z 180) in
  let dlambda := fdiv (fmul (fsub lon2 lon1) Math_PI) (of_Z 180) in
  let a :=
    fadd (fmul (Math_sin (fdiv dphi (of_Z 2))) (Math_sin (fdiv dphi (of_Z 2))))
         (fmul (fmul (fmul (Math_cos phi1) (Math_cos phi2))
                     (Math_sin (fdiv dlambda (of_Z 2))))
               (Math_sin (fdiv dlambda (of_Z 2)))) in
  let c := fmul (of_Z 2) (Math_atan2 (fsqrt a) (fsqrt (fsub (of_Z 1) a))) in
  fmul R c.

Definition isWithinGeofence (userLat userLon officeLat officeLon radius : float64)
  : bool :=
  let distance := calculateDistance userLat userLon officeLat officeLon in
  fle distance radius.
End Geofence.

Record MonthRange := mkMonthRange {
  start : Z;
  end_ : Z;
  startStr : string;
  endStr : string
}.

(** [getMonthRange(year, month)], the month counted from 1. *)
Definition getMonthRange (year month : Z) : MonthRange :=
  let startDate := newDate year (month - 1) 1 in
  let endDate := newDate year month 0 in
  {| start := startDate; end_ := endDate;
     startStr := formatDate (Some startDate);
     endStr := formatDate (Some endDate) |}.

(** [getDayName(date)]: [days[d.getDay()] || 'Invalid Day']; the day of
    an invalid date is [NaN], which is no index. *)
Definition days : list string :=
  [ "Sunday"; "Monday"; "Tuesday"; "Wednesday"; "Thursday"; "Friday"; "Saturday" ].

Definition getDayName (date : option Z) : string :=
  or_else (d ← date; days !! Z.to_nat (WeekDay d)) "Invalid Day".

(** [isToday(date)], [today] being the clock's [new Date()]; the fields
    of an invalid date are [NaN], which equals nothing. *)
Definition isToday (date : option Z) (today : Z) : bool :=
  match date with
  | Some d =>
      (DateFromTime d =? DateFromTime today)
      && (MonthFromTime d =? MonthFromTime today)
      && (YearFromTime d =? YearFromTime today)
  | None => false
  end.

(** [validateEmail(email)] tests [/^[^\s@]+@[^\s@]+\.[^\s@]+$/]. *)
Definition email_pattern : RegExp.regex :=
  [ RegExp.Many (RegExp.Class true [ RegExp.Space; RegExp.Lit "@" ]);
    RegExp.One (RegExp.Char "@");
    RegExp.Many (RegExp.Class true [ RegExp.Space; RegExp.Lit "@" ]);
    RegExp.One (RegExp.Char ".");
    RegExp.Many (RegExp.Class true [ RegExp.Space; RegExp.Lit "@" ]) ].

Definition validateEmail (email : string) : bool :=
  RegExp.test_anchored email_pattern email.

(** The [rules] object of [validatePassword]; [None] is a property that
    is missing, for which the destructuring takes its default. *)
Record PasswordRules := mkPasswordRules {
  minLength : option Z;
  requireUppercase : option bool;
  requireLowercase : option bool;
  requireNumbers : option bool;
  requireSpecialChars : option bool
}.

Record PasswordValidation := mkPasswordValidation {
  isValid : bool;
  errors : list string
}.

(** The class of special characters: ! @ # $ % ^ & * ( ) , . ? the
    double quote (code 34) : { } | < > *)
Definition special_chars : list RegExp.item :=
  RegExp.Lit <$> ([ "!"; "@"; "#"; "$"; "%"; "^"; "&"; "*"; "("; ")"; ","; "."; "?" ]%char
                  ++ [ ascii_of_nat 34 ]
                  ++ [ ":"; "{"; "}"; "|"; "<"; ">" ]%char).

Definition validatePassword (password : string) (rules : PasswordRules)
  : PasswordValidation :=
  let minLength := default 6 (minLength rules) in
  let requireUppercase := default false (requireUppercase rules) in
  let requireLowercase := default false (requireLowercase rules) in
  let requireNumbers := default false (requireNumbers rules) in
  let requireSpecialChars := default false (requireSpecialChars rules) in
  let errors :=
    (if Z.of_nat (String.length password) <? minLength
     then [ "Password must be at least " +:+ toString minLength +:+ " characters" ]
     else [])
    ++ (if requireUppercase
           && negb (RegExp.test
                      [ RegExp.One (RegExp.Class false [ RegExp.Range "A" "Z" ]) ] password)
        then [ "Password must contain an uppercase letter" ] else [])
    ++ (if requireLowercase
           && negb (RegExp.test
                      [ RegExp.One (RegExp.Class false [ RegExp.Range "a" "z" ]) ] password)
        then [ "Password must contain a lowercase letter" ] else [])
    ++ (if requireNumbers
           && negb (RegExp.test [ RegExp.One (RegExp.Class false [ RegExp.Digit ]) ] password)
        then [ "Password must contain a number" ] else [])
    ++ (if requireSpecialChars
           && negb (RegExp.test [ RegExp.One (RegExp.Class false special_chars) ] password)
        then [ "Password must contain a special character" ] else []) in
  {| isValid := (length errors =? 0)%nat; errors := errors |}.

End Utils.

(** The great-circle distance by the Haversine formula, written from the
    formula and not from the code, to compare [Utils.calculateDistance]
    with. For two points of latitudes [φ1], [φ2] that differ by [Δφ] in
    latitude and [Δλ] in longitude, all in radians,
    [a = sin²(Δφ/2) + cos φ1 · cos φ2 · sin²(Δλ/2)],
    [c = 2 · atan2(√a, √(1−a))] and [d = R · c]. The arithmetic is
    that of doubles; a product of several factors is taken from left to
    right. *)
Module Haversine.
Section Trigonometry.
Variables (sin cos : float64 -> float64).
Variable (atan2 : float64 -> float64 -> float64).

(** The mean radius of the Earth, in metres. *)
Definition earth_radius : float64 := of_Z 6371000.

(** Degrees to radians. *)
Definition radians (degrees : float64) : float64 :=
  fdiv (fmul degrees Utils.Math_PI) (of_Z 180).

(** The sine of half an angle. *)
Definition sin_half (angle : float64) : float64 := sin (fdiv angle (of_Z 2)).

Definition haversine (lat1 lon1 lat2 lon2 : float64) : float64 :=
  let dphi := radians (fsub lat2 lat1) in
  let dlambda := radians (fsub lon2 lon1) in
  fadd (fmul (sin_half dphi) (sin_half dphi))
       (fmul (fmul (fmul (cos (radians lat1)) (cos (radians lat2)))
                   (sin_half dlambda))
             (sin_half dlambda)).

Definition central_angle (a : float64) : float64 :=
  fmul (of_Z 2) (atan2 (fsqrt a) (fsqrt (fsub (of_Z 1) a))).

Definition distance (lat1 lon1 lat2 lon2 : float64) : float64 :=
  fmul earth_radius (central_angle (haversine lat1 lon1 lat2 lon2)).
End Trigonometry.
End Haversine.

(** ** The state of the page and the monad of its code *)

(** A toast shown by [Utils.showToast(message, type)]. *)
Record Toast := mkToast { message : string; kind : string }.

(** A value kept under the attendance key: an array of records, or
    some other JSON value. *)
Inductive json :=
| JArray (records : list record)
| JOther.

(** [JSON.parse (JSON.stringify v)]: what comes back when a value is
    written to the store and read again. Properties whose value is
    [undefined] are left out of the text. *)
Definition json_roundtrip (r : record) : record :=
  filter (fun kv => kv.2 <> VUndefined) r.

Definition parse_stringify (j : json) : json :=
  match j with
  | JArray l => JArray (json_roundtrip <$> l)
  | JOther => JOther
  end.

(** The browser's key-value store, as far as the attendance key goes.
    [attendance] is the value whose JSON text lies under the key. *)
Record LocalStorage := mkLocalStorage {
  available : bool;           (* the probe of [isLocalStorageAvailable] *)
  quotaExceeded : bool;       (* [localStorage.setItem] raises QuotaExceededError *)
  attendance : option json    (* [None]: no text, or text that does not parse *)
}.

(** The global mutable state: the store, the toasts shown so far, and the
    two fields of the [Attendance] object. *)
Record World := mkWorld {
  localStorage : LocalStorage;
  toasts : list Toast;
  todayRecord : option record;
  offlineQueue : list record
}.

(** The outcome of running a piece of code: a value, or a thrown
    exception. The state reached is kept in both cases. *)
Inductive result (A : Type) :=
| Ok (a : A)
| Throw.
Arguments Ok {A} a.
Arguments Throw {A}.

Definition M (A : Type) : Type := World -> result A * World.

Definition ret {A} (a : A) : M A := fun w => (Ok a, w).
Definition bind {A B} (m : M A) (k : A -> M B) : M B :=
  fun w => match m w with
           | (Ok a, w') => k a w'
           | (Throw, w') => (Throw, w')
           end.
Definition throw {A} : M A := fun w => (Throw, w).
(** [try { body } catch (error) { handler }] *)
Definition try_catch {A} (body handler : M A) : M A :=
  fun w => match body w with
           | (Ok a, w') => (Ok a, w')
           | (Throw, w') => handler w'
           end.
Definition gets {A} (f : World -> A) : M A := fun w => (Ok (f w), w).
Definition modify (f : World -> World) : M unit := fun w => (Ok tt, f w).

#[global] Instance M_ret : MRet M := @ret.
#[global] Instance M_bind : MBind M := fun A B k m => bind m k.

Definition showToast (msg type : string) : M unit :=
  modify (fun w => {| localStorage := localStorage w;
                      toasts := toasts w ++ [ mkToast msg type ];
                      todayRecord := todayRecord w;
                      offlineQueue := offlineQueue w |}).

Definition set_localStorage (ls : LocalStorage) : M unit :=
  modify (fun w => {| localStorage := ls; toasts := toasts w;
                      todayRecord := todayRecord w;
                      offlineQueue := offlineQueue w |}).

Definition set_todayRecord (r : option record) : M unit :=
  modify (fun w => {| localStorage := localStorage w; toasts := toasts w;
                      todayRecord := r; offlineQueue := offlineQueue w |}).

Definition set_offlineQueue (q : list record) : M unit :=
  modify (fun w => {| localStorage := localStorage w; toasts := toasts w;
                      todayRecord := todayRecord w; offlineQueue := q |}).

(** Calling an array method ([filter], [findIndex], [push]) on what the
    store returned: a [TypeError] when it is not an array. *)
Definition as_array (j : json) : M (list record) :=
  match j with
  | JArray l => ret l
  | JOther => throw
  end.

(** [array.findIndex(p)], [None] standing for [-1]. *)
Fixpoint findIndex {A} (p : A -> bool) (l : list A) : option nat :=
  match l with
  | [] => None
  | x :: rest => if p x then Some 0%nat else S <$> findIndex p rest
  end.

(** ** js/utils.js: [Storage] *)

Module Storage.

Definition isLocalStorageAvailable : M bool :=
  gets (fun w => available (localStorage w)).

(** [setItem(CONFIG.STORAGE.keys.attendance, records)] *)
Definition setItem (records : list record) : M bool :=
  ok ← isLocalStorageAvailable;
  if negb ok then ret false
  else
    ls ← gets localStorage;
    if quotaExceeded ls then
      showToast "Storage quota exceeded. Please clear some data." "error";;
      ret false
    else
      set_localStorage {| available := available ls;
                          quotaExceeded := quotaExceeded ls;
                          attendance := Some (JArray records) |};;
      ret true.

(** [getItem(CONFIG.STORAGE.keys.attendance, defaultValue)] *)
Definition getItem (defaultValue : json) : M json :=
  ok ← isLocalStorageAvailable;
  if negb ok then ret defaultValue
  else
    item ← gets (fun w => attendance (localStorage w));
    ret (from_option parse_stringify defaultValue item).

Definition getAttendanceRecords : M json := getItem (JArray []).

(** [generatedId] is what [Utils.generateId()] returns if it is called.
    The function assigns to [record.id] of the object it is given, so the
    caller's object is returned along with the boolean. *)
Definition saveAttendanceRecord (record0 : record) (generatedId : string)
  : M (bool * record) :=
  records ← getAttendanceRecords;
  let record1 :=
    if negb (truthy (field record0 "id"))
    then <["id" := VStr generatedId]> record0 else record0 in
  records ← as_array records;
  saved ← setItem (records ++ [ record1 ]);
  ret (saved, record1).

(** [today] is [new Date()]. *)
Definition getTodayAttendance (now : Z) : M (option record) :=
  records ← getAttendanceRecords;
  let today := Utils.formatDate (Some now) in
  records ← as_array records;
  let todayRecords :=
    List.filter (fun record => strict_eq (field record "date") (VStr today)) records in
  if (length todayRecords =? 0)%nat then ret None
  else ret (todayRecords !! (length todayRecords - 1)%nat).

Definition updateAttendanceRecord (id : value) (updates : record) : M bool :=
  records ← getAttendanceRecords;
  records ← as_array records;
  match findIndex (fun record => strict_eq (field record "id") id) records with
  | None => ret false
  | Some index =>
      match records !! index with
      | Some old => setItem (<[index := spread old updates]> records)
      | None => ret false
      end
  end.

Definition deleteAttendanceRecord (id : value) : M bool :=
  records ← getAttendanceRecords;
  records ← as_array records;
  setItem (List.filter (fun record => negb (strict_eq (field record "id") id)) records).

(** [recordDate >= monthRange.start && recordDate <= monthRange.end];
    both comparisons are [false] on an invalid date. *)
Definition in_range (range : Utils.MonthRange) (record0 : record) : bool :=
  match toDate (field record0 "dateTime") with
  | Some recordDate =>
      (Utils.start range <=? recordDate) && (recordDate <=? Utils.end_ range)
  | None => false
  end.

Definition getMonthlyAttendance (year month : Z) : M (list record) :=
  records ← getAttendanceRecords;
  let monthRange := Utils.getMonthRange year month in
  records ← as_array records;
  ret (List.filter (in_range monthRange) records).

End Storage.

(** ** The outside world of one handler run *)

Record User := mkUser { user_id : string; user_name : string }.

(** The object that [Camera.performFaceVerification()] resolves to. *)
Record FaceResult := mkFaceResult {
  success : bool;
  requiresRegistration : bool;
  face_message : string
}.

(** What the modules outside the attendance logic answer during one run
    of a handler: the session ([Auth]), the geofence validation and the
    position it leaves behind ([Location]), the camera ([Camera]), the
    clock, connectivity, and the identifiers [Utils.generateId()] draws.

    The calls into [Location] and [Camera] show toasts of their own,
    which are part of the answer: [locationToasts] for
    [Location.validateGeofence()], [cameraToasts] for the first
    [Camera.startCamera()] of a handler, [faceModalToasts] for
    [Camera.showFaceModal()] (the camera started for the modal,
    [registerFace] and [Storage.saveFaceDescriptor] in it),
    [retryCameraToasts] for the [Camera.startCamera()] after a
    registration, and [photoToasts] for [Camera.capturePhoto()]. The
    face descriptor that a registration keeps in [Camera] and stores
    under a key of its own is read by [Camera] alone and is not part of
    the page state below. *)
Record Env := mkEnv {
  currentUser : option User;
  hasToken : bool;
  validateGeofence : bool;
  locationToasts : list Toast;
  position : Coords;
  startCamera : bool;
  cameraToasts : list Toast;
  performFaceVerification : FaceResult;
  showFaceModal : bool;
  faceModalToasts : list Toast;
  retryCameraToasts : list Toast;
  retryFaceVerification : FaceResult;
  capturePhoto : value;
  photoToasts : list Toast;
  now : Z;
  onLine : bool;
  generateId : nat -> string
}.

(** [Auth.isAuthenticated()] *)
Definition isAuthenticated (env : Env) : bool :=
  bool_decide (is_Some (currentUser env)) && hasToken env.

(** [for (const x of xs) { body }] and [xs.forEach(body)] *)
Fixpoint for_of {A} (xs : list A) (body : A -> M unit) : M unit :=
  match xs with
  | [] => ret tt
  | x :: rest => body x;; for_of rest body
  end.

(** [[...new Set(xs)]]: the distinct elements in order of first
    occurrence. *)
Fixpoint unique_from (seen xs : list value) : list value :=
  match xs with
  | [] => []
  | x :: rest =>
      if bool_decide (x ∈ seen) then unique_from seen rest
      else x :: unique_from (x :: seen) rest
  end.
Definition unique (xs : list value) : list value := unique_from [] xs.

(** Reading a property of each element: a [TypeError] if one of them is
    [undefined]. *)
Definition all_defined (xs : list (option record)) : M (list record) :=
  match mapM id xs with
  | Some l => ret l
  | None => throw
  end.

(** [total += v], guarded by [if (v)]. A truthy value that is not a
    number would turn the sum into a string; that leaves the number
    model and is [NaN] here. *)
Definition add_if_truthy (total : num) (v : value) : num :=
  if truthy v then
    match v with
    | VNum n => num_add total (Some n)
    | VBool b => num_add total (Some (if b then 1 else 0))
    | _ => None
    end
  else total.

(** [count] of the records passing a test, as [filter(...).length]. *)
Definition count (p : record -> bool) (l : list record) : nat :=
  length (List.filter p l).

(** [totalDays > 0 ? Math.round((presentDays / totalDays) * 100) : 0] *)
Definition attendance_rate (presentDays totalDays : nat) : option Z :=
  if (0 <? totalDays)%nat
  then MathRound (fmul (fdiv (of_Z (Z.of_nat presentDays)) (of_Z (Z.of_nat totalDays)))
                       (of_Z 100))
  else Some 0.

(** ** The attendance module *)

Module Attendance.

Definition loadTodayAttendance (env : Env) : M unit :=
  r ← Storage.getTodayAttendance (now env);
  set_todayRecord r.

(** [Location.validateGeofence()] reports its own toasts and never
    throws, so the [catch] branch of [validateLocation] is not reached. *)
Definition validateLocation (cfg : Config) (env : Env) : M bool :=
  for_of (locationToasts env) (fun t => showToast (message t) (kind t));;
  if negb (validateGeofence env) then
    showToast (getError cfg ERRORS_outsideGeofence) "error";;
    ret false
  else ret true.

Definition isEarlyLeave (cfg : Config) (timeString : string) : bool :=
  let time := split ":" timeString in
  let finish := split ":" (endTime (WORK_SCHEDULE cfg)) in
  let hours := nth_num 0 time in
  let minutes := nth_num 1 time in
  let endHours := nth_num 0 finish in
  let endMinutes := nth_num 1 finish in
  let totalMinutes := num_add (num_mul hours (Some 60)) minutes in
  let endTotalMinutes := num_add (num_mul endHours (Some 60)) endMinutes in
  num_lt totalMinutes
         (num_sub endTotalMinutes (Some (earlyLeaveThreshold (WORK_SCHEDULE cfg)))).

Definition addToOfflineQueue (record0 : record) : M unit :=
  q ← gets offlineQueue;
  set_offlineQueue (q ++ [ record0 ]);;
  showToast "Attendance saved offline. Will sync when online." "info".

Definition syncAttendance (record0 : record) : M unit :=
  try_catch
    (Storage.updateAttendanceRecord (field record0 "id") {[ "synced" := VBool true ]};;
     ret tt)
    (addToOfflineQueue record0).

(** The toasts that a call into another module has shown. *)
Definition shown_by (ts : list Toast) : M unit :=
  for_of ts (fun t => showToast (message t) (kind t)).

(** The face-verification block of [handleTimeIn]: [None] when the
    handler returns from inside it, else [faceVerified] and [photoData]. *)
Definition verifyFace (cfg : Config) (env : Env) : M (option (bool * value)) :=
  if FEATURES_faceRecognition cfg then
    shown_by (cameraToasts env);;
    if startCamera env then
      let faceResult := performFaceVerification env in
      if negb (success faceResult) then
        if requiresRegistration faceResult then
          shown_by (faceModalToasts env);;
          if negb (showFaceModal env) then
            showToast "Face registration required for attendance" "error";;
            ret None
          else
            shown_by (retryCameraToasts env);;
            let retryResult := retryFaceVerification env in
            if negb (success retryResult) then
              showToast (face_message retryResult) "error";;
              ret None
            else
              shown_by (photoToasts env);;
              ret (Some (true, capturePhoto env))
        else
          showToast (face_message faceResult) "error";;
          ret None
      else
        shown_by (photoToasts env);;
        ret (Some (true, capturePhoto env))
    else ret (Some (false, VNull))
  else ret (Some (false, VNull)).

(** The paths through a handler. The handlers themselves return
    nothing; the tag names the [return] (or the end of the body) that a
    run reaches, and [UnknownError] is the [catch] block. *)
Inductive Outcome :=
| LoginRequired
| NotCheckedIn
| LocationRejected
| FaceRejected
| Saved
| SaveFailed
| UnknownError.

(** The [attendanceRecord] object literal of [handleTimeIn]. *)
Definition attendanceRecord (cfg : Config) (env : Env) (user : User)
    (faceVerified : bool) (photoData : value) : record :=
  let now := now env in
  let timeString := Utils.formatTime (Some now) in
  let isLate :=
    Utils.isLate timeString (startTime (WORK_SCHEDULE cfg))
                 (lateThreshold (WORK_SCHEDULE cfg)) in
  list_to_map [
    ("id", VStr (generateId env 0));
    ("userId", VStr (user_id user));
    ("userName", VStr (user_name user));
    ("date", VStr (Utils.formatDate (Some now)));
    ("dateTime", VInstant now);
    ("timeIn", VInstant now);
    ("timeInFormatted", VStr timeString);
    ("timeOut", VNull);
    ("location", VCoords (position env));
    ("photo", photoData);
    ("faceVerified", VBool faceVerified);
    ("status", VStr (if isLate then "late" else "present"));
    ("synced", VBool false) ].

Definition handleTimeIn (cfg : Config) (env : Env) : M Outcome :=
  try_catch
    (if negb (isAuthenticated env) then
       showToast "Please login first" "error";; ret LoginRequired
     else
       locationValid ← validateLocation cfg env;
       if negb locationValid then ret LocationRejected
       else
         face ← verifyFace cfg env;
         match face with
         | None => ret FaceRejected
         | Some (faceVerified, photoData) =>
             user ← match currentUser env with
                    | Some u => ret u
                    | None => throw
                    end;
             let attendanceRecord :=
               attendanceRecord cfg env user faceVerified photoData in
             save ← Storage.saveAttendanceRecord attendanceRecord (generateId env 1);
             let saved : bool := save.1 in
             let attendanceRecord : record := save.2 in
             if saved then
               set_todayRecord (Some attendanceRecord);;
               showToast (getSuccess cfg SUCCESS_checkinSuccess) "success";;
               (if onLine env then syncAttendance attendanceRecord
                else addToOfflineQueue attendanceRecord);;
               ret Saved
             else
               showToast "Failed to save attendance. Please try again." "error";;
               ret SaveFailed
         end)
    (showToast (getError cfg ERRORS_unknownError) "error";; ret UnknownError).

(** The camera block of [handleTimeOut]: the photo goes into the
    [updates] object below; here are the toasts of the two calls. *)
Definition checkoutCamera (cfg : Config) (env : Env) : M unit :=
  if FEATURES_faceRecognition cfg then
    shown_by (cameraToasts env);;
    if startCamera env then shown_by (photoToasts env) else ret tt
  else ret tt.

(** The [updates] object of [handleTimeOut], with the [status] property
    that the [if] after the literal adds. *)
Definition timeOutUpdates (cfg : Config) (env : Env) (todayRecord0 : record) : record :=
  let photoData :=
    if FEATURES_faceRecognition cfg && startCamera env
    then capturePhoto env else VNull in
  let now := now env in
  let timeString := Utils.formatTime (Some now) in
  let timeIn := toDate (field todayRecord0 "timeIn") in
  let workDuration := Utils.calculateTimeDifference timeIn (Some now) in
  let isEarlyLeave := isEarlyLeave cfg timeString in
  let updates : record := list_to_map [
    ("timeOut", VInstant now);
    ("timeOutFormatted", VStr timeString);
    ("checkoutLocation", VCoords (position env));
    ("checkoutPhoto", photoData);
    ("workHours", VNum (Utils.hours workDuration));
    ("workMinutes", VNum (Utils.minutes workDuration));
    ("totalWorkMinutes",
       from_option VNum VUndefined (Utils.totalMinutes workDuration));
    ("earlyLeave", VBool isEarlyLeave);
    ("synced", VBool false) ] in
  if isEarlyLeave && strict_eq (field todayRecord0 "status") (VStr "present")
  then <["status" := VStr "early_leave"]> updates else updates.

Definition handleTimeOut (cfg : Config) (env : Env) : M Outcome :=
  try_catch
    (if negb (isAuthenticated env) then
       showToast "Please login first" "error";; ret LoginRequired
     else
       today ← gets todayRecord;
       match today with
       | None =>
           showToast (getError cfg ERRORS_notCheckedIn) "error";; ret NotCheckedIn
       | Some todayRecord0 =>
           if negb (truthy (field todayRecord0 "timeIn")) then
             showToast (getError cfg ERRORS_notCheckedIn) "error";; ret NotCheckedIn
           else
             locationValid ← validateLocation cfg env;
             if negb locationValid then ret LocationRejected
             else
               checkoutCamera cfg env;;
               let updates := timeOutUpdates cfg env todayRecord0 in
               updated ← Storage.updateAttendanceRecord (field todayRecord0 "id") updates;
               if (updated : bool) then
                 let todayRecord1 := spread todayRecord0 updates in
                 set_todayRecord (Some todayRecord1);;
                 showToast (getSuccess cfg SUCCESS_checkoutSuccess) "success";;
                 (if onLine env then syncAttendance todayRecord1
                  else addToOfflineQueue todayRecord1);;
                 ret Saved
               else
                 showToast "Failed to update attendance. Please try again." "error";;
                 ret SaveFailed
       end)
    (showToast (getError cfg ERRORS_unknownError) "error";; ret UnknownError).

Definition syncOfflineQueue : M unit :=
  q ← gets offlineQueue;
  if (length q =? 0)%nat then ret tt
  else
    let queue := q in
    set_offlineQueue [];;
    for_of queue (fun record0 =>
      try_catch (syncAttendance record0)
                (q' ← gets offlineQueue; set_offlineQueue (q' ++ [ record0 ])));;
    q'' ← gets offlineQueue;
    if (length q'' =? 0)%nat
    then showToast "All offline records synced successfully" "success"
    else ret tt.

(** The timer that [setupOfflineSupport] installs. *)
Definition syncTimerTick (cfg : Config) (env : Env) : M unit :=
  q ← gets offlineQueue;
  if OFFLINE_enabled cfg && onLine env && (0 <? length q)%nat
  then syncOfflineQueue else ret tt.

Record Statistics := mkStatistics {
  totalDays : nat;
  presentDays : nat;
  lateDays : nat;
  earlyLeaveDays : nat;
  totalWorkHours : num;
  totalWorkMinutes : num;
  attendanceRate : option Z
}.

(** The filter of [getStatistics]: the record's date is in the current
    month of the current year. *)
Definition in_current_month (currentMonth currentYear : Z) (record0 : record) : bool :=
  match toDate (field record0 "dateTime") with
  | Some recordDate =>
      (MonthFromTime recordDate + 1 =? currentMonth)
      && (YearFromTime recordDate =? currentYear)
  | None => false
  end.

Definition latestRecordsByDate (monthlyRecords : list record) (uniqueDates : list value)
  : list (option record) :=
  (fun date =>
     let dailyRecords :=
       List.filter (fun r => strict_eq (field r "date") date) monthlyRecords in
     dailyRecords !! (length dailyRecords - 1)%nat) <$> uniqueDates.

Definition getStatistics (env : Env) : M Statistics :=
  records ← Storage.getAttendanceRecords;
  let now := now env in
  let currentMonth := MonthFromTime now + 1 in
  let currentYear := YearFromTime now in
  records ← as_array records;
  let monthlyRecords := List.filter (in_current_month currentMonth currentYear) records in
  let uniqueDates := unique ((fun r => field r "date") <$> monthlyRecords) in
  let totalDays := length uniqueDates in
  latest ← all_defined (latestRecordsByDate monthlyRecords uniqueDates);
  let presentDays := count (fun r => strict_eq (field r "status") (VStr "present")) latest in
  let lateDays := count (fun r => strict_eq (field r "status") (VStr "late")) latest in
  let earlyLeaveDays := count (fun r => truthy (field r "earlyLeave")) latest in
  let totalWorkMinutes :=
    foldl (fun total r => add_if_truthy total (field r "totalWorkMinutes")) (Some 0) latest in
  let totalWorkHours := (fun t => t / 60) <$> totalWorkMinutes in
  let remainingMinutes := (fun t => Z.rem t 60) <$> totalWorkMinutes in
  ret {| totalDays := totalDays;
         presentDays := presentDays;
         lateDays := lateDays;
         earlyLeaveDays := earlyLeaveDays;
         totalWorkHours := totalWorkHours;
         totalWorkMinutes := remainingMinutes;
         attendanceRate := attendance_rate presentDays totalDays |}.

End Attendance.

(** ** Stored values in arithmetic and in text *)

(** The number that arithmetic takes a stored value for; a string counts
    through [Number]. *)
Definition to_num (v : value) : num :=
  match v with
  | VNum n => Some n
  | VBool b => Some (if b then 1 else 0)
  | VNull => Some 0
  | VStr s => Number s
  | VUndefined | VInstant _ | VCoords _ => None
  end.

(** A number inside a template literal. *)
Definition num_text (n : num) : string :=
  match n with
  | Some z => toString z
  | None => "NaN"
  end.

(** [v / 60] for a stored value [v], in double precision. *)
Definition div60 (v : value) : float64 :=
  match to_num v with
  | Some n => fdiv (of_Z n) (of_Z 60)
  | None => S754_nan
  end.

(** The bar of a chart for the record found for a day:
    [record && record.totalWorkMinutes ? record.totalWorkMinutes / 60 : 0] *)
Definition chart_hours (record0 : option record) : float64 :=
  match record0 with
  | Some r =>
      if truthy (field r "totalWorkMinutes")
      then div60 (field r "totalWorkMinutes") else of_Z 0
  | None => of_Z 0
  end.

(** ** The reports module *)

Module Reports.

(** The summary object of [getSummaryStats]; its two averages
    ([avgWorkHours], [avgWorkMins]) are display values and left out. *)
Record SummaryStats := mkSummaryStats {
  totalDays : nat;
  presentDays : nat;
  lateDays : nat;
  earlyLeaveDays : nat;
  totalWorkHours : num;
  attendanceRate : option Z
}.

Definition getSummaryStats (year month : Z) : M SummaryStats :=
  records ← Storage.getMonthlyAttendance year month;
  let totalDays := length records in
  let presentDays := count (fun r => strict_eq (field r "status") (VStr "present")) records in
  let lateDays := count (fun r => strict_eq (field r "status") (VStr "late")) records in
  let earlyLeaveDays := count (fun r => truthy (field r "earlyLeave")) records in
  let totalWorkMinutes :=
    foldl (fun total r => add_if_truthy total (field r "totalWorkMinutes")) (Some 0) records in
  ret {| totalDays := totalDays;
         presentDays := presentDays;
         lateDays := lateDays;
         earlyLeaveDays := earlyLeaveDays;
         totalWorkHours := (fun t => t / 60) <$> totalWorkMinutes;
         attendanceRate := attendance_rate presentDays totalDays |}.

(** The text that [setDefaultMonth] puts into the month input. *)
Definition setDefaultMonth (now : Z) : string :=
  let year := YearFromTime now in
  let month := padStart 2 "0" (toString (MonthFromTime now + 1)) in
  toString year +:+ "-" +:+ month.

(** What [generateReport] reads from the month input:
    [const [year, month] = monthInput.value.split('-').map(Number)] *)
Definition selectedMonth (value : string) : num * num :=
  let parts := split "-" value in
  (nth_num 0 parts, nth_num 1 parts).

(** [prepareMonthlyTrendData(records, year, month)] for an array of
    records and two numbers: a label and a bar for every day of the
    month. *)
Record TrendData := mkTrendData { labels : list Z; hours : list float64 }.

Definition trendDay (records : list record) (year month day : Z) : Z * float64 :=
  let dateStr := Utils.formatDate (Some (newDate year (month - 1) day)) in
  let record0 :=
    List.find (fun r => strict_eq (field r "date") (VStr dateStr)) records in
  (day, chart_hours record0).

Definition prepareMonthlyTrendData (records : list record) (year month : Z)
  : TrendData :=
  let daysInMonth := DateFromTime (newDate year month 0) in
  let days :=
    trendDay records year month <$> (Z.of_nat <$> seq 1 (Z.to_nat daysInMonth)) in
  {| labels := days.*1; hours := days.*2 |}.

(** The work-hours cell of [populateHistoryTable]. *)
Definition historyWorkHours (record0 : record) : string :=
  let m := field record0 "totalWorkMinutes" in
  if truthy m then
    num_text ((fun n => n / 60) <$> to_num m) +:+ "h "
    +:+ num_text ((fun n => Z.rem n 60) <$> to_num m) +:+ "m"
  else "In Progress".

(** The work-hours column of [exportToCSV]. *)
Definition csvWorkHours (record0 : record) : string :=
  let m := field record0 "totalWorkMinutes" in
  if truthy m then
    num_text ((fun n => n / 60) <$> to_num m) +:+ ":"
    +:+ padStart 2 "0" (num_text ((fun n => Z.rem n 60) <$> to_num m))
  else "".

End Reports.

(** ** The dashboard module *)

Module Dashboard.

(** The text of the "Today's Status" card of [updateStatusCards]. *)
Definition todayStatus (todayRecord : option record) : string :=
  match todayRecord with
  | None => "Not Checked In"
  | Some r => if truthy (field r "timeOut") then "Checked Out" else "Checked In"
  end.

Section WorkHours.
(** The text of a stored timestamp; it depends on the zone offset, which
    the representation of dates leaves open. *)
Variable toISOString : Z -> string.

(** A stored value inside a template literal. *)
Definition text_of (v : value) : string :=
  match v with
  | VUndefined => "undefined"
  | VNull => "null"
  | VBool b => if b then "true" else "false"
  | VNum n => toString n
  | VStr s => s
  | VInstant t => toISOString t
  | VCoords _ => "[object Object]"
  end.

(** The text of the "Work Hours" card of [updateStatusCards], [now]
    being the clock's [new Date()]. *)
Definition workHours (todayRecord : option record) (now : Z) : string :=
  match todayRecord with
  | Some r =>
      if truthy (field r "timeIn") && negb (truthy (field r "timeOut")) then
        Utils.total (Utils.calculateTimeDifference (toDate (field r "timeIn")) (Some now))
      else if negb (strict_eq (field r "workHours") VUndefined) then
        text_of (field r "workHours") +:+ "h " +:+ text_of (field r "workMinutes") +:+ "m"
      else "0h 0m"
  | None => "0h 0m"
  end.
End WorkHours.

(** [getWeeklyChartData()]: a label and a bar for today and each of the
    six days before, oldest first. [now] is the clock's [new Date()],
    which every round of the loop reads anew and which is taken to be
    the same instant throughout. *)
Record ChartData := mkChartData { labels : list string; hours : list float64 }.

Definition weekDay (now : Z) (records : list record) (i : Z) : string * float64 :=
  let date := setDate now (DateFromTime now - i) in
  let dateStr := Utils.formatDate (Some date) in
  let dayName := String.substring 0 3 (Utils.getDayName (Some date)) in
  let record0 :=
    List.find (fun r => strict_eq (field r "date") (VStr dateStr)) records in
  (dayName, chart_hours record0).

Definition getWeeklyChartData (now : Z) : M ChartData :=
  records ← Storage.getAttendanceRecords;
  records ← as_array records;
  let week := weekDay now records <$> [6; 5; 4; 3; 2; 1; 0] in
  ret {| labels := week.*1; hours := week.*2 |}.

End Dashboard.

(** ** js/config.js: what the session and the location code read *)

(** [CONFIG.VALIDATION.password] *)
Definition CONFIG_VALIDATION_password : Utils.PasswordRules := {|
  Utils.minLength := Some 6;
  Utils.requireUppercase := Some false;
  Utils.requireLowercase := Some false;
  Utils.requireNumbers := Some false;
  Utils.requireSpecialChars := Some false
|}.

(** The settings that [Auth], [Storage] and [Location] read from
    [CONFIG.SECURITY], [CONFIG.VALIDATION], [CONFIG.ERRORS] and
    [CONFIG.SUCCESS]. *)
Record Settings := mkSettings {
  SECURITY_tokenExpiration : Z;       (* hours *)
  SECURITY_maxLoginAttempts : Z;
  SECURITY_lockoutDuration : Z;       (* minutes *)
  VALIDATION_password : Utils.PasswordRules;
  ERRORS_invalidEmail : string;
  ERRORS_emailExists : string;
  ERRORS_invalidCredentials : string;
  ERRORS_accountLocked : string;
  ERRORS_networkError : string;
  ERRORS_locationDenied : string;
  ERRORS_locationTimeout : string;
  ERRORS_locationUnavailable : string;
  ERRORS_fallback : string;           (* [ERRORS.unknownError] *)
  SUCCESS_loginSuccess : string;
  SUCCESS_registerSuccess : string
}.

(** The literal values of the repository. *)
Definition SETTINGS : Settings := {|
  SECURITY_tokenExpiration := 24;
  SECURITY_maxLoginAttempts := 5;
  SECURITY_lockoutDuration := 15;
  VALIDATION_password := CONFIG_VALIDATION_password;
  ERRORS_invalidEmail := "Please enter a valid email address";
  ERRORS_emailExists := "Email already registered";
  ERRORS_invalidCredentials := "Invalid email or password";
  ERRORS_accountLocked := "Account locked due to multiple failed attempts";
  ERRORS_networkError := "Network error. Please check your internet connection.";
  ERRORS_locationDenied := "Location access denied. Please enable location services.";
  ERRORS_locationTimeout := "Location request timed out. Please try again.";
  ERRORS_locationUnavailable :=
    "Location unavailable. Please check your device settings.";
  ERRORS_fallback := "An unexpected error occurred. Please try again.";
  SUCCESS_loginSuccess := "Login successful! Welcome back.";
  SUCCESS_registerSuccess := "Registration successful! Please login."
|}.

(** [CONFIG.getError(key)] and [CONFIG.getSuccess(key)] *)
Definition errorText (cfg : Settings) (pick : Settings -> string) : string :=
  if String.eqb (pick cfg) "" then ERRORS_fallback cfg else pick cfg.
Definition successText (cfg : Settings) (pick : Settings -> string) : string :=
  if String.eqb (pick cfg) "" then "Operation successful!" else pick cfg.

(** ** The session: accounts, the stored user and token, login attempts *)

Record Account := mkAccount {
  account_id : string;
  account_name : string;
  account_email : string;
  account_password : string;
  account_department : string;
  account_createdAt : Z
}.

(** The object that [Storage.saveUser] is given at login. *)
Record Profile := mkProfile {
  profile_id : string;
  profile_name : string;
  profile_email : string;
  profile_department : string
}.

Record TokenData := mkTokenData { token : string; timestamp : Z }.

Record Attempts := mkAttempts { attempts_count : Z; attempts_lastAttempt : Z }.

(** What lies under the key ['registered_users']. *)
Inductive UsersEntry :=
| NoUsers
| Users (accounts : list Account)
| NotAnArray.

(** [Auth.currentUser]: the account found at login, or the profile read
    back from the store when the page loads. *)
Inductive Who :=
| Member (a : Account)
| Restored (p : Profile).

(** The store, as far as the session keys go ([None]: no entry; the
    entries hold what the application wrote), the two fields
    [currentUser] and [loginAttempts] of the [Auth] object, and the
    toasts shown. The keys of [loginAttempts] are email addresses. *)
Record Session := mkSession {
  storageAvailable : bool;
  storageFull : bool;
  registered_users : UsersEntry;
  attendance_user : option Profile;
  attendance_token : option TokenData;
  Auth_currentUser : option Who;
  Auth_loginAttempts : gmap string Attempts;
  shown : list Toast
}.

Definition toast (msg type : string) (s : Session) : Session :=
  {| storageAvailable := storageAvailable s; storageFull := storageFull s;
     registered_users := registered_users s; attendance_user := attendance_user s;
     attendance_token := attendance_token s; Auth_currentUser := Auth_currentUser s;
     Auth_loginAttempts := Auth_loginAttempts s;
     shown := shown s ++ [ mkToast msg type ] |}.

Definition set_users (e : UsersEntry) (s : Session) : Session :=
  {| storageAvailable := storageAvailable s; storageFull := storageFull s;
     registered_users := e; attendance_user := attendance_user s;
     attendance_token := attendance_token s; Auth_currentUser := Auth_currentUser s;
     Auth_loginAttempts := Auth_loginAttempts s; shown := shown s |}.

Definition set_user (p : option Profile) (s : Session) : Session :=
  {| storageAvailable := storageAvailable s; storageFull := storageFull s;
     registered_users := registered_users s; attendance_user := p;
     attendance_token := attendance_token s; Auth_currentUser := Auth_currentUser s;
     Auth_loginAttempts := Auth_loginAttempts s; shown := shown s |}.

Definition set_token (t : option TokenData) (s : Session) : Session :=
  {| storageAvailable := storageAvailable s; storageFull := storageFull s;
     registered_users := registered_users s; attendance_user := attendance_user s;
     attendance_token := t; Auth_currentUser := Auth_currentUser s;
     Auth_loginAttempts := Auth_loginAttempts s; shown := shown s |}.

Definition set_currentUser (u : option Who) (s : Session) : Session :=
  {| storageAvailable := storageAvailable s; storageFull := storageFull s;
     registered_users := registered_users s; attendance_user := attendance_user s;
     attendance_token := attendance_token s; Auth_currentUser := u;
     Auth_loginAttempts := Auth_loginAttempts s; shown := shown s |}.

Definition set_loginAttempts (a : gmap string Attempts) (s : Session) : Session :=
  {| storageAvailable := storageAvailable s; storageFull := storageFull s;
     registered_users := registered_users s; attendance_user := attendance_user s;
     attendance_token := attendance_token s; Auth_currentUser := Auth_currentUser s;
     Auth_loginAttempts := a; shown := shown s |}.

(** ** js/utils.js: [Storage], the keys of the session *)

Module UserStorage.

(** [setItem(key, value)]: [write] is the assignment to the entry. *)
Definition setItem (write : Session -> Session) (s : Session) : bool * Session :=
  if negb (storageAvailable s) then (false, s)
  else if storageFull s then
    (false, toast "Storage quota exceeded. Please clear some data." "error" s)
  else (true, write s).

(** [removeItem(key)] *)
Definition removeItem (write : Session -> Session) (s : Session) : bool * Session :=
  if negb (storageAvailable s) then (false, s) else (true, write s).

(** [getItem('registered_users', [])] *)
Definition getUsers (s : Session) : UsersEntry :=
  if negb (storageAvailable s) then Users []
  else match registered_users s with
       | NoUsers => Users []
       | e => e
       end.

Definition saveUser (userData : Profile) : Session -> bool * Session :=
  setItem (set_user (Some userData)).

Definition getUser (s : Session) : option Profile :=
  if negb (storageAvailable s) then None else attendance_user s.

Definition removeUser : Session -> bool * Session := removeItem (set_user None).

Definition saveToken (token0 : string) (now : Z) : Session -> bool * Session :=
  setItem (set_token (Some {| token := token0; timestamp := now |})).

Definition removeToken : Session -> bool * Session := removeItem (set_token None).

Definition getToken (cfg : Settings) (now : Z) (s : Session) : option string * Session :=
  let data := if negb (storageAvailable s) then None else attendance_token s in
  match data with
  | None => (None, s)
  | Some data =>
      let expirationTime := SECURITY_tokenExpiration cfg * 60 * 60 * 1000 in
      let isExpired := expirationTime <? now - timestamp data in
      if isExpired then (None, (removeToken s).2)
      else (Some (token data), s)
  end.

End UserStorage.

(** ** The authentication module *)

Module Auth.

Definition clearFailedLogins (email : string) (s : Session) : Session :=
  set_loginAttempts (delete email (Auth_loginAttempts s)) s.

Definition recordFailedLogin (cfg : Settings) (email : string) (now : Z)
    (s : Session) : Session :=
  let attempts :=
    match Auth_loginAttempts s !! email with
    | Some a => a
    | None => {| attempts_count := 0; attempts_lastAttempt := now |}
    end in
  let attempts := {| attempts_count := attempts_count attempts + 1; attempts_lastAttempt := now |} in
  let s := set_loginAttempts (<[email := attempts]> (Auth_loginAttempts s)) s in
  let remaining := SECURITY_maxLoginAttempts cfg - attempts_count attempts in
  if 0 <? remaining then
    toast ("Invalid credentials. " +:+ toString remaining +:+ " attempts remaining.")
          "warning" s
  else s.

Definition isAccountLocked (cfg : Settings) (email : string) (now : Z)
    (s : Session) : bool * Session :=
  match Auth_loginAttempts s !! email with
  | None => (false, s)
  | Some attempts =>
      if SECURITY_maxLoginAttempts cfg <=? attempts_count attempts then
        let lockoutTime := SECURITY_lockoutDuration cfg * 60 * 1000 in
        let timeSinceLastAttempt := now - attempts_lastAttempt attempts in
        if timeSinceLastAttempt <? lockoutTime then (true, s)
        else (false, clearFailedLogins email s)
      else (false, s)
  end.

Definition validateLoginInputs (cfg : Settings) (email password : string)
    (s : Session) : bool * Session :=
  if String.eqb email "" then
    (false, toast "Please enter your email address" "warning" s)
  else if negb (Utils.validateEmail email) then
    (false, toast (errorText cfg ERRORS_invalidEmail) "error" s)
  else if String.eqb password "" then
    (false, toast "Please enter your password" "warning" s)
  else (true, s).

Definition validateRegisterInputs (cfg : Settings)
    (name email password department : string) (s : Session) : bool * Session :=
  if String.eqb name "" || (String.length name <? 2)%nat then
    (false, toast "Please enter a valid name (at least 2 characters)" "warning" s)
  else if negb (Utils.validateEmail email) then
    (false, toast (errorText cfg ERRORS_invalidEmail) "error" s)
  else
    let passwordValidation :=
      Utils.validatePassword password (VALIDATION_password cfg) in
    if negb (Utils.isValid passwordValidation) then
      (false, toast (default "" (head (Utils.errors passwordValidation))) "error" s)
    else if String.eqb department "" then
      (false, toast "Please select your department" "warning" s)
    else (true, s).

(** The ways through [handleLogin]; [LoginError] is its [catch] block. *)
Inductive LoginOutcome :=
| LoginRejected        (* the inputs did not validate *)
| LoginLocked
| LoginFailed          (* no account with this email and password *)
| LoggedIn
| LoginError.

(** [email] and [password] are the values read from the form, the email
    trimmed; [checked] and [answered] are the clock before and after
    the awaited delay, and [tokenId] is the identifier drawn for the
    token. *)
Definition handleLogin (cfg : Settings) (email password : string)
    (checked answered : Z) (tokenId : string) (s : Session)
  : LoginOutcome * Session :=
  let '(valid, s) := validateLoginInputs cfg email password s in
  if negb valid then (LoginRejected, s)
  else
    let '(locked, s) := isAccountLocked cfg email checked s in
    if locked then (LoginLocked, toast (errorText cfg ERRORS_accountLocked) "error" s)
    else
      match UserStorage.getUsers s with
      | Users users =>
          match List.find (fun u => String.eqb (account_email u) email
                                    && String.eqb (account_password u) password) users with
          | None =>
              let s := recordFailedLogin cfg email answered s in
              (LoginFailed, toast (errorText cfg ERRORS_invalidCredentials) "error" s)
          | Some user =>
              let token0 := "token_" +:+ tokenId +:+ "_" +:+ toString answered in
              let s := (UserStorage.saveUser
                          {| profile_id := account_id user;
                             profile_name := account_name user;
                             profile_email := account_email user;
                             profile_department := account_department user |} s).2 in
              let s := (UserStorage.saveToken token0 answered s).2 in
              let s := set_currentUser (Some (Member user)) s in
              let s := clearFailedLogins email s in
              (LoggedIn, toast (successText cfg SUCCESS_loginSuccess) "success" s)
          end
      | _ =>
          (* [users.find] is not a function *)
          (LoginError, toast (errorText cfg ERRORS_networkError) "error" s)
      end.

Inductive RegisterOutcome :=
| RegisterRejected
| EmailTaken
| Registered
| RegisterError.

Definition handleRegister (cfg : Settings) (name email password department : string)
    (newId : string) (now : Z) (s : Session) : RegisterOutcome * Session :=
  let '(valid, s) := validateRegisterInputs cfg name email password department s in
  if negb valid then (RegisterRejected, s)
  else
    match UserStorage.getUsers s with
    | Users users =>
        match List.find (fun u => String.eqb (account_email u) email) users with
        | Some _ => (EmailTaken, toast (errorText cfg ERRORS_emailExists) "error" s)
        | None =>
            let newUser :=
              {| account_id := newId; account_name := name; account_email := email;
                 account_password := password; account_department := department;
                 account_createdAt := now |} in
            let s := (UserStorage.setItem (set_users (Users (users ++ [ newUser ]))) s).2 in
            (Registered, toast (successText cfg SUCCESS_registerSuccess) "success" s)
        end
    | _ => (RegisterError, toast (errorText cfg ERRORS_networkError) "error" s)
    end.

(** [confirmed] is the answer to the confirmation dialog; the two forms
    that are reset are taken to be on the page. *)
Definition handleLogout (confirmed : bool) (s : Session) : Session :=
  if negb confirmed then s
  else
    let s := (UserStorage.removeUser s).2 in
    let s := (UserStorage.removeToken s).2 in
    let s := set_currentUser None s in
    toast "Logged out successfully" "info" s.

Definition checkExistingSession (cfg : Settings) (now : Z) (s : Session) : Session :=
  let user := UserStorage.getUser s in
  let '(token0, s) := UserStorage.getToken cfg now s in
  match user, token0 with
  | Some u, Some t =>
      (* both are objects or non-empty strings *)
      if negb (String.eqb t "") then set_currentUser (Some (Restored u)) s else s
  | _, _ => s
  end.

Definition isAuthenticated (cfg : Settings) (now : Z) (s : Session) : bool * Session :=
  match Auth_currentUser s with
  | None => (false, s)
  | Some _ =>
      let '(token0, s) := UserStorage.getToken cfg now s in
      (bool_decide (is_Some token0), s)
  end.

End Auth.

(** ** js/location.js: validating the position *)

Module Location.

(** The codes of a [GeolocationPositionError]. *)
Inductive PositionError :=
| PERMISSION_DENIED
| POSITION_UNAVAILABLE
| TIMEOUT
| OtherCode.

(** What becomes of [navigator.geolocation.getCurrentPosition]: the
    success callback runs, the error callback runs, or the browser has
    no [geolocation] object and the call itself throws. The map and the
    page elements are taken to be in place. *)
Inductive Answer :=
| Position (coords : Coords)
| Error (error : PositionError)
| Unsupported.

(** The message of [handleLocationError]. *)
Definition errorMessage (msgs : Settings) (error : PositionError) : string :=
  match error with
  | PERMISSION_DENIED => errorText msgs ERRORS_locationDenied
  | POSITION_UNAVAILABLE => errorText msgs ERRORS_locationUnavailable
  | TIMEOUT => errorText msgs ERRORS_locationTimeout
  | OtherCode => "An unknown location error occurred"
  end.

(** The outcome of [validateGeofence]: its answer, the toasts it has
    shown, and the position that [handleLocationSuccess] has put into
    [Location.currentPosition] ([None]: the field is left as it was). *)
Record Validation := mkValidation {
  isWithin : bool;
  messages : list Toast;
  currentPosition : option Coords
}.

Section WithMath.
Variables (Math_sin Math_cos : float64 -> float64).
Variable (Math_atan2 : float64 -> float64 -> float64).
(** The text of [Math.round(distance)] inside the message. *)
Variable (roundedText : float64 -> string).

Definition validateGeofence (cfg : Config) (msgs : Settings) (answer : Answer)
  : Validation :=
  match answer with
  | Unsupported =>
      {| isWithin := false; messages := []; currentPosition := None |}
  | Error error =>
      {| isWithin := false;
         messages := [ mkToast (errorMessage msgs error) "error" ];
         currentPosition := None |}
  | Position coords =>
      let isWithin :=
        Utils.isWithinGeofence Math_sin Math_cos Math_atan2
          (latitude coords) (longitude coords)
          (OFFICE_LOCATION cfg).1 (OFFICE_LOCATION cfg).2 (GEO_FENCE_RADIUS cfg) in
      let distance :=
        Utils.calculateDistance Math_sin Math_cos Math_atan2
          (latitude coords) (longitude coords)
          (OFFICE_LOCATION cfg).1 (OFFICE_LOCATION cfg).2 in
      {| isWithin := isWithin;
         messages :=
           if negb isWithin then
             [ mkToast ("You are " +:+ roundedText distance
                        +:+ "m away from office. Please move closer.") "error" ]
           else [];
         currentPosition := Some coords |}
  end.

End WithMath.

End Location.

(** The records that [Storage.getAttendanceRecords()] hands out in a
    given state (none when the store does not hold an array). *)
Definition stored_records (w : World) : list record :=
  match (Storage.getAttendanceRecords w).1 with
  | Ok (JArray l) => l
  | _ => []
  end.

(** The state after some more toasts have been shown. *)
Definition add_toasts (ts : list Toast) (w : World) : World :=
  {| localStorage := localStorage w; toasts := toasts w ++ ts;
     todayRecord := todayRecord w; offlineQueue := offlineQueue w |}.

(** Two arrays of records that agree position by position on every
    property but [synced]. *)
Definition same_but_synced (l l' : list record) : Prop :=
  Forall2 (fun r r' => forall k, k <> "synced" -> field r' k = field r k) l l'.

(** The state in which a successful handler leaves the page before it
    syncs or queues the record: [todayRecord] replaced, success toast
    shown. *)
Definition committed (r : record) (msg : string) (w : World) : World :=
  {| localStorage := localStorage w;
     toasts := toasts w ++ [ mkToast msg "success" ];
     todayRecord := Some r;
     offlineQueue := offlineQueue w |}.

(** The latest stored record of the date of [now]. *)
Definition latest_today (l : list record) (now : Z) : option record :=
  last (List.filter
          (fun x => strict_eq (field x "date") (VStr (Utils.formatDate (Some now)))) l).

(** The cache is in step with the store: the store holds the array [l]
    and [Attendance.todayRecord] is its latest record of the current
    date, as [loadTodayAttendance] leaves it, or differs from it in
    [synced] only, as a saved time-in leaves it (the record is cached
    before it is marked as synced in the store). *)
Definition cache_in_step (env : Env) (w : World) (l : list record) : Prop :=
  Storage.getAttendanceRecords w = (Ok (JArray l), w)
  /\ match todayRecord w, latest_today l (now env) with
     | None, None => True
     | Some cached, Some r => forall k, k <> "synced" -> field cached k = field r k
     | _, _ => False
     end.

(** The toasts of the camera block of [handleTimeOut]. *)
Definition checkout_toasts (cfg : Config) (env : Env) : list Toast :=
  if FEATURES_faceRecognition cfg then
    cameraToasts env ++ (if startCamera env then photoToasts env else [])
  else [].

(** The last step of both handlers. *)
Definition sync_or_queue (env : Env) (r : record) : M unit :=
  if onLine env then Attendance.syncAttendance r else Attendance.addToOfflineQueue r.

(** The loop of [syncOfflineQueue]. *)
Definition drain_loop (queue : list record) : M unit :=
  for_of queue (fun record0 =>
    try_catch (Attendance.syncAttendance record0)
              (q' ← gets offlineQueue; set_offlineQueue (q' ++ [ record0 ]))).

(** The records of the current month, as [getStatistics] filters them. *)
Definition monthly_records (l : list record) (now : Z) : list record :=
  List.filter (Attendance.in_current_month (MonthFromTime now + 1) (YearFromTime now)) l.

(** The [date] properties of a list of records. *)
Definition dates_of (l : list record) : list value :=
  (fun r => field r "date") <$> l.

(** [r] is the last record of [l] whose [date] is [d]. *)
Definition last_of_date (l : list record) (d : value) (r : record) : Prop :=
  exists l1 l2, l = l1 ++ r :: l2
                /\ field r "date" = d
                /\ forall x, x ∈ l2 -> field x "date" <> d.

(** The records [getStatistics] counts: for each distinct date of the
    month, in order of first occurrence, the last record of that date. *)
Definition latest_records (monthly : list record) : list record :=
  omap (fun d => last (List.filter (fun r => strict_eq (field r "date") d) monthly))
       (unique (dates_of monthly)).

(** A record's own duration, as the sum takes it: the number under
    [totalWorkMinutes], nothing when the property is missing. *)
Definition own_minutes (r : record) : Z :=
  match field r "totalWorkMinutes" with
  | VNum n => n
  | _ => 0
  end.

(** [round(100 * p / t)] in exact arithmetic, halves going up. *)
Definition round_percent (p t : Z) : Z := (200 * p + t) / (2 * t).

(** The sum of the records' own durations. *)
Definition total_minutes (l : list record) : Z :=
  foldr Z.add 0 (own_minutes <$> l).

(** [totalWorkMinutes] holds a number, or is missing or [null]. *)
Definition minutes_typed (r : record) : Prop :=
  match field r "totalWorkMinutes" with
  | VNum _ | VUndefined | VNull => True
  | _ => False
  end.

(** A record whose [date] is the formatted local date of its
    [dateTime], as [handleTimeIn] writes the two. *)
Definition dated (r : record) : Prop :=
  match toDate (field r "dateTime") with
  | Some t => field r "date" = VStr (Utils.formatDate (Some t))
  | None => True
  end.

(** No [':'] occurs in the string. *)
Definition no_colon (s : string) : bool :=
  forallb (fun c => negb (Ascii.eqb c ":")) (list_ascii_of_string s).

(** A two-digit field reads back as the number it was printed from. *)
Definition two_digit_ok (n : Z) : bool :=
  let s := padStart 2 "0" (toString n) in
  bool_decide (Number s = Some n) && no_colon s.

(** Minutes since midnight on the clock. *)
Definition minutes_of_day (t : Z) : Z := HourFromTime t * 60 + MinFromTime t.

(** The double-precision [Math.round((p / t) * 100)] against the exact
    rounding of [100 p / t], for every count up to 39 days. *)
Definition rate_ok (t p : nat) : bool :=
  bool_decide (attendance_rate p t
               = Some (round_percent (Z.of_nat p) (Z.of_nat t))).

(** The page at first load: nothing stored, cached or queued; the two
    flags say whether the browser lets the page use its store. *)
Definition start_page (available quotaExceeded : bool) : World := {|
  localStorage := {| available := available; quotaExceeded := quotaExceeded;
                     attendance := None |};
  toasts := [];
  todayRecord := None;
  offlineQueue := []
|}.

(** The store hands out an array. *)
Definition holds_array (w : World) : Prop :=
  exists l, Storage.getAttendanceRecords w = (Ok (JArray l), w).

(** The shape that the statistics rely on: a record dated by its own
    timestamp whose duration, if any, is a number. *)
Definition well_formed (r : record) : Prop := dated r /\ minutes_typed r.

(** The pages that the application can produce from a first load:
    time-ins, time-outs, reloads of the cache and drain passes in any
    order, under any outside conditions. *)
Inductive reachable (cfg : Config) : World -> Prop :=
| reachable_start available quotaExceeded :
    reachable cfg (start_page available quotaExceeded)
| reachable_timeIn env w :
    reachable cfg w -> reachable cfg (Attendance.handleTimeIn cfg env w).2
| reachable_timeOut env w :
    reachable cfg w -> reachable cfg (Attendance.handleTimeOut cfg env w).2
| reachable_load env w :
    reachable cfg w -> reachable cfg (Attendance.loadTodayAttendance env w).2
| reachable_drain w :
    reachable cfg w -> reachable cfg (Attendance.syncOfflineQueue w).2.

(** ** Notions used to state the properties of the calendar, the
    reports, the store and the session *)

(** The days of month [m] (from 1) of year [y]. *)
Definition DaysInMonth (y m : Z) : Z :=
  if m =? 2 then 28 + LeapYear y
  else if m =? 4 then 30
  else if m =? 6 then 30
  else if m =? 9 then 30
  else if m =? 11 then 30
  else 31.

(** The year that [new Date(year, ...)] takes [year] for. *)
Definition full_year (year : Z) : Z :=
  if (0 <=? year) && (year <=? 99) then 1900 + year else year.

(** The text of a calendar date as [formatDate] writes it. *)
Definition date_string (y m d : Z) : string :=
  padStart 2 "0" (toString d) +:+ "/" +:+ padStart 2 "0" (toString m)
  +:+ "/" +:+ toString y.

(** The first record carrying a date text. *)
Definition first_of_date (l : list record) (date : string) : option record :=
  List.find (fun r => strict_eq (field r "date") (VStr date)) l.

(** The labels of the week that ends on week day [w0]. *)
Definition week_labels (w0 : Z) : list string :=
  (fun i => String.substring 0 3
              (or_else (Utils.days !! Z.to_nat ((w0 - i) mod 7)) "Invalid Day"))
    <$> [6; 5; 4; 3; 2; 1; 0].

(** A two-digit field is two characters, the first a digit. *)
Definition two_chars_ok (n : Z) : bool :=
  let s := padStart 2 "0" (toString n) in
  (String.length s =? 2)%nat
  && match s with
     | String c _ => bool_decide (is_Some (digit c))
     | EmptyString => false
     end.

(** Strings of decimal digits, and strings without a separator. *)
Definition is_digit (c : ascii) : bool := bool_decide (is_Some (digit c)).
Definition all_digits (s : string) : bool := forallb is_digit (list_ascii_of_string s).
Definition no_sep (sep : ascii) (s : string) : bool :=
  forallb (fun c => negb (Ascii.eqb c sep)) (list_ascii_of_string s).

(** A toast of kind [error] was the last thing shown. *)
Definition ends_in_error (ts : list Toast) : Prop :=
  exists t, last ts = Some t /\ kind t = "error".

(** The properties that a time-out writes. *)
Definition time_out_keys : list string :=
  [ "timeOut"; "timeOutFormatted"; "checkoutLocation"; "checkoutPhoto";
    "workHours"; "workMinutes"; "totalWorkMinutes"; "earlyLeave"; "synced";
    "status" ].



(** What one sync does to a stored array: the first record with the
    given [id], if there is one, gets [synced: true]. *)
Definition mark_synced (rid : value) (l : list record) : list record :=
  match findIndex (fun r => strict_eq (field r "id") rid) l with
  | Some i =>
      match l !! i with
      | Some old =>
          <[i := json_roundtrip (spread old {[ "synced" := VBool true ]})]> l
      | None => l
      end
  | None => l
  end.

(** The [id] properties of an array of records. *)
Definition ids_of (l : list record) : list value := (fun r => field r "id") <$> l.

(** A state whose store holds the array [l] and can be written. *)
Definition writable (w : World) (l : list record) : Prop :=
  Storage.getAttendanceRecords w = (Ok (JArray l), w)
  /\ available (localStorage w) = true
  /\ quotaExceeded (localStorage w) = false.

(** The strings a pattern stands for. *)
Inductive matches : RegExp.regex -> string -> Prop :=
| matches_nil : matches [] ""
| matches_one a rest c s :
    RegExp.atom_ok a c = true -> matches rest s ->
    matches (RegExp.One a :: rest) (String c s)
| matches_many a rest c s :
    RegExp.atom_ok a c = true -> matches (RegExp.Star a :: rest) s ->
    matches (RegExp.Many a :: rest) (String c s)
| matches_skip a rest s :
    matches rest s -> matches (RegExp.Star a :: rest) s
| matches_star a rest c s :
    RegExp.atom_ok a c = true -> matches (RegExp.Star a :: rest) s ->
    matches (RegExp.Star a :: rest) (String c s).

(** Every character of the string is accepted by the atom. *)
Definition all_ok (a : RegExp.atom) (s : string) : bool :=
  forallb (RegExp.atom_ok a) (list_ascii_of_string s).

(** A character that may stand in an address: neither white space nor
    the at sign. A part of an address is a non-empty string of them. *)
Definition address_char (c : ascii) : bool :=
  negb (RegExp.item_ok RegExp.Space c) && negb (Ascii.eqb c "@").

Definition address_part (s : string) : Prop :=
  s <> "" /\ forallb address_char (list_ascii_of_string s) = true.

(** Some character of the string passes the test. *)
Definition has_char (p : ascii -> bool) (s : string) : bool :=
  existsb p (list_ascii_of_string s).

(** Capital letters, small letters, digits, and the characters
    ! @ # $ % ^ & * ( ) , . ? : { } | < > with the double quote, by
    their codes. *)
Definition is_upper (c : ascii) : bool :=
  (65 <=? RegExp.code c) && (RegExp.code c <=? 90).
Definition is_lower (c : ascii) : bool :=
  (97 <=? RegExp.code c) && (RegExp.code c <=? 122).
Definition is_number (c : ascii) : bool :=
  (48 <=? RegExp.code c) && (RegExp.code c <=? 57).
Definition is_special (c : ascii) : bool :=
  bool_decide (RegExp.code c ∈ [33; 64; 35; 36; 37; 94; 38; 42; 40; 41; 44; 46; 63; 34;
                                58; 123; 125; 124; 60; 62]).

(** The sessions whose store can be written. *)
Definition store_ok (s : Session) : Prop :=
  storageAvailable s = true /\ storageFull s = false.

(** The milliseconds a token lives and a lockout lasts. *)
Definition token_life (cfg : Settings) : Z := SECURITY_tokenExpiration cfg * 60 * 60 * 1000.
Definition lockout_time (cfg : Settings) : Z := SECURITY_lockoutDuration cfg * 60 * 1000.

(** The session after a series of logins, all with the same inputs, the
    clock readings of each given as a pair. *)
Definition try_logins (cfg : Settings) (email password : string) (tokenId : string)
    (times : list (Z * Z)) (s : Session) : Session :=
  foldl (fun s t => (Auth.handleLogin cfg email password t.1 t.2 tokenId s).2) s times.

(** The session when the page is loaded anew: the store is what it was,
    and the [Auth] object is the literal of the script again, with no
    current user and no login attempts. *)
Definition page_load (s : Session) : Session :=
  set_currentUser None (set_loginAttempts ∅ s).

(** The profile that a login stores for an account. *)
Definition profile_of (a : Account) : Profile :=
  {| profile_id := account_id a; profile_name := account_name a;
     profile_email := account_email a; profile_department := account_department a |}.

(** ** Sample data *)

Module Sample.

Definition desk : Coords := mkCoords (of_Z 25) (of_Z 67) (of_Z 10).

(** The local time value of a wall-clock reading, months counted from 1. *)
Definition clock (y m d h mi : Z) : Z :=
  newDate y (m - 1) d + h * 3600000 + mi * 60000.

(** A run with a logged-in user inside the geofence, the camera not
    starting, at local time [t]. *)
Definition env_at (t : Z) (online : bool) : Env := {|
  currentUser := Some (mkUser "u1" "Ann");
  hasToken := true;
  validateGeofence := true;
  locationToasts := [];
  position := desk;
  startCamera := false;
  cameraToasts := [];
  performFaceVerification := mkFaceResult true false "";
  showFaceModal := false;
  faceModalToasts := [];
  retryCameraToasts := [];
  retryFaceVerification := mkFaceResult true false "";
  capturePhoto := VNull;
  photoToasts := [];
  now := t;
  onLine := online;
  generateId := fun n => if (n =? 0)%nat then "id0" else "id1"
|}.

(** A record as a time-in at [t] leaves it. *)
Definition checked_in (rid date : string) (t : Z) (status : string) : record :=
  list_to_map [
    ("id", VStr rid); ("date", VStr date); ("dateTime", VInstant t);
    ("timeIn", VInstant t); ("timeOut", VNull); ("status", VStr status);
    ("synced", VBool false) ].

(** The same record after a time-out at [t']. *)
Definition checked_out (rid date : string) (t t' : Z) (status : string)
    (minutes : Z) : record :=
  <["timeOut" := VInstant t']>
    (<["totalWorkMinutes" := VNum minutes]> (checked_in rid date t status)).

(** A page whose store holds the array [l] and whose cache is [today]. *)
Definition page (l : list record) (today : option record) : World := {|
  localStorage := {| available := true; quotaExceeded := false;
                     attendance := Some (JArray l) |};
  toasts := [];
  todayRecord := today;
  offlineQueue := []
|}.

(** Monday 3 June 2024: in at 09:00, out at 12:00, and a page whose
    latest record of the day is that completed cycle. *)
Definition t_in : Z := clock 2024 6 3 9 0.
Definition t_out : Z := clock 2024 6 3 12 0.
Definition t_again : Z := clock 2024 6 3 13 0.
Definition t_evening : Z := clock 2024 6 3 23 50.
Definition t_night : Z := clock 2024 6 4 0 10.
Definition completed : record := checked_out "a" "03/06/2024" t_in t_out "present" 180.
Definition page_completed : World := page [ completed ] (Some completed).

(** A page that is online again with one record waiting in the offline
    queue, while the store no longer holds a record of that [id]:
    [page_queued] is [page_waiting] after [deleteAttendanceRecord]. *)
Definition queued : record := checked_in "a" "03/06/2024" t_in "present".
Definition page_waiting : World := {|
  localStorage := {| available := true; quotaExceeded := false;
                     attendance := Some (JArray [ queued;
                                                  checked_in "b" "03/06/2024" t_in "late" ]) |};
  toasts := [];
  todayRecord := None;
  offlineQueue := [ queued ]
|}.
Definition page_queued : World := {|
  localStorage := {| available := true; quotaExceeded := false;
                     attendance := Some (JArray [ checked_in "b" "03/06/2024" t_in "late" ]) |};
  toasts := [];
  todayRecord := None;
  offlineQueue := [ queued ]
|}.

(** Saturday 1 June 2024 with two cycles: the first record [present],
    the later one [late]; the dashboard is opened on 15 June. *)
Definition first_cycle : record :=
  checked_in "a" "01/06/2024" (clock 2024 6 1 8 50) "present".
Definition second_cycle : record :=
  checked_in "b" "01/06/2024" (clock 2024 6 1 13 20) "late".
Definition page_two_cycles : World := page [ first_cycle; second_cycle ] None.
Definition mid_june : Z := clock 2024 6 15 12 0.

(** One completed cycle of an hour and a half. *)
Definition page_ninety : World :=
  page [ checked_out "a" "03/06/2024" t_in (t_in + 90 * 60000) "present" 90 ] None.

(** June 2024 with a record on the first day and one at 10:00 on the
    last day, Sunday 30 June. *)
Definition last_day : record :=
  checked_in "z" "30/06/2024" (clock 2024 6 30 10 0) "present".
Definition page_june : World := page [ first_cycle; last_day ] None.

(** A session over a writable store with the given accounts registered
    and nobody logged in, and an account. *)
Definition session (accounts : list Account) : Session := {|
  storageAvailable := true;
  storageFull := false;
  registered_users := Users accounts;
  attendance_user := None;
  attendance_token := None;
  Auth_currentUser := None;
  Auth_loginAttempts := ∅;
  shown := []
|}.

Definition ann : Account := {|
  account_id := "u1";
  account_name := "Ann";
  account_email := "ann@example.org";
  account_password := "secret1";
  account_department := "IT";
  account_createdAt := 0
|}.

(** The same session after five logins with an email that no account
    uses, at the times 0 to 4 ms: the email is locked out for fifteen
    minutes from the last of them. *)
Definition session_failed : Session :=
  try_logins SETTINGS "bob@example.org" "secret2" "id"
             [ (0, 0); (1, 1); (2, 2); (3, 3); (4, 4) ] (session [ ann ]).

(** A run with a logged-in user whose position request times out. *)
Definition env_lost : Env := {|
  currentUser := Some (mkUser "u1" "Ann");
  hasToken := true;
  validateGeofence := false;
  locationToasts := [ mkToast "Location request timed out. Please try again." "error" ];
  position := desk;
  startCamera := false;
  cameraToasts := [];
  performFaceVerification := mkFaceResult true false "";
  showFaceModal := false;
  faceModalToasts := [];
  retryCameraToasts := [];
  retryFaceVerification := mkFaceResult true false "";
  capturePhoto := VNull;
  photoToasts := [];
  now := t_in;
  onLine := true;
  generateId := fun n => if (n =? 0)%nat then "id0" else "id1"
|}.

(** The same run with the identifiers numbered by [i]. *)
Definition env_numbered (i : nat) (t : Z) : Env := {|
  currentUser := Some (mkUser "u1" "Ann");
  hasToken := true;
  validateGeofence := true;
  locationToasts := [];
  position := desk;
  startCamera := false;
  cameraToasts := [];
  performFaceVerification := mkFaceResult true false "";
  showFaceModal := false;
  faceModalToasts := [];
  retryCameraToasts := [];
  retryFaceVerification := mkFaceResult true false "";
  capturePhoto := VNull;
  photoToasts := [];
  now := t;
  onLine := true;
  generateId := fun n => "r" +:+ pretty i +:+ (if (n =? 0)%nat then "" else "s")
|}.

(** The page after a time-in at each of the instants, in order. *)
Definition time_ins (instants : list Z) (w : World) : World :=
  foldl (fun w it => (Attendance.handleTimeIn CONFIG (env_numbered it.1 it.2) w).2)
        w (imap (fun i t => (i, t)) instants).

(** June 2024: on each of the first 17 days a time-in at 09:00 and one
    more at 10:00, on each of the next 6 days a time-in at 09:00; 40
    records, 23 of them [present] and 17 [late]. *)
Definition june_instants : list Z :=
  (d ← seq 1 17; [ clock 2024 6 (Z.of_nat d) 9 0; clock 2024 6 (Z.of_nat d) 10 0 ])
  ++ ((fun d => clock 2024 6 (Z.of_nat d) 9 0) <$> seq 18 6).
Definition page_forty : World := time_ins june_instants (page [] None).

(** Three days of June 2024: in at 09:00 on the first two, at 10:00 on
    the third. *)
Definition page_three_days : World :=
  time_ins [ clock 2024 6 3 9 0; clock 2024 6 4 9 0; clock 2024 6 5 10 0 ]
           (page [] None).

(** Stand-ins for [Math.sin], [Math.cos] and [Math.atan2] to evaluate
    distances with: the Taylor polynomials of the sine and the cosine at
    0 up to the powers 9 and 10, and for [atan2(y, x)] with [x > 0] the
    polynomial of the arc tangent of [y / x] up to the power 5. *)
Definition taylor (x2 : float64) (denominators : list Z) : float64 :=
  fold_right (fun c acc => fadd (fdiv (of_Z 1) (of_Z c)) (fmul x2 acc)) (of_Z 0)
             denominators.
Definition Math_sin (x : float64) : float64 :=
  fmul x (taylor (fmul x x) [1; -6; 120; -5040; 362880]).
Definition Math_cos (x : float64) : float64 :=
  taylor (fmul x x) [1; -2; 24; -720; 40320; -3628800].
Definition Math_atan2 (y x : float64) : float64 :=
  let t := fdiv y x in
  fmul t (taylor (fmul t t) [1; -3; 5]).

(** The office, and the points a hundredth of a degree to its north and
    to its east. *)
Definition office : float64 * float64 := OFFICE_LOCATION CONFIG.
Definition hundredth : float64 := fdiv (of_Z 1) (of_Z 100).
Definition north : float64 * float64 := (fadd office.1 hundredth, office.2).
Definition east : float64 * float64 := (office.1, fadd office.2 hundredth).

End Sample.

(** * Properties *)

(** ** Objects and arrays *)

Lemma strict_eq_true (v w : value) : strict_eq v w = true <-> v = w.
Proof. unfold strict_eq. apply bool_decide_eq_true. Qed.

Lemma strict_eq_false (v w : value) : strict_eq v w = false <-> v <> w.
Proof. unfold strict_eq. apply bool_decide_eq_false. Qed.

Lemma field_spread (old updates : record) (k : string) :
  field (spread old updates) k = from_option id (field old k) (updates !! k).
Proof.
  unfold field, spread. rewrite lookup_union.
  destruct (updates !! k), (old !! k); reflexivity.
Qed.

Lemma field_json_roundtrip (r : record) (k : string) :
  field (json_roundtrip r) k = field r k.
Proof.
  unfold field, json_roundtrip.
  destruct (r !! k) as [v|] eqn:Hk.
  - destruct (decide (v = VUndefined)) as [->|Hv].
    + rewrite map_lookup_filter_None_2; [reflexivity|].
      right. intros x Hx. rewrite Hk in Hx. injection Hx as <-. simpl. tauto.
    + erewrite map_lookup_filter_Some_2; eauto.
  - rewrite map_lookup_filter_None_2; [reflexivity|]. by left.
Qed.

Lemma json_roundtrip_idemp (r : record) :
  json_roundtrip (json_roundtrip r) = json_roundtrip r.
Proof.
  unfold json_roundtrip. apply map_eq. intros k.
  rewrite !map_lookup_filter.
  destruct (r !! k) as [v|]; simpl; [|reflexivity].
  case_guard; simpl; [|reflexivity]. case_guard; simpl; [reflexivity|tauto].
Qed.

Lemma parse_stringify_idemp (l : list record) :
  json_roundtrip <$> (json_roundtrip <$> l) = json_roundtrip <$> l.
Proof.
  rewrite <- list_fmap_compose. apply list_fmap_ext.
  intros i x _. simpl. apply json_roundtrip_idemp.
Qed.

Lemma findIndex_Some {A} (p : A -> bool) (l : list A) (i : nat) :
  findIndex p l = Some i ->
  exists x, l !! i = Some x /\ p x = true
            /\ forall j y, (j < i)%nat -> l !! j = Some y -> p y = false.
Proof.
  revert i. induction l as [|a l IH]; intros i; simpl; [discriminate|].
  destruct (p a) eqn:Hp.
  - intros [= <-]. exists a. repeat split; auto. intros j y Hj. lia.
  - destruct (findIndex p l) as [n|] eqn:Hf; simpl; [|discriminate].
    intros [= <-]. destruct (IH n eq_refl) as (x & Hx & Hpx & Hlt).
    exists x. repeat split; auto.
    intros [|j] y Hj; simpl.
    + intros [= <-]. exact Hp.
    + apply Hlt. lia.
Qed.

Lemma findIndex_None {A} (p : A -> bool) (l : list A) :
  findIndex p l = None <-> forall x, x ∈ l -> p x = false.
Proof.
  induction l as [|a l IH]; simpl.
  - split; [intros _ x Hx; inversion Hx | reflexivity].
  - destruct (p a) eqn:Hp.
    + split; [discriminate|]. intros H. specialize (H a). rewrite Hp in H.
      discriminate H. left.
    + destruct (findIndex p l) as [n|]; simpl.
      * split; [discriminate|]. intros H.
        assert (Some n = None) as Habs; [|discriminate Habs].
        apply IH. intros x Hx. apply H. by right.
      * split; [|reflexivity]. intros _ x Hx.
        apply elem_of_cons in Hx as [->|Hx]; [exact Hp|]. by apply IH.
Qed.

(** ** The record store *)

Lemma getAttendanceRecords_array (w : World) (l : list record) :
  Storage.getAttendanceRecords w = (Ok (JArray l), w) -> stored_records w = l.
Proof. unfold stored_records. intros ->. reflexivity. Qed.

(** What is read back is free of [undefined] properties. *)
Lemma stored_records_roundtrip (w : World) :
  json_roundtrip <$> stored_records w = stored_records w.
Proof.
  unfold stored_records, Storage.getAttendanceRecords, Storage.getItem,
    Storage.isLocalStorageAvailable, mbind, M_bind, bind, gets, ret.
  destruct (available (localStorage w)); simpl; [|reflexivity].
  destruct (attendance (localStorage w)) as [[l|]|]; simpl; try reflexivity.
  apply parse_stringify_idemp.
Qed.

(** Closed goals are settled by evaluation, one conjunct at a time. *)
Ltac by_evaluation := cbv zeta; repeat apply conj; vm_compute; reflexivity.

Ltac munfold :=
  unfold mbind, M_bind, mret, M_ret, bind, ret, gets, modify, throw, try_catch,
    showToast, set_localStorage, set_todayRecord, set_offlineQueue, as_array in *.

(** [setItem] either writes the whole array or leaves the store as it is. *)
Lemma setItem_run (l : list record) (w : World) :
  Storage.setItem l w =
    if available (localStorage w) then
      if quotaExceeded (localStorage w) then
        (Ok false,
         {| localStorage := localStorage w;
            toasts := toasts w ++
              [ mkToast "Storage quota exceeded. Please clear some data." "error" ];
            todayRecord := todayRecord w; offlineQueue := offlineQueue w |})
      else
        (Ok true,
         {| localStorage := {| available := true; quotaExceeded := false;
                               attendance := Some (JArray l) |};
            toasts := toasts w;
            todayRecord := todayRecord w; offlineQueue := offlineQueue w |})
    else (Ok false, w).
Proof.
  unfold Storage.setItem, Storage.isLocalStorageAvailable. munfold.
  destruct (available (localStorage w)) eqn:Ha; simpl; [|reflexivity].
  destruct (quotaExceeded (localStorage w)) eqn:Hq; simpl; [reflexivity|].
  rewrite Ha. reflexivity.
Qed.

Lemma stored_records_setItem (l : list record) (w w' : World) :
  Storage.setItem l w = (Ok true, w') ->
  stored_records w' = json_roundtrip <$> l.
Proof.
  rewrite setItem_run.
  destruct (available (localStorage w)); [|discriminate].
  destruct (quotaExceeded (localStorage w)); [discriminate|].
  intros [= <-]. reflexivity.
Qed.

Lemma setItem_false (l : list record) (w w' : World) :
  Storage.setItem l w = (Ok false, w') ->
  localStorage w' = localStorage w /\ todayRecord w' = todayRecord w
  /\ offlineQueue w' = offlineQueue w.
Proof.
  rewrite setItem_run.
  destruct (available (localStorage w)).
  - destruct (quotaExceeded (localStorage w)); [|discriminate].
    intros [= <-]. auto.
  - intros [= <-]. auto.
Qed.

Lemma setItem_total (l : list record) (w : World) :
  exists b w', Storage.setItem l w = (Ok b, w').
Proof.
  rewrite setItem_run.
  destruct (available (localStorage w)); [|eauto].
  destruct (quotaExceeded (localStorage w)); eauto.
Qed.

(** [updateAttendanceRecord] on a store that holds an array. *)
Lemma updateAttendanceRecord_run (rid : value) (updates : record) (w : World)
    (l : list record) :
  Storage.getAttendanceRecords w = (Ok (JArray l), w) ->
  Storage.updateAttendanceRecord rid updates w =
    match findIndex (fun r => strict_eq (field r "id") rid) l with
    | None => (Ok false, w)
    | Some index =>
        match l !! index with
        | Some old => Storage.setItem (<[index := spread old updates]> l) w
        | None => (Ok false, w)
        end
    end.
Proof.
  intros H. unfold Storage.updateAttendanceRecord.
  unfold mbind at 1, M_bind at 1, bind at 1. rewrite H.
  unfold mbind at 1, M_bind at 1, bind at 1. simpl.
  destruct (findIndex _ l) as [i|]; [|reflexivity].
  destruct (l !! i); reflexivity.
Qed.

(** On a store that holds something else, [findIndex] is not there. *)
Lemma updateAttendanceRecord_throw (rid : value) (updates : record) (w : World) :
  Storage.getAttendanceRecords w = (Ok JOther, w) ->
  Storage.updateAttendanceRecord rid updates w = (Throw, w).
Proof.
  intros H. unfold Storage.updateAttendanceRecord.
  unfold mbind at 1, M_bind at 1, bind at 1. rewrite H. reflexivity.
Qed.

(** The three ways [updateAttendanceRecord] can go on a stored array. *)
Lemma updateAttendanceRecord_cases (rid : value) (updates : record)
    (w : World) (l : list record) :
  Storage.getAttendanceRecords w = (Ok (JArray l), w) ->
  exists (b : bool) (w' : World),
    Storage.updateAttendanceRecord rid updates w = (Ok b, w')
    /\ (if b then
          exists (i : nat) (old new : record),
            l !! i = Some old
            /\ field old "id" = rid
            /\ (forall j r, (j < i)%nat -> l !! j = Some r -> field r "id" <> rid)
            /\ stored_records w' = <[i := new]> l
            /\ (forall k, field new k = from_option (fun v => v) (field old k) (updates !! k))
            /\ length (stored_records w') = length l
            /\ (forall j, j <> i -> stored_records w' !! j = l !! j)
        else localStorage w' = localStorage w)
    /\ ((forall r, r ∈ l -> field r "id" <> rid) -> b = false /\ w' = w).
Proof.
  intros Hget.
  pose proof (getAttendanceRecords_array _ _ Hget) as Hl.
  pose proof (stored_records_roundtrip w) as Hclean. rewrite Hl in Hclean.
  rewrite (updateAttendanceRecord_run _ _ _ _ Hget).
  destruct (findIndex _ l) as [i|] eqn:Hfind.
  - destruct (findIndex_Some _ _ _ Hfind) as (old & Hi & Hid & Hbefore).
    rewrite Hi.
    destruct (setItem_total (<[i := spread old updates]> l) w) as (b & w' & Hset).
    exists b, w'. split; [exact Hset|]. split.
    + destruct b.
      * exists i, old, (json_roundtrip (spread old updates)).
        apply strict_eq_true in Hid.
        assert (stored_records w' = <[i := json_roundtrip (spread old updates)]> l) as Hnew.
        { rewrite (stored_records_setItem _ _ _ Hset).
          rewrite list_fmap_insert. rewrite Hclean. reflexivity. }
        repeat split; auto.
        -- intros j r Hj Hr. apply strict_eq_false. eapply Hbefore; eauto.
        -- intros k. rewrite field_json_roundtrip. apply field_spread.
        -- rewrite Hnew. apply length_insert.
        -- intros j Hj. rewrite Hnew. apply list_lookup_insert_ne. auto.
      * apply setItem_false in Hset. tauto.
    + intros Hnone. exfalso.
      apply list_elem_of_lookup_2 in Hi. apply strict_eq_true in Hid.
      exact (Hnone old Hi Hid).
  - exists false, w. repeat split; reflexivity.
Qed.

(** C10. [Storage.updateAttendanceRecord(id, updates)] on a stored array:
    it returns a boolean; when it returns [true], the first record whose
    [id] is the given one has been replaced by a record whose every
    property is the patch's value if the patch names it and the old value
    otherwise, while every other position, the length and the order of
    the array are as before; when it returns [false] the store is not
    rewritten; and when no record has that [id] it returns [false] and
    leaves the whole state as it was. *)
Theorem updateAttendanceRecord_frame (rid : value) (updates : record)
    (w : World) (l : list record) :
  Storage.getAttendanceRecords w = (Ok (JArray l), w) ->
  exists (b : bool) (w' : World),
    Storage.updateAttendanceRecord rid updates w = (Ok b, w')
    /\ (if b then
          exists (i : nat) (old new : record),
            l !! i = Some old
            /\ field old "id" = rid
            /\ (forall j r, (j < i)%nat -> l !! j = Some r -> field r "id" <> rid)
            /\ stored_records w' = <[i := new]> l
            /\ (forall k, field new k = from_option (fun v => v) (field old k) (updates !! k))
            /\ length (stored_records w') = length l
            /\ (forall j, j <> i -> stored_records w' !! j = l !! j)
        else localStorage w' = localStorage w)
    /\ ((forall r, r ∈ l -> field r "id" <> rid) -> b = false /\ w' = w).
Proof. apply updateAttendanceRecord_cases. Qed.

Lemma updateAttendanceRecord_frame_witness :
  Storage.getAttendanceRecords Sample.page_completed
  = (Ok (JArray [ Sample.completed ]), Sample.page_completed)
  /\ exists w', Storage.updateAttendanceRecord (VStr "a") {[ "synced" := VBool true ]}
                   Sample.page_completed = (Ok true, w').
Proof.
  assert (Storage.getAttendanceRecords Sample.page_completed
          = (Ok (JArray [ Sample.completed ]), Sample.page_completed)) as Hget
    by (vm_compute; reflexivity).
  split; [exact Hget|].
  destruct (updateAttendanceRecord_frame (VStr "a") {[ "synced" := VBool true ]}
              Sample.page_completed [ Sample.completed ] Hget)
    as (b & w' & Hrun & _ & Hnone).
  exists w'. destruct b; [exact Hrun|]. exfalso.
  assert ((Storage.updateAttendanceRecord (VStr "a") {[ "synced" := VBool true ]}
             Sample.page_completed).1 = Ok true) as Hone
    by (vm_compute; reflexivity).
  rewrite Hrun in Hone. discriminate Hone.
Defined.

(** ** Clock strings *)

Lemma split_no_colon (a : string) :
  no_colon a = true -> split ":" a = [ a ].
Proof.
  induction a as [|c a IH]; [reflexivity|].
  unfold no_colon. simpl. intros H. apply andb_prop in H as [Hc Ha].
  apply negb_true_iff in Hc. rewrite Hc. unfold no_colon in IH.
  rewrite (IH Ha). reflexivity.
Qed.

Lemma split_colon_app (a rest : string) :
  no_colon a = true ->
  split ":" (a +:+ String ":" rest) = a :: split ":" rest.
Proof.
  induction a as [|c a IH]; [reflexivity|].
  unfold no_colon. simpl. intros H. apply andb_prop in H as [Hc Ha].
  apply negb_true_iff in Hc. rewrite Hc. unfold no_colon in IH.
  rewrite (IH Ha). reflexivity.
Qed.

Lemma two_digit_table :
  forallb two_digit_ok (Z.of_nat <$> seq 0 100) = true.
Proof. vm_compute. reflexivity. Qed.

Lemma two_digit (n : Z) :
  0 <= n < 100 ->
  Number (padStart 2 "0" (toString n)) = Some n
  /\ no_colon (padStart 2 "0" (toString n)) = true.
Proof.
  intros Hn. pose proof two_digit_table as Ht.
  rewrite forallb_forall in Ht.
  assert (two_digit_ok n = true) as Hok.
  { apply Ht. apply list_elem_of_In. apply list_elem_of_fmap.
    exists (Z.to_nat n). split; [lia|].
    apply list_elem_of_In, in_seq. lia. }
  unfold two_digit_ok in Hok. apply andb_prop in Hok as [H1 H2].
  apply bool_decide_eq_true in H1. auto.
Qed.

Lemma HourFromTime_range (t : Z) : 0 <= HourFromTime t < 24.
Proof. unfold HourFromTime. apply Z.mod_pos_bound. lia. Qed.
Lemma MinFromTime_range (t : Z) : 0 <= MinFromTime t < 60.
Proof. unfold MinFromTime. apply Z.mod_pos_bound. lia. Qed.
Lemma SecFromTime_range (t : Z) : 0 <= SecFromTime t < 60.
Proof. unfold SecFromTime. apply Z.mod_pos_bound. lia. Qed.

(** [formatTime(now).split(':').map(Number)] gives back the hour and
    the minute of the clock. *)
Lemma formatTime_fields (t : Z) :
  nth_num 0 (split ":" (Utils.formatTime (Some t))) = Some (HourFromTime t)
  /\ nth_num 1 (split ":" (Utils.formatTime (Some t))) = Some (MinFromTime t).
Proof.
  unfold Utils.formatTime.
  destruct (two_digit (HourFromTime t)) as [Hh Hhc];
    [pose proof (HourFromTime_range t); lia|].
  destruct (two_digit (MinFromTime t)) as [Hm Hmc];
    [pose proof (MinFromTime_range t); lia|].
  destruct (two_digit (SecFromTime t)) as [Hs Hsc];
    [pose proof (SecFromTime_range t); lia|].
  change (?a +:+ ":" +:+ ?b) with (a +:+ String ":" b).
  rewrite split_colon_app by assumption.
  change (?a +:+ ":" +:+ ?b) with (a +:+ String ":" b).
  rewrite split_colon_app by assumption.
  unfold nth_num. simpl. auto.
Qed.

Lemma isLate_formatTime (t : Z) (scheduledTime : string) (threshold sh sm : Z) :
  nth_num 0 (split ":" scheduledTime) = Some sh ->
  nth_num 1 (split ":" scheduledTime) = Some sm ->
  Utils.isLate (Utils.formatTime (Some t)) scheduledTime threshold
  = (sh * 60 + sm + threshold <? minutes_of_day t).
Proof.
  intros Hh Hm. unfold Utils.isLate.
  destruct (formatTime_fields t) as [-> ->]. rewrite Hh, Hm. reflexivity.
Qed.

Lemma isEarlyLeave_formatTime (cfg : Config) (t eh em : Z) :
  nth_num 0 (split ":" (endTime (WORK_SCHEDULE cfg))) = Some eh ->
  nth_num 1 (split ":" (endTime (WORK_SCHEDULE cfg))) = Some em ->
  Attendance.isEarlyLeave cfg (Utils.formatTime (Some t))
  = (minutes_of_day t <? eh * 60 + em - earlyLeaveThreshold (WORK_SCHEDULE cfg)).
Proof.
  intros Hh Hm. unfold Attendance.isEarlyLeave.
  destruct (formatTime_fields t) as [-> ->]. rewrite Hh, Hm. reflexivity.
Qed.

(** ** Toasts, the queue and the geofence gate *)

Lemma add_toasts_nil (w : World) : add_toasts [] w = w.
Proof. destruct w. unfold add_toasts. simpl. rewrite app_nil_r. reflexivity. Qed.

Lemma add_toasts_app (ts ts' : list Toast) (w : World) :
  add_toasts ts' (add_toasts ts w) = add_toasts (ts ++ ts') w.
Proof. unfold add_toasts. simpl. rewrite app_assoc. reflexivity. Qed.

Lemma showToast_run (msg type : string) (w : World) :
  showToast msg type w = (Ok tt, add_toasts [ mkToast msg type ] w).
Proof. reflexivity. Qed.

(** What the store hands out depends on the store alone. *)
Lemma stored_records_ext (w w' : World) :
  localStorage w' = localStorage w -> stored_records w' = stored_records w.
Proof.
  intros H. unfold stored_records, Storage.getAttendanceRecords, Storage.getItem,
    Storage.isLocalStorageAvailable. munfold. rewrite H.
  destruct (available (localStorage w)); simpl; rewrite ?H; reflexivity.
Qed.

Lemma getAttendanceRecords_ext (w w' : World) (j : json) :
  localStorage w' = localStorage w ->
  Storage.getAttendanceRecords w = (Ok j, w) ->
  Storage.getAttendanceRecords w' = (Ok j, w').
Proof.
  unfold Storage.getAttendanceRecords, Storage.getItem,
    Storage.isLocalStorageAvailable. munfold. intros H. rewrite H.
  destruct (available (localStorage w)); simpl; rewrite ?H;
    intros [= <-]; reflexivity.
Qed.

Lemma stored_records_add_toasts (ts : list Toast) (w : World) :
  stored_records (add_toasts ts w) = stored_records w.
Proof. apply stored_records_ext. reflexivity. Qed.

Lemma for_of_toasts (ts : list Toast) (w : World) :
  for_of ts (fun t => showToast (message t) (kind t)) w = (Ok tt, add_toasts ts w).
Proof.
  revert w. induction ts as [|t ts IH]; intros w; simpl.
  - rewrite add_toasts_nil. reflexivity.
  - unfold mbind, M_bind, bind. rewrite showToast_run, IH, add_toasts_app.
    destruct t; reflexivity.
Qed.

Lemma shown_by_run (ts : list Toast) (w : World) :
  Attendance.shown_by ts w = (Ok tt, add_toasts ts w).
Proof. apply for_of_toasts. Qed.

Lemma checkoutCamera_run (cfg : Config) (env : Env) (w : World) :
  Attendance.checkoutCamera cfg env w = (Ok tt, add_toasts (checkout_toasts cfg env) w).
Proof.
  unfold Attendance.checkoutCamera, checkout_toasts.
  destruct (FEATURES_faceRecognition cfg); [|rewrite add_toasts_nil; reflexivity].
  unfold mbind, M_bind, bind. rewrite shown_by_run.
  destruct (startCamera env).
  - rewrite shown_by_run, add_toasts_app. reflexivity.
  - rewrite app_nil_r. reflexivity.
Qed.

Lemma validateLocation_run (cfg : Config) (env : Env) (w : World) :
  Attendance.validateLocation cfg env w =
    (Ok (validateGeofence env),
     add_toasts (locationToasts env ++
                 if validateGeofence env then []
                 else [ mkToast (getError cfg ERRORS_outsideGeofence) "error" ]) w).
Proof.
  unfold Attendance.validateLocation.
  unfold mbind at 1, M_bind at 1, bind at 1. rewrite for_of_toasts.
  destruct (validateGeofence env); simpl.
  - rewrite app_nil_r. reflexivity.
  - munfold. simpl. rewrite <- add_toasts_app. reflexivity.
Qed.

Lemma addToOfflineQueue_run (r : record) (w : World) :
  Attendance.addToOfflineQueue r w =
    (Ok tt,
     {| localStorage := localStorage w;
        toasts := toasts w ++
          [ mkToast "Attendance saved offline. Will sync when online." "info" ];
        todayRecord := todayRecord w;
        offlineQueue := offlineQueue w ++ [ r ] |}).
Proof. reflexivity. Qed.

(** Reading the store: an array or another value comes back, and
    nothing changes. *)
Lemma getAttendanceRecords_run (w : World) :
  exists j, Storage.getAttendanceRecords w = (Ok j, w).
Proof.
  unfold Storage.getAttendanceRecords, Storage.getItem,
    Storage.isLocalStorageAvailable. munfold.
  destruct (available (localStorage w)); eauto.
Qed.

Lemma same_but_synced_refl (l : list record) : same_but_synced l l.
Proof. apply Forall2_same_length_lookup. split; [reflexivity|]. intros i x y Hx Hy.
  rewrite Hx in Hy. injection Hy as <-. reflexivity. Qed.

Lemma same_but_synced_trans (l1 l2 l3 : list record) :
  same_but_synced l1 l2 -> same_but_synced l2 l3 -> same_but_synced l1 l3.
Proof.
  unfold same_but_synced. intros H12. revert l3.
  induction H12 as [|x y l1 l2 Hxy _ IH]; intros l3 H23.
  - inversion H23. constructor.
  - inversion H23 as [|y' z l2' l3' Hyz Hrest]; subst.
    constructor; [|by apply IH].
    intros k Hk. rewrite Hyz, Hxy; auto.
Qed.

(** A run of [updateAttendanceRecord(id, { synced: true })] touches
    nothing but [synced] properties of the store. *)
Lemma update_synced (rid : value) (w : World) (l : list record) :
  Storage.getAttendanceRecords w = (Ok (JArray l), w) ->
  exists b w', Storage.updateAttendanceRecord rid {[ "synced" := VBool true ]} w = (Ok b, w')
    /\ same_but_synced (stored_records w) (stored_records w')
    /\ todayRecord w' = todayRecord w /\ offlineQueue w' = offlineQueue w
    /\ (b = true -> toasts w' = toasts w)
    /\ Storage.getAttendanceRecords w' = (Ok (JArray (stored_records w')), w').
Proof.
  intros Hget.
  assert (Harr : forall w0, localStorage w0 = localStorage w ->
            Storage.getAttendanceRecords w0 = (Ok (JArray (stored_records w0)), w0)).
  { intros w0 H0. rewrite (stored_records_ext w w0 H0).
    rewrite (getAttendanceRecords_array _ _ Hget).
    apply (getAttendanceRecords_ext w w0 _ H0 Hget). }
  assert (Hsame : forall w0, localStorage w0 = localStorage w ->
            same_but_synced (stored_records w) (stored_records w0)).
  { intros w0 H0. rewrite (stored_records_ext w w0 H0). apply same_but_synced_refl. }
  pose proof (getAttendanceRecords_array _ _ Hget) as Hl.
  pose proof (stored_records_roundtrip w) as Hclean. rewrite Hl in Hclean.
  rewrite (updateAttendanceRecord_run _ _ _ _ Hget).
  destruct (findIndex _ l) as [i|] eqn:Hfind.
  2:{ exists false, w. split; [reflexivity|]. split; [by apply Hsame|].
      repeat split; auto; try discriminate. }
  destruct (findIndex_Some _ _ _ Hfind) as (old & Hi & _ & _). rewrite Hi.
  rewrite setItem_run.
  destruct (available (localStorage w)) eqn:Hav.
  2:{ exists false, w. split; [reflexivity|]. split; [by apply Hsame|].
      repeat split; auto; try discriminate. }
  destruct (quotaExceeded (localStorage w)) eqn:Hq.
  { eexists false, _. split; [reflexivity|]. split; [by apply Hsame|].
    split; [reflexivity|]. split; [reflexivity|]. split; [discriminate|].
    by apply Harr. }
  eexists true, _. split; [reflexivity|].
  assert (stored_records
            {| localStorage :=
                 {| available := true; quotaExceeded := false;
                    attendance := Some (JArray (<[i:=spread old {["synced" := VBool true]}]> l)) |};
               toasts := toasts w; todayRecord := todayRecord w;
               offlineQueue := offlineQueue w |}
          = <[i := json_roundtrip (spread old {["synced" := VBool true]})]> l) as Hnew.
  { unfold stored_records. simpl. rewrite list_fmap_insert, Hclean. reflexivity. }
  split; [|split; [reflexivity|split; [reflexivity|split; [reflexivity|]]]].
  - rewrite Hnew, Hl.
    apply Forall2_same_length_lookup. split; [by rewrite length_insert|].
    intros j x y Hx Hy k Hk.
    destruct (decide (i = j)) as [<-|Hne].
    + rewrite list_lookup_insert_eq in Hy by (eapply lookup_lt_Some; eauto).
      injection Hy as <-. rewrite Hi in Hx. injection Hx as <-.
      rewrite field_json_roundtrip, field_spread.
      rewrite lookup_singleton_ne by congruence. reflexivity.
    + rewrite list_lookup_insert_ne in Hy by assumption.
      rewrite Hx in Hy. injection Hy as <-. reflexivity.
  - rewrite Hnew. unfold Storage.getAttendanceRecords, Storage.getItem,
      Storage.isLocalStorageAvailable. munfold. simpl.
    rewrite list_fmap_insert, Hclean. reflexivity.
Qed.

(** [syncAttendance] always completes, and what it does to the store is
    confined to [synced] properties. *)
Lemma syncAttendance_run (r : record) (w : World) :
  exists w', Attendance.syncAttendance r w = (Ok tt, w')
    /\ same_but_synced (stored_records w) (stored_records w')
    /\ todayRecord w' = todayRecord w.
Proof.
  unfold Attendance.syncAttendance.
  destruct (getAttendanceRecords_run w) as [[l|] Hget].
  - destruct (update_synced (field r "id") w l Hget) as (b & w' & Hup & Hs & Ht & _).
    exists w'. unfold try_catch, mbind, M_bind, bind. rewrite Hup. simpl.
    auto.
  - unfold try_catch, mbind, M_bind, bind.
    rewrite (updateAttendanceRecord_throw _ _ _ Hget).
    rewrite addToOfflineQueue_run. eexists. split; [reflexivity|].
    split; [|reflexivity].
    match goal with
    | |- same_but_synced _ (stored_records ?x) =>
        rewrite (stored_records_ext w x) by reflexivity
    end.
    apply same_but_synced_refl.
Qed.

(** ** The time-out handler, path by path *)

Lemma sync_or_queue_run (env : Env) (r : record) (w : World) :
  exists w', sync_or_queue env r w = (Ok tt, w')
    /\ same_but_synced (stored_records w) (stored_records w')
    /\ todayRecord w' = todayRecord w.
Proof.
  unfold sync_or_queue. destruct (onLine env).
  - apply syncAttendance_run.
  - rewrite addToOfflineQueue_run. eexists. split; [reflexivity|].
    split; [|reflexivity].
    match goal with
    | |- same_but_synced _ (stored_records ?x) =>
        rewrite (stored_records_ext w x) by reflexivity
    end.
    apply same_but_synced_refl.
Qed.

Lemma handleTimeOut_login (cfg : Config) (env : Env) (w : World) :
  isAuthenticated env = false ->
  Attendance.handleTimeOut cfg env w
  = (Ok Attendance.LoginRequired, add_toasts [ mkToast "Please login first" "error" ] w).
Proof. intros H. unfold Attendance.handleTimeOut. rewrite H. reflexivity. Qed.

Lemma handleTimeOut_guard (cfg : Config) (env : Env) (w : World) :
  isAuthenticated env = true ->
  (todayRecord w = None
   \/ exists r, todayRecord w = Some r /\ truthy (field r "timeIn") = false) ->
  Attendance.handleTimeOut cfg env w
  = (Ok Attendance.NotCheckedIn,
     add_toasts [ mkToast (getError cfg ERRORS_notCheckedIn) "error" ] w).
Proof.
  intros Hauth H. unfold Attendance.handleTimeOut. rewrite Hauth.
  unfold try_catch, mbind, M_bind, bind, gets. simpl.
  destruct H as [-> | (r & -> & Hr)]; [reflexivity|]. rewrite Hr. reflexivity.
Qed.

Lemma handleTimeOut_pass (cfg : Config) (env : Env) (w : World) (r : record) :
  isAuthenticated env = true ->
  todayRecord w = Some r ->
  truthy (field r "timeIn") = true ->
  let w1 := add_toasts
              (locationToasts env ++
               if validateGeofence env then checkout_toasts cfg env
               else [ mkToast (getError cfg ERRORS_outsideGeofence) "error" ]) w in
  let updates := Attendance.timeOutUpdates cfg env r in
  Attendance.handleTimeOut cfg env w =
    if validateGeofence env then
      match Storage.updateAttendanceRecord (field r "id") updates w1 with
      | (Ok true, w2) =>
          (Ok Attendance.Saved,
           (sync_or_queue env (spread r updates)
              (committed (spread r updates) (getSuccess cfg SUCCESS_checkoutSuccess) w2)).2)
      | (Ok false, w2) =>
          (Ok Attendance.SaveFailed,
           add_toasts [ mkToast "Failed to update attendance. Please try again." "error" ] w2)
      | (Throw, w2) =>
          (Ok Attendance.UnknownError,
           add_toasts [ mkToast (getError cfg ERRORS_unknownError) "error" ] w2)
      end
    else (Ok Attendance.LocationRejected, w1).
Proof.
  intros Hauth Hr Hin w1 updates. unfold Attendance.handleTimeOut. rewrite Hauth.
  unfold try_catch. cbn [negb].
  unfold mbind at 1, M_bind at 1, bind at 1, gets at 1. rewrite Hr, Hin. cbn [negb].
  unfold mbind at 1, M_bind at 1, bind at 1. rewrite validateLocation_run.
  subst w1. destruct (validateGeofence env); [|reflexivity]. cbn [negb].
  unfold mbind at 1, M_bind at 1, bind at 1.
  rewrite checkoutCamera_run, app_nil_r, add_toasts_app.
  set (w1 := add_toasts (locationToasts env ++ checkout_toasts cfg env) w).
  unfold mbind at 1, M_bind at 1, bind at 1. fold updates.
  destruct (Storage.updateAttendanceRecord (field r "id") updates w1) as [[[|]|] w2];
    [| reflexivity | reflexivity].
  destruct (sync_or_queue_run env (spread r updates)
              (committed (spread r updates) (getSuccess cfg SUCCESS_checkoutSuccess) w2))
    as (w' & Hs & _).
  rewrite Hs. unfold sync_or_queue in Hs.
  unfold mbind, M_bind, bind, set_todayRecord, showToast, modify. simpl.
  unfold committed in Hs. simpl in Hs.
  destruct (onLine env); rewrite Hs; reflexivity.
Qed.

(** What a time-out that reaches [Saved] has done: the cached record
    had a [timeIn]; the cache now holds it merged with the updates; in
    the store the first record with that [id] carries the updates on
    every property but [synced], and all other positions are as before
    up to [synced]. *)
Lemma handleTimeOut_saved (cfg : Config) (env : Env) (w w' : World) :
  Attendance.handleTimeOut cfg env w = (Ok Attendance.Saved, w') ->
  exists (r : record) (i : nat) (old new : record),
    let updates := Attendance.timeOutUpdates cfg env r in
    isAuthenticated env = true
    /\ todayRecord w = Some r
    /\ truthy (field r "timeIn") = true
    /\ validateGeofence env = true
    /\ todayRecord w' = Some (spread r updates)
    /\ stored_records w !! i = Some old
    /\ field old "id" = field r "id"
    /\ stored_records w' !! i = Some new
    /\ (forall k, k <> "synced" ->
          field new k = from_option (fun v => v) (field old k) (updates !! k))
    /\ length (stored_records w') = length (stored_records w)
    /\ (forall j x, j <> i -> stored_records w !! j = Some x ->
          exists y, stored_records w' !! j = Some y
                    /\ forall k, k <> "synced" -> field y k = field x k).
Proof.
  intros Hrun.
  destruct (isAuthenticated env) eqn:Hauth;
    [|rewrite handleTimeOut_login in Hrun by assumption; discriminate].
  destruct (todayRecord w) as [r|] eqn:Hr;
    [|rewrite handleTimeOut_guard in Hrun by auto; discriminate].
  destruct (truthy (field r "timeIn")) eqn:Hin;
    [|rewrite handleTimeOut_guard in Hrun by eauto; discriminate].
  rewrite (handleTimeOut_pass cfg env w r Hauth Hr Hin) in Hrun.
  destruct (validateGeofence env) eqn:Hgeo; [|discriminate].
  set (w1 := add_toasts (locationToasts env ++ checkout_toasts cfg env) w) in *.
  set (updates := Attendance.timeOutUpdates cfg env r) in *.
  destruct (getAttendanceRecords_run w) as [j Hget].
  pose proof (getAttendanceRecords_ext w w1 j eq_refl Hget) as Hget1.
  destruct j as [l|];
    [|rewrite (updateAttendanceRecord_throw _ _ _ Hget1) in Hrun; discriminate].
  destruct (updateAttendanceRecord_cases (field r "id") updates w1 l Hget1)
    as (b & w2 & Hup & Hb & _).
  rewrite Hup in Hrun. destruct b; [|discriminate].
  destruct Hb as (i & old & new & Hi & Hid & _ & Hnew & Hfields & Hlen & Hother).
  injection Hrun as Hw'.
  set (r1 := spread r updates) in *.
  destruct (sync_or_queue_run env r1
              (committed r1 (getSuccess cfg SUCCESS_checkoutSuccess) w2))
    as (w3 & Hs & Hsame & Htoday).
  rewrite Hs in Hw'. simpl in Hw'. subst w3.
  rewrite (stored_records_ext w2 (committed _ _ w2)) in Hsame by reflexivity.
  pose proof (getAttendanceRecords_array _ _ Hget) as Hl.
  apply Forall2_same_length_lookup in Hsame as [Hlen' Hsame].
  assert (stored_records w2 !! i = Some new) as Hi2.
  { rewrite Hnew. apply list_lookup_insert_eq. eapply lookup_lt_Some; eauto. }
  destruct (lookup_lt_is_Some_2 (stored_records w') i) as [new' Hi'].
  { rewrite <- Hlen'. eapply lookup_lt_Some; eauto. }
  exists r, i, old, new'. cbv zeta. rewrite Hl.
  repeat split; auto.
  - intros k Hk. rewrite (Hsame i new new' Hi2 Hi' k Hk). apply Hfields.
  - lia.
  - intros j x Hj Hx.
    assert (stored_records w2 !! j = Some x) as Hj2 by (rewrite Hother; auto).
    destruct (lookup_lt_is_Some_2 (stored_records w') j) as [y Hy].
    { rewrite <- Hlen'. eapply lookup_lt_Some; eauto. }
    exists y. split; [exact Hy|]. intros k Hk. eapply Hsame; eauto.
Qed.

(** When a time-out goes through. *)
Lemma handleTimeOut_succeeds (cfg : Config) (env : Env) (w : World)
    (r : record) (l : list record) :
  isAuthenticated env = true ->
  todayRecord w = Some r ->
  truthy (field r "timeIn") = true ->
  validateGeofence env = true ->
  Storage.getAttendanceRecords w = (Ok (JArray l), w) ->
  (exists x, x ∈ l /\ field x "id" = field r "id") ->
  available (localStorage w) = true ->
  quotaExceeded (localStorage w) = false ->
  exists w', Attendance.handleTimeOut cfg env w = (Ok Attendance.Saved, w').
Proof.
  intros Hauth Hr Hin Hgeo Hget (x & Hx & Hid) Hav Hq.
  rewrite (handleTimeOut_pass cfg env w r Hauth Hr Hin). rewrite Hgeo.
  set (w1 := add_toasts (locationToasts env ++ checkout_toasts cfg env) w).
  pose proof (getAttendanceRecords_ext w w1 _ eq_refl Hget) as Hget1.
  rewrite (updateAttendanceRecord_run _ _ _ _ Hget1).
  destruct (findIndex _ l) as [i|] eqn:Hfind.
  - destruct (findIndex_Some _ _ _ Hfind) as (old & Hi & _). rewrite Hi.
    rewrite setItem_run. simpl. rewrite Hav, Hq. eauto.
  - exfalso. rewrite findIndex_None in Hfind. specialize (Hfind x Hx).
    apply strict_eq_false in Hfind. auto.
Qed.

Lemma timeOutUpdates_lookup (cfg : Config) (env : Env) (r : record) :
  let updates := Attendance.timeOutUpdates cfg env r in
  let early := Attendance.isEarlyLeave cfg (Utils.formatTime (Some (now env))) in
  updates !! "timeOut" = Some (VInstant (now env))
  /\ updates !! "earlyLeave" = Some (VBool early)
  /\ updates !! "status" =
       (if early && strict_eq (field r "status") (VStr "present")
        then Some (VStr "early_leave") else None)
  /\ updates !! "id" = None.
Proof.
  cbv zeta. unfold Attendance.timeOutUpdates.
  destruct (Attendance.isEarlyLeave cfg _ && strict_eq _ _);
    repeat split; reflexivity.
Qed.

(** ** C1: the guard of time-out *)

Lemma filter_none {A} (p : A -> bool) (l : list A) :
  (forall x, x ∈ l -> p x = false) -> List.filter p l = [].
Proof.
  induction l as [|a l IH]; intros H; [reflexivity|]. simpl.
  rewrite (H a) by left. apply IH. intros x Hx. apply H. by right.
Qed.

(** [loadTodayAttendance] caches the last stored record dated today. *)
Lemma loadTodayAttendance_run (env : Env) (w : World) (l : list record) :
  Storage.getAttendanceRecords w = (Ok (JArray l), w) ->
  exists w', Attendance.loadTodayAttendance env w = (Ok tt, w')
    /\ localStorage w' = localStorage w
    /\ todayRecord w' =
         last (List.filter
                 (fun x => strict_eq (field x "date")
                                     (VStr (Utils.formatDate (Some (now env))))) l).
Proof.
  intros Hget. unfold Attendance.loadTodayAttendance, Storage.getTodayAttendance.
  unfold mbind at 1, M_bind at 1, bind at 1.
  unfold mbind at 1, M_bind at 1, bind at 1. rewrite Hget.
  unfold mbind at 1, M_bind at 1, bind at 1. simpl.
  set (todayRecords := List.filter _ l).
  destruct (length todayRecords =? 0)%nat eqn:Hlen; simpl.
  - eexists. split; [reflexivity|]. split; [reflexivity|]. simpl.
    apply Nat.eqb_eq in Hlen. destruct todayRecords; [reflexivity|discriminate].
  - eexists. split; [reflexivity|]. split; [reflexivity|]. simpl.
    rewrite last_lookup. f_equal. lia.
Qed.

Lemma loadTodayAttendance_in_step (env : Env) (w : World) (l : list record) :
  Storage.getAttendanceRecords w = (Ok (JArray l), w) ->
  exists w', Attendance.loadTodayAttendance env w = (Ok tt, w')
    /\ cache_in_step env w' l.
Proof.
  intros Hget.
  destruct (loadTodayAttendance_run env w l Hget) as (w' & Hload & Hls & Htoday).
  exists w'. split; [exact Hload|]. split.
  - apply (getAttendanceRecords_ext w w' _ Hls Hget).
  - fold (latest_today l (now env)) in Htoday. rewrite Htoday.
    destruct (latest_today l (now env)); auto.
Qed.

Lemma latest_today_elem (l : list record) (now : Z) (r : record) :
  latest_today l now = Some r -> r ∈ l.
Proof.
  unfold latest_today. intros H. apply last_Some_elem_of in H.
  apply list_elem_of_In, filter_In in H as [H _]. apply list_elem_of_In. exact H.
Qed.

Lemma timeOutUpdates_duration (cfg : Config) (env : Env) (r : record) :
  let updates := Attendance.timeOutUpdates cfg env r in
  let d := Utils.calculateTimeDifference (toDate (field r "timeIn")) (Some (now env)) in
  updates !! "timeOutFormatted" = Some (VStr (Utils.formatTime (Some (now env))))
  /\ updates !! "workHours" = Some (VNum (Utils.hours d))
  /\ updates !! "workMinutes" = Some (VNum (Utils.minutes d))
  /\ updates !! "totalWorkMinutes"
     = Some (from_option VNum VUndefined (Utils.totalMinutes d)).
Proof.
  cbv zeta. unfold Attendance.timeOutUpdates.
  destruct (Attendance.isEarlyLeave cfg _ && strict_eq _ _);
    repeat split; reflexivity.
Qed.

(** C1 (amended). For an authenticated user on a page whose cache is in
    step with the store, that is, [Attendance.todayRecord] is the latest
    stored record of the current date, up to [synced]: time-out takes
    the [NotCheckedIn] exit exactly when there is no record of the
    current date or the latest one has no [timeIn]; on that exit the
    error toast is all that changes, so no stored record is mutated. A
    time-out is saved only when the latest record of the current date
    has a [timeIn]. Such a record passes the guard whether or not its
    [timeOut] is already set: with a valid location and a writable store
    the time-out is saved, and a stored record with that [id] gets the
    current instant as [timeOut] and the duration since the [timeIn] of
    the latest record as [workHours], [workMinutes] and
    [totalWorkMinutes]. *)
Theorem handleTimeOut_not_checked_in (cfg : Config) (env : Env) (w : World)
    (l : list record) :
  isAuthenticated env = true ->
  cache_in_step env w l ->
  let latest := latest_today l (now env) in
  let run := Attendance.handleTimeOut cfg env w in
  (run.1 = Ok Attendance.NotCheckedIn
   <-> (latest = None
        \/ exists r, latest = Some r /\ truthy (field r "timeIn") = false))
  /\ (run.1 = Ok Attendance.NotCheckedIn ->
      run.2 = add_toasts [ mkToast (getError cfg ERRORS_notCheckedIn) "error" ] w
      /\ stored_records run.2 = l)
  /\ (run.1 = Ok Attendance.Saved ->
      exists r, latest = Some r /\ truthy (field r "timeIn") = true)
  /\ (forall r,
        latest = Some r ->
        truthy (field r "timeIn") = true ->
        validateGeofence env = true ->
        available (localStorage w) = true ->
        quotaExceeded (localStorage w) = false ->
        let d := Utils.calculateTimeDifference (toDate (field r "timeIn"))
                                               (Some (now env)) in
        exists w' i old new,
          run = (Ok Attendance.Saved, w')
          /\ l !! i = Some old
          /\ field old "id" = field r "id"
          /\ stored_records w' !! i = Some new
          /\ length (stored_records w') = length l
          /\ field new "id" = field r "id"
          /\ field new "timeOut" = VInstant (now env)
          /\ field new "timeOutFormatted" = VStr (Utils.formatTime (Some (now env)))
          /\ field new "workHours" = VNum (Utils.hours d)
          /\ field new "workMinutes" = VNum (Utils.minutes d)
          /\ field new "totalWorkMinutes"
             = from_option VNum VUndefined (Utils.totalMinutes d)).
Proof.
  intros Hauth [Hget Hcache] latest run. unfold run.
  pose proof (getAttendanceRecords_array _ _ Hget) as Hl.
  assert (Hguard :
            (todayRecord w = None
             \/ exists r, todayRecord w = Some r /\ truthy (field r "timeIn") = false) ->
            Attendance.handleTimeOut cfg env w
            = (Ok Attendance.NotCheckedIn,
               add_toasts [ mkToast (getError cfg ERRORS_notCheckedIn) "error" ] w))
    by (intros; apply handleTimeOut_guard; assumption).
  assert (Hiff : (Attendance.handleTimeOut cfg env w).1 = Ok Attendance.NotCheckedIn ->
                 todayRecord w = None
                 \/ exists r, todayRecord w = Some r /\ truthy (field r "timeIn") = false).
  { intros Hres. destruct (todayRecord w) as [r|] eqn:Hr; [|auto].
    destruct (truthy (field r "timeIn")) eqn:Hin; [|eauto].
    exfalso. rewrite (handleTimeOut_pass cfg env w r Hauth Hr Hin) in Hres.
    destruct (validateGeofence env); [|discriminate].
    destruct (Storage.updateAttendanceRecord _ _ _) as [[[|]|] w2]; discriminate. }
  assert (Hstep :
            (todayRecord w = None
             \/ exists c, todayRecord w = Some c /\ truthy (field c "timeIn") = false)
            <-> (latest = None
                 \/ exists r, latest = Some r /\ truthy (field r "timeIn") = false)).
  { fold latest in Hcache.
    destruct (todayRecord w) as [c|], latest as [r|]; try contradiction.
    - split; intros [H|(x & [= <-] & Hx)]; try discriminate; right; eexists;
        (split; [reflexivity|]).
      + rewrite <- Hcache by discriminate. exact Hx.
      + rewrite Hcache by discriminate. exact Hx.
    - tauto. }
  split; [|split; [|split]].
  - split.
    + intros Hres. apply Hstep, Hiff, Hres.
    + intros H. rewrite (Hguard (proj2 Hstep H)). reflexivity.
  - intros Hres. rewrite (Hguard (Hiff Hres)). cbn [snd]. split; [reflexivity|].
    rewrite stored_records_add_toasts. exact Hl.
  - intros Hres.
    destruct (Attendance.handleTimeOut cfg env w) as [res w'] eqn:Hrun.
    cbn [fst] in Hres. subst res.
    destruct (handleTimeOut_saved cfg env w w' Hrun) as (c & _ & _ & _ & _ & Hc & Hin & _).
    fold latest in Hcache. rewrite Hc in Hcache.
    destruct latest as [r|]; [|contradiction].
    exists r. split; [reflexivity|]. rewrite <- Hcache by discriminate. exact Hin.
  - intros r Hr Hin Hgeo Hav Hq.
    pose proof (latest_today_elem l (now env) r Hr) as Helem.
    fold latest in Hcache. rewrite Hr in Hcache.
    destruct (todayRecord w) as [c|] eqn:Hc; [|contradiction].
    assert (truthy (field c "timeIn") = true) as Hcin
      by (rewrite Hcache by discriminate; exact Hin).
    assert (exists x, x ∈ l /\ field x "id" = field c "id") as Hx
      by (exists r; split; [exact Helem | symmetry; apply Hcache; discriminate]).
    destruct (handleTimeOut_succeeds cfg env w c l Hauth Hc Hcin Hgeo Hget Hx Hav Hq)
      as [w' Hrun].
    destruct (handleTimeOut_saved cfg env w w' Hrun)
      as (c0 & i & old & new & _ & Hc0 & _ & _ & _ & Hi & Hid & Hi' & Hfields & Hlen & _).
    rewrite Hc in Hc0. injection Hc0 as <-. rewrite Hl in Hi, Hlen.
    destruct (timeOutUpdates_lookup cfg env c) as (Hto & _ & _ & Hnoid).
    destruct (timeOutUpdates_duration cfg env c) as (Hfmt & Hh & Hm & Htotal).
    rewrite (Hcache "timeIn") in Hh, Hm, Htotal by discriminate.
    rewrite (Hcache "id") in Hid by discriminate.
    exists w', i, old, new.
    split; [exact Hrun|]. split; [exact Hi|]. split; [exact Hid|].
    split; [exact Hi'|]. split; [exact Hlen|].
    split; [rewrite Hfields by discriminate; rewrite Hnoid; exact Hid|].
    split; [rewrite Hfields by discriminate; rewrite Hto; reflexivity|].
    split; [rewrite Hfields by discriminate; rewrite Hfmt; reflexivity|].
    split; [rewrite Hfields by discriminate; rewrite Hh; reflexivity|].
    split; [rewrite Hfields by discriminate; rewrite Hm; reflexivity|].
    rewrite Hfields by discriminate. rewrite Htotal. reflexivity.
Qed.

Lemma handleTimeOut_not_checked_in_witness :
  let env := Sample.env_at Sample.t_out true in
  let w := Sample.page [ Sample.queued ] (Some Sample.queued) in
  exists w' i new,
    Attendance.handleTimeOut CONFIG env w = (Ok Attendance.Saved, w')
    /\ stored_records w' !! i = Some new
    /\ field new "timeOut" = VInstant Sample.t_out
    /\ field new "totalWorkMinutes" = VNum 180.
Proof.
  intros env w.
  destruct (handleTimeOut_not_checked_in CONFIG env w [ Sample.queued ] eq_refl
              ltac:(split; [vm_compute; reflexivity | vm_compute; intros k _; reflexivity]))
    as (_ & _ & _ & Hsave).
  destruct (Hsave Sample.queued ltac:(vm_compute; reflexivity) eq_refl eq_refl
              eq_refl eq_refl)
    as (w' & i & old & new & Hrun & _ & _ & Hi & _ & _ & Hto & _ & _ & _ & Htotal).
  exists w', i, new. split; [exact Hrun|]. split; [exact Hi|].
  split; [exact Hto|]. rewrite Htotal. vm_compute. reflexivity.
Defined.

(** C1 as stated fails in two ways. Where the latest record of today is
    a completed cycle, the record has both [timeIn] and [timeOut], yet a
    further time-out is saved and overwrites the stored [timeOut] (12:00
    becomes 13:00) instead of being refused. And the guard reads the
    cache, which is set by [loadTodayAttendance], by a saved time-in and
    by a saved time-out, and not when the date changes: on a page left
    open over midnight the cache is no longer in step with the store,
    and after a time-in at 23:50 no stored record is dated the next day,
    yet a time-out at 00:10 passes the guard, is saved, and writes into
    the record of the day before. *)
Lemma handleTimeOut_after_checkout :
  (let env := Sample.env_at Sample.t_again true in
   let w := Sample.page_completed in
   let w' := (Attendance.handleTimeOut CONFIG env w).2 in
   isAuthenticated env = true
   /\ Storage.getTodayAttendance (now env) w = (Ok (Some Sample.completed), w)
   /\ todayRecord w = Some Sample.completed
   /\ truthy (field Sample.completed "timeIn") = true
   /\ truthy (field Sample.completed "timeOut") = true
   /\ (Attendance.handleTimeOut CONFIG env w).1 = Ok Attendance.Saved
   /\ (fun r => field r "timeOut") <$> stored_records w
      = [ VInstant Sample.t_out ]
   /\ (fun r => field r "timeOut") <$> stored_records w'
      = [ VInstant Sample.t_again ]
   /\ toasts w' = [ mkToast "Checked out successfully!" "success" ])
  /\ (let w := (Attendance.handleTimeIn CONFIG (Sample.env_at Sample.t_evening true)
                  (Sample.page [] None)).2 in
      let env := Sample.env_at Sample.t_night true in
      let w' := (Attendance.handleTimeOut CONFIG env w).2 in
      isAuthenticated env = true
      /\ Storage.getTodayAttendance (now env) w = (Ok None, w)
      /\ (Attendance.handleTimeOut CONFIG env w).1 = Ok Attendance.Saved
      /\ (fun r => (field r "date", field r "timeOut")) <$> stored_records w
         = [ (VStr "03/06/2024", VNull) ]
      /\ (fun r => (field r "date", field r "timeOut")) <$> stored_records w'
         = [ (VStr "03/06/2024", VInstant Sample.t_night) ]).
Proof. cbv zeta. repeat apply conj; vm_compute; reflexivity. Qed.

(** ** C6: early leave *)

(** C6. A time-out that is saved records [earlyLeave] as "minutes since
    midnight of the checkout is strictly less than the scheduled end
    minus the early-leave threshold", in the cached record and in the
    stored one; the status becomes [early_leave] when that flag is true
    and the status before was [present], and stays what it was in every
    other case, so a [late] status is kept. With the end at 17:00 and a
    threshold of 30, 16:29 is an early leave and 16:30 is not. *)
Theorem handleTimeOut_early_leave (cfg : Config) (env : Env) (w w' : World)
    (eh em : Z) :
  nth_num 0 (split ":" (endTime (WORK_SCHEDULE cfg))) = Some eh ->
  nth_num 1 (split ":" (endTime (WORK_SCHEDULE cfg))) = Some em ->
  Attendance.handleTimeOut cfg env w = (Ok Attendance.Saved, w') ->
  let early :=
    minutes_of_day (now env) <? eh * 60 + em - earlyLeaveThreshold (WORK_SCHEDULE cfg) in
  (exists (r r' : record) (i : nat) (old new : record),
     let escalate := early && strict_eq (field r "status") (VStr "present") in
     todayRecord w = Some r
     /\ todayRecord w' = Some r'
     /\ stored_records w !! i = Some old
     /\ field old "id" = field r "id"
     /\ stored_records w' !! i = Some new
     /\ field r' "earlyLeave" = VBool early
     /\ field new "earlyLeave" = VBool early
     /\ field r' "status" = (if escalate then VStr "early_leave" else field r "status")
     /\ field new "status" = (if escalate then VStr "early_leave" else field old "status")
     /\ (field r "status" = VStr "late" -> field old "status" = VStr "late" ->
         field r' "status" = VStr "late" /\ field new "status" = VStr "late"))
  /\ Attendance.isEarlyLeave CONFIG "16:29:00" = true
  /\ Attendance.isEarlyLeave CONFIG "16:30:00" = false.
Proof.
  intros Heh Hem Hrun early. split; [|split; reflexivity].
  destruct (handleTimeOut_saved cfg env w w' Hrun)
    as (r & i & old & new & _ & Hr & _ & _ & Hr' & Hi & Hid & Hi' & Hfields & _).
  destruct (timeOutUpdates_lookup cfg env r) as (_ & Hearly & Hstatus & _).
  rewrite (isEarlyLeave_formatTime cfg (now env) eh em Heh Hem) in Hearly, Hstatus.
  fold early in Hearly, Hstatus.
  exists r, (spread r (Attendance.timeOutUpdates cfg env r)), i, old, new.
  cbv zeta.
  assert (field (spread r (Attendance.timeOutUpdates cfg env r)) "status"
          = if early && strict_eq (field r "status") (VStr "present")
            then VStr "early_leave" else field r "status") as Hs1.
  { rewrite field_spread, Hstatus. destruct (early && _); reflexivity. }
  assert (field new "status"
          = if early && strict_eq (field r "status") (VStr "present")
            then VStr "early_leave" else field old "status") as Hs2.
  { rewrite Hfields by discriminate. rewrite Hstatus.
    destruct (early && _); reflexivity. }
  repeat split; auto.
  - rewrite field_spread, Hearly. reflexivity.
  - rewrite Hfields by discriminate. rewrite Hearly. reflexivity.
  - rewrite Hs1. rewrite H. rewrite andb_false_r. reflexivity.
  - rewrite Hs2. rewrite H. rewrite andb_false_r. assumption.
Qed.

Lemma handleTimeOut_early_leave_witness :
  let env := Sample.env_at (Sample.clock 2024 6 3 16 29) true in
  let w := Sample.page [ Sample.checked_in "a" "03/06/2024" Sample.t_in "present" ]
                       (Some (Sample.checked_in "a" "03/06/2024" Sample.t_in "present")) in
  exists r', todayRecord (Attendance.handleTimeOut CONFIG env w).2 = Some r'
             /\ field r' "earlyLeave" = VBool true
             /\ field r' "status" = VStr "early_leave".
Proof.
  intros env w.
  destruct (handleTimeOut_early_leave CONFIG env w
              (Attendance.handleTimeOut CONFIG env w).2 17 0
              eq_refl eq_refl eq_refl)
    as [(r & r' & i & old & new & Hr & Hr' & _ & _ & _ & He & _ & Hs & _) _].
  exists r'. split; [exact Hr'|]. split; [exact He|].
  rewrite Hs. injection Hr as <-. reflexivity.
Defined.

(** ** The time-in handler, path by path *)

Lemma verifyFace_run (cfg : Config) (env : Env) :
  exists o ts, forall w, Attendance.verifyFace cfg env w = (Ok o, add_toasts ts w).
Proof.
  unfold Attendance.verifyFace.
  destruct (FEATURES_faceRecognition cfg);
    [|exists (Some (false, VNull)), []; intros; by rewrite add_toasts_nil].
  destruct (startCamera env), (success (performFaceVerification env)),
    (requiresRegistration (performFaceVerification env)), (showFaceModal env),
    (success (retryFaceVerification env)); cbn [negb];
    eexists _, _; intros w; unfold mbind, M_bind, bind, ret;
    repeat first [ rewrite shown_by_run | rewrite showToast_run
                 | progress cbv beta iota ];
    rewrite ?add_toasts_app; reflexivity.
Qed.

Lemma saveAttendanceRecord_run (r : record) (generatedId : string) (w : World)
    (l : list record) :
  Storage.getAttendanceRecords w = (Ok (JArray l), w) ->
  let r1 := if negb (truthy (field r "id"))
            then <["id" := VStr generatedId]> r else r in
  Storage.saveAttendanceRecord r generatedId w =
    match Storage.setItem (l ++ [ r1 ]) w with
    | (Ok b, w') => (Ok (b, r1), w')
    | (Throw, w') => (Throw, w')
    end.
Proof.
  intros H r1. unfold Storage.saveAttendanceRecord.
  unfold mbind at 1, M_bind at 1, bind at 1. rewrite H.
  unfold mbind at 1, M_bind at 1, bind at 1. simpl.
  unfold mbind at 1, M_bind at 1, bind at 1. fold r1.
  destruct (Storage.setItem (l ++ [ r1 ]) w) as [[b|] w']; reflexivity.
Qed.

Lemma saveAttendanceRecord_throw (r : record) (generatedId : string) (w : World) :
  Storage.getAttendanceRecords w = (Ok JOther, w) ->
  Storage.saveAttendanceRecord r generatedId w = (Throw, w).
Proof.
  intros H. unfold Storage.saveAttendanceRecord.
  unfold mbind at 1, M_bind at 1, bind at 1. rewrite H. reflexivity.
Qed.

(** What a time-in that reaches [Saved] has done: a record built from
    the [attendanceRecord] literal (its [id] apart, which [Storage] may
    assign) is the cached record of today and the last record of the
    store, which has grown by exactly that one. *)
Lemma handleTimeIn_saved (cfg : Config) (env : Env) (w w' : World) :
  Attendance.handleTimeIn cfg env w = (Ok Attendance.Saved, w') ->
  exists (user : User) (faceVerified : bool) (photoData : value) (r new : record),
    isAuthenticated env = true
    /\ validateGeofence env = true
    /\ currentUser env = Some user
    /\ (forall k, k <> "id" ->
          field r k = field (Attendance.attendanceRecord cfg env user faceVerified photoData) k)
    /\ todayRecord w' = Some r
    /\ length (stored_records w') = S (length (stored_records w))
    /\ last (stored_records w') = Some new
    /\ (forall k, k <> "synced" -> field new k = field r k)
    /\ (forall j x, stored_records w !! j = Some x ->
          exists y, stored_records w' !! j = Some y
                    /\ forall k, k <> "synced" -> field y k = field x k).
Proof.
  intros Hrun. unfold Attendance.handleTimeIn, try_catch in Hrun.
  destruct (isAuthenticated env) eqn:Hauth; [|discriminate]. cbn [negb] in Hrun.
  unfold mbind at 1, M_bind at 1, bind at 1 in Hrun.
  rewrite validateLocation_run in Hrun.
  destruct (validateGeofence env) eqn:Hgeo; [|discriminate]. cbn [negb] in Hrun.
  rewrite app_nil_r in Hrun.
  destruct (verifyFace_run cfg env) as (o & ts & Hface).
  unfold mbind at 1, M_bind at 1, bind at 1 in Hrun. rewrite Hface in Hrun.
  rewrite add_toasts_app in Hrun.
  set (w1 := add_toasts (locationToasts env ++ ts) w) in *.
  destruct o as [[faceVerified photoData]|]; [|discriminate].
  unfold mbind at 1, M_bind at 1, bind at 1 in Hrun.
  destruct (currentUser env) as [user|] eqn:Huser; [|discriminate].
  unfold ret at 1 in Hrun.
  set (r0 := Attendance.attendanceRecord cfg env user faceVerified photoData) in *.
  destruct (getAttendanceRecords_run w) as [j Hget].
  pose proof (getAttendanceRecords_ext w w1 j eq_refl Hget) as Hget1.
  unfold mbind at 1, M_bind at 1, bind at 1 in Hrun.
  destruct j as [l|];
    [|rewrite (saveAttendanceRecord_throw _ _ _ Hget1) in Hrun; discriminate].
  rewrite (saveAttendanceRecord_run _ _ _ _ Hget1) in Hrun.
  set (r1 := if negb (truthy (field r0 "id")) then _ else r0) in *.
  destruct (Storage.setItem (l ++ [ r1 ]) w1) as [[[|]|] w2] eqn:Hset;
    [| discriminate | discriminate].
  cbn [fst snd] in Hrun.
  pose proof (stored_records_setItem _ _ _ Hset) as Hstored2.
  pose proof (getAttendanceRecords_array _ _ Hget) as Hl.
  pose proof (stored_records_roundtrip w) as Hclean. rewrite Hl in Hclean.
  rewrite fmap_app, Hclean in Hstored2.
  change (json_roundtrip <$> [ r1 ]) with [ json_roundtrip r1 ] in Hstored2.
  destruct (sync_or_queue_run env r1
              (committed r1 (getSuccess cfg SUCCESS_checkinSuccess) w2))
    as (w3 & Hs & Hsame & Htoday).
  assert (w' = w3) as ->.
  { unfold sync_or_queue in Hs. unfold committed in Hs.
    unfold mbind, M_bind, bind, set_todayRecord, showToast, modify, ret in Hrun.
    simpl in Hrun, Hs. destruct (onLine env); rewrite Hs in Hrun; congruence. }
  rewrite (stored_records_ext w2 (committed _ _ w2)) in Hsame by reflexivity.
  rewrite Hstored2 in Hsame.
  apply Forall2_same_length_lookup in Hsame as [Hlen Hsame].
  rewrite length_app in Hlen. simpl in Hlen.
  destruct (lookup_lt_is_Some_2 (stored_records w3) (length l)) as [new Hnew];
    [lia|].
  exists user, faceVerified, photoData, r1, new. rewrite Hl.
  repeat split; auto.
  - intros k Hk. unfold r1. destruct (negb _); [|reflexivity].
    unfold field. rewrite lookup_insert_ne by congruence. reflexivity.
  - lia.
  - rewrite last_lookup. rewrite <- Hlen.
    replace (Nat.pred (length l + 1)) with (length l) by lia. exact Hnew.
  - intros k Hk.
    rewrite (Hsame (length l) (json_roundtrip r1) new); auto.
    + apply field_json_roundtrip.
    + rewrite lookup_app_r by lia. rewrite Nat.sub_diag. reflexivity.
  - intros i x Hx.
    destruct (lookup_lt_is_Some_2 (stored_records w3) i) as [y Hy].
    { rewrite <- Hlen. apply lookup_lt_Some in Hx. lia. }
    exists y. split; [exact Hy|]. intros k Hk.
    apply (Hsame i x y); auto. rewrite lookup_app_l; [exact Hx|].
    eapply lookup_lt_Some; eauto.
Qed.

(** ** C5: late arrival *)

Lemma attendanceRecord_fields (cfg : Config) (env : Env) (user : User)
    (faceVerified : bool) (photoData : value) :
  let r := Attendance.attendanceRecord cfg env user faceVerified photoData in
  field r "status" =
    VStr (if Utils.isLate (Utils.formatTime (Some (now env)))
                          (startTime (WORK_SCHEDULE cfg))
                          (lateThreshold (WORK_SCHEDULE cfg))
          then "late" else "present")
  /\ field r "timeOut" = VNull
  /\ field r "timeIn" = VInstant (now env)
  /\ field r "dateTime" = VInstant (now env)
  /\ field r "date" = VStr (Utils.formatDate (Some (now env))).
Proof. repeat split; reflexivity. Qed.

(** The record of a time-in is dated by its own timestamp. *)
Lemma attendanceRecord_dated (cfg : Config) (env : Env) (user : User)
    (faceVerified : bool) (photoData : value) :
  dated (Attendance.attendanceRecord cfg env user faceVerified photoData).
Proof. reflexivity. Qed.

(** C5. A time-in that is saved creates a record (cached as today's
    record and appended to the store) whose status is [late] when the
    minutes since midnight of the check-in are strictly greater than the
    scheduled start in minutes plus the late threshold, and [present]
    otherwise; its [timeOut] is [null]. With the start at 09:00 and a
    threshold of 15: 08:59 and 09:15 are present, 09:16 is late. *)
Theorem handleTimeIn_status (cfg : Config) (env : Env) (w w' : World) (sh sm : Z) :
  nth_num 0 (split ":" (startTime (WORK_SCHEDULE cfg))) = Some sh ->
  nth_num 1 (split ":" (startTime (WORK_SCHEDULE cfg))) = Some sm ->
  Attendance.handleTimeIn cfg env w = (Ok Attendance.Saved, w') ->
  let late :=
    sh * 60 + sm + lateThreshold (WORK_SCHEDULE cfg) <? minutes_of_day (now env) in
  (exists r new : record,
     todayRecord w' = Some r
     /\ length (stored_records w') = S (length (stored_records w))
     /\ last (stored_records w') = Some new
     /\ field r "status" = VStr (if late then "late" else "present")
     /\ field new "status" = VStr (if late then "late" else "present")
     /\ field r "timeOut" = VNull
     /\ field new "timeOut" = VNull)
  /\ Utils.isLate "08:59:00" "09:00" 15 = false
  /\ Utils.isLate "09:15:00" "09:00" 15 = false
  /\ Utils.isLate "09:16:00" "09:00" 15 = true.
Proof.
  intros Hsh Hsm Hrun late. split; [|repeat split; reflexivity].
  destruct (handleTimeIn_saved cfg env w w' Hrun)
    as (user & fv & pd & r & new & _ & _ & _ & Hr & Htoday & Hlen & Hlast & Hnew & _).
  destruct (attendanceRecord_fields cfg env user fv pd) as (Hstatus & Hout & _).
  rewrite (isLate_formatTime _ _ _ sh sm Hsh Hsm) in Hstatus. fold late in Hstatus.
  assert (field r "status" = VStr (if late then "late" else "present")) as Hrs
    by (rewrite Hr by discriminate; exact Hstatus).
  assert (field r "timeOut" = VNull) as Hro
    by (rewrite Hr by discriminate; exact Hout).
  exists r, new.
  split; [exact Htoday|]. split; [exact Hlen|]. split; [exact Hlast|].
  split; [exact Hrs|]. split; [rewrite Hnew by discriminate; exact Hrs|].
  split; [exact Hro|]. rewrite Hnew by discriminate. exact Hro.
Qed.

Lemma handleTimeIn_status_witness :
  let env := Sample.env_at (Sample.clock 2024 6 3 9 16) true in
  let w := Sample.page [] None in
  exists r, todayRecord (Attendance.handleTimeIn CONFIG env w).2 = Some r
            /\ field r "status" = VStr "late".
Proof.
  intros env w.
  assert (Attendance.handleTimeIn CONFIG env w
          = (Ok Attendance.Saved, (Attendance.handleTimeIn CONFIG env w).2)) as Hrun
    by (vm_compute; reflexivity).
  destruct (handleTimeIn_status CONFIG env w _ 9 0 eq_refl eq_refl Hrun)
    as [(r & new & Hr & _ & _ & Hs & _) _].
  exists r. split; [exact Hr | exact Hs].
Defined.

(** ** C9: draining the offline queue *)

Lemma syncOfflineQueue_unfold (w : World) :
  Attendance.syncOfflineQueue w =
    if (length (offlineQueue w) =? 0)%nat then (Ok tt, w)
    else
      match drain_loop (offlineQueue w)
              {| localStorage := localStorage w; toasts := toasts w;
                 todayRecord := todayRecord w; offlineQueue := [] |} with
      | (Ok _, w') =>
          if (length (offlineQueue w') =? 0)%nat
          then (Ok tt, add_toasts
                         [ mkToast "All offline records synced successfully" "success" ] w')
          else (Ok tt, w')
      | (Throw, w') => (Throw, w')
      end.
Proof.
  unfold Attendance.syncOfflineQueue.
  unfold mbind at 1, M_bind at 1, bind at 1, gets at 1.
  destruct (length (offlineQueue w) =? 0)%nat; [reflexivity|].
  unfold mbind at 1, M_bind at 1, bind at 1, set_offlineQueue at 1, modify at 1.
  unfold mbind at 1, M_bind at 1, bind at 1. fold (drain_loop (offlineQueue w)).
  destruct (drain_loop _ _) as [[[]|] w']; [|reflexivity].
  unfold mbind at 1, M_bind at 1, bind at 1, gets at 1.
  destruct (length (offlineQueue w') =? 0)%nat; reflexivity.
Qed.

(** On a store that holds an array no sync attempt throws, whatever
    [updateAttendanceRecord] returns: the loop re-enqueues nothing. *)
Lemma drain_loop_array (queue : list record) (w : World) (l : list record) :
  Storage.getAttendanceRecords w = (Ok (JArray l), w) ->
  exists w', drain_loop queue w = (Ok tt, w')
    /\ offlineQueue w' = offlineQueue w
    /\ todayRecord w' = todayRecord w
    /\ same_but_synced (stored_records w) (stored_records w')
    /\ holds_array w'.
Proof.
  revert w l. induction queue as [|r queue IH]; intros w l Hget.
  - exists w. split; [reflexivity|]. split; [reflexivity|]. split; [reflexivity|].
    split; [apply same_but_synced_refl | by exists l].
  - unfold drain_loop. cbn [for_of]. fold (drain_loop queue).
    unfold mbind at 1, M_bind at 1, bind at 1.
    destruct (update_synced (field r "id") w l Hget)
      as (b & w1 & Hup & Hs1 & Ht1 & Hq1 & _ & Hget1).
    assert (Attendance.syncAttendance r w = (Ok tt, w1)) as Hsync.
    { unfold Attendance.syncAttendance, try_catch, mbind, M_bind, bind.
      rewrite Hup. reflexivity. }
    unfold try_catch at 1. rewrite Hsync.
    destruct (IH w1 _ Hget1) as (w' & Hloop & Hq & Ht & Hs & Harr).
    exists w'. split; [exact Hloop|]. split; [congruence|]. split; [congruence|].
    split; [eapply same_but_synced_trans; eauto | exact Harr].
Qed.

(** On a store that holds something else every sync attempt throws
    inside [syncAttendance], whose own [catch] puts the record back. *)
Lemma drain_loop_other (queue : list record) (w : World) :
  Storage.getAttendanceRecords w = (Ok JOther, w) ->
  exists w', drain_loop queue w = (Ok tt, w')
    /\ offlineQueue w' = offlineQueue w ++ queue
    /\ localStorage w' = localStorage w
    /\ toasts w' = toasts w ++
         replicate (length queue)
           (mkToast "Attendance saved offline. Will sync when online." "info").
Proof.
  revert w. induction queue as [|r queue IH]; intros w Hget.
  - exists w. simpl. rewrite !app_nil_r. auto.
  - unfold drain_loop. cbn [for_of]. fold (drain_loop queue).
    unfold mbind at 1, M_bind at 1, bind at 1.
    assert (Attendance.syncAttendance r w = Attendance.addToOfflineQueue r w) as Hsync.
    { unfold Attendance.syncAttendance, try_catch, mbind, M_bind, bind.
      rewrite (updateAttendanceRecord_throw _ _ _ Hget). reflexivity. }
    unfold try_catch at 1. rewrite Hsync, addToOfflineQueue_run.
    match goal with |- context [drain_loop queue ?w1] =>
      destruct (IH w1 (getAttendanceRecords_ext w w1 _ eq_refl Hget))
        as (w' & Hloop & Hq & Hls & Ht)
    end.
    exists w'. split; [exact Hloop|]. simpl in *.
    rewrite Hq, Ht, <- !app_assoc. auto.
Qed.

(** One drain pass over a store that holds an array: the queue ends
    empty and the success toast is the last thing shown, whether or not
    any record was marked as synced. *)
Lemma syncOfflineQueue_array (w : World) (l : list record) :
  Storage.getAttendanceRecords w = (Ok (JArray l), w) ->
  offlineQueue w <> [] ->
  exists w', Attendance.syncOfflineQueue w = (Ok tt, w')
    /\ offlineQueue w' = []
    /\ last (toasts w')
       = Some (mkToast "All offline records synced successfully" "success")
    /\ same_but_synced (stored_records w) (stored_records w')
    /\ holds_array w'.
Proof.
  intros Hget Hne. rewrite syncOfflineQueue_unfold.
  destruct (offlineQueue w) as [|r q] eqn:Hq; [congruence|]. cbn [length Nat.eqb].
  match goal with |- context [drain_loop _ ?w0] =>
    destruct (drain_loop_array (r :: q) w0 l (getAttendanceRecords_ext w w0 _ eq_refl Hget))
      as (w' & Hloop & Hq' & _ & Hsame & Harr)
  end.
  rewrite Hloop. simpl in Hq'. rewrite Hq'. cbn [length Nat.eqb].
  eexists. split; [reflexivity|]. simpl. split; [exact Hq'|].
  split; [apply last_snoc|].
  rewrite stored_records_add_toasts.
  match type of Hsame with same_but_synced (stored_records ?w0) _ =>
    rewrite (stored_records_ext w w0) in Hsame by reflexivity
  end.
  split; [exact Hsame|]. destruct Harr as [l' Hl']. exists l'.
  eapply getAttendanceRecords_ext; [|exact Hl']. reflexivity.
Qed.

(** One drain pass over a store on which every sync attempt throws: all
    entries are back in the queue, in order, and no success is reported. *)
Lemma syncOfflineQueue_other (w : World) :
  Storage.getAttendanceRecords w = (Ok JOther, w) ->
  offlineQueue w <> [] ->
  exists w', Attendance.syncOfflineQueue w = (Ok tt, w')
    /\ offlineQueue w' = offlineQueue w
    /\ localStorage w' = localStorage w
    /\ toasts w' = toasts w ++
         replicate (length (offlineQueue w))
           (mkToast "Attendance saved offline. Will sync when online." "info").
Proof.
  intros Hget Hne. rewrite syncOfflineQueue_unfold.
  destruct (offlineQueue w) as [|r q] eqn:Hq; [congruence|]. cbn [length Nat.eqb].
  match goal with |- context [drain_loop _ ?w0] =>
    destruct (drain_loop_other (r :: q) w0 (getAttendanceRecords_ext w w0 _ eq_refl Hget))
      as (w' & Hloop & Hq' & Hls & Ht)
  end.
  rewrite Hloop. simpl in Hq', Hls, Ht. rewrite Hq'. cbn [length Nat.eqb].
  exists w'. auto.
Qed.

(** However often the queue is drained over such a store, no entry is
    lost. *)
Lemma syncOfflineQueue_other_iter (n : nat) (w : World) :
  Storage.getAttendanceRecords w = (Ok JOther, w) ->
  offlineQueue w <> [] ->
  offlineQueue (Nat.iter n (fun w0 => (Attendance.syncOfflineQueue w0).2) w)
  = offlineQueue w
  /\ localStorage (Nat.iter n (fun w0 => (Attendance.syncOfflineQueue w0).2) w)
     = localStorage w.
Proof.
  intros Hget Hne. induction n as [|n [IHq IHs]]; [split; reflexivity|].
  rewrite !Nat.iter_succ.
  set (wn := Nat.iter n (fun w0 => (Attendance.syncOfflineQueue w0).2) w) in *.
  destruct (syncOfflineQueue_other wn) as (w' & Hrun & Hq & Hs & _).
  - apply (getAttendanceRecords_ext w wn _ IHs Hget).
  - rewrite IHq. exact Hne.
  - rewrite Hrun. simpl. split; congruence.
Qed.

(** C9, at the failing input. A record waits in the offline queue and
    the store holds no record with its [id] (it has been deleted):
    [updateAttendanceRecord]
    answers [false], nothing throws, so the drain pass does not put the
    record back. The queue is empty afterwards, the success toast is
    shown, and no stored record has been marked as synced. *)
Theorem syncOfflineQueue_drops_unsynced :
  let w := Sample.page_queued in
  let w' := (Attendance.syncOfflineQueue w).2 in
  Storage.deleteAttendanceRecord (VStr "a") Sample.page_waiting = (Ok true, w)
  /\ (Storage.updateAttendanceRecord (field Sample.queued "id")
     {[ "synced" := VBool true ]} w).1 = Ok false
  /\ offlineQueue w = [ Sample.queued ]
  /\ (Attendance.syncOfflineQueue w).1 = Ok tt
  /\ offlineQueue w' = []
  /\ toasts w' = [ mkToast "All offline records synced successfully" "success" ]
  /\ (fun r => field r "synced") <$> stored_records w' = [ VBool false ].
Proof. by_evaluation. Qed.

(** ** Statistics: one record per date *)

Lemma elem_of_unique_from (seen xs : list value) (x : value) :
  x ∈ unique_from seen xs <-> x ∈ xs /\ x ∉ seen.
Proof.
  revert seen. induction xs as [|a xs IH]; intros seen; simpl.
  - split; [intros H; inversion H | intros [H _]; inversion H].
  - case_bool_decide as Ha.
    + rewrite IH. rewrite elem_of_cons. split; [tauto|].
      intros [[->|Hx] Hs]; [contradiction | auto].
    + rewrite elem_of_cons, IH, !elem_of_cons. split.
      * intros [->|[Hx Hs]]; [auto|]. split; [auto|]. intros Hn. apply Hs. auto.
      * intros [[->|Hx] Hs]; [auto|].
        destruct (decide (x = a)) as [->|Hne]; [auto|].
        right. split; [auto|]. intros [?|?]; auto.
Qed.

Lemma NoDup_unique_from (seen xs : list value) : NoDup (unique_from seen xs).
Proof.
  revert seen. induction xs as [|a xs IH]; intros seen; simpl; [constructor|].
  case_bool_decide; [apply IH|].
  constructor; [|apply IH]. rewrite elem_of_unique_from.
  intros [_ Hn]. apply Hn. left.
Qed.

Lemma elem_of_unique (xs : list value) (x : value) : x ∈ unique xs <-> x ∈ xs.
Proof.
  unfold unique. rewrite elem_of_unique_from. split; [tauto|].
  intros H. split; [exact H|]. intros Hn. inversion Hn.
Qed.

Lemma NoDup_unique (xs : list value) : NoDup (unique xs).
Proof. apply NoDup_unique_from. Qed.

Lemma last_filter_split {A} (p : A -> bool) (l : list A) (r : A) :
  last (List.filter p l) = Some r ->
  exists l1 l2, l = l1 ++ r :: l2 /\ p r = true /\ forall x, x ∈ l2 -> p x = false.
Proof.
  induction l as [|a l IH]; simpl; [discriminate|].
  destruct (List.filter p l) as [|b fl] eqn:Hf.
  - destruct (p a) eqn:Hp; simpl; [|discriminate].
    intros [= <-]. exists [], l. repeat split; auto.
    intros x Hx. destruct (p x) eqn:Hpx; [|reflexivity].
    assert (x ∈ List.filter p l) as Hin
      by (apply list_elem_of_In, filter_In; split; [by apply list_elem_of_In|auto]).
    rewrite Hf in Hin. inversion Hin.
  - intros Hlast.
    assert (last (b :: fl) = Some r) as Hl.
    { destruct (p a); exact Hlast. }
    destruct (IH Hl) as (l1 & l2 & -> & Hr & Hafter).
    exists (a :: l1), l2. repeat split; auto.
Qed.

Lemma filter_nonempty {A} (p : A -> bool) (l : list A) (x : A) :
  x ∈ l -> p x = true -> exists r, last (List.filter p l) = Some r.
Proof.
  intros Hx Hp.
  assert (x ∈ List.filter p l) as Hin
    by (apply list_elem_of_In, filter_In; split; [by apply list_elem_of_In|auto]).
  destruct (List.filter p l) as [|b fl]; [inversion Hin|].
  destruct (last (b :: fl)) eqn:Hl; [eauto|].
  apply last_None in Hl. discriminate.
Qed.

(** Every date of the month has a last record. *)
Lemma latest_defined (monthly : list record) (d : value) :
  d ∈ dates_of monthly ->
  exists r, last (List.filter (fun r => strict_eq (field r "date") d) monthly) = Some r.
Proof.
  intros Hd. apply list_elem_of_fmap in Hd as (x & -> & Hx).
  apply (filter_nonempty _ _ x Hx). apply strict_eq_true. reflexivity.
Qed.

Lemma latestRecordsByDate_defined (monthly : list record) (ds : list value) :
  (forall d, d ∈ ds -> d ∈ dates_of monthly) ->
  Attendance.latestRecordsByDate monthly ds
  = Some <$> omap (fun d => last (List.filter
                                    (fun r => strict_eq (field r "date") d) monthly)) ds
  /\ length (omap (fun d => last (List.filter
                                    (fun r => strict_eq (field r "date") d) monthly)) ds)
     = length ds.
Proof.
  induction ds as [|d ds IH]; intros Hds; [split; reflexivity|].
  destruct IH as [IH1 IH2]; [intros; apply Hds; by right|].
  destruct (latest_defined monthly d) as [r Hr]; [apply Hds; left|].
  unfold Attendance.latestRecordsByDate in *. rewrite fmap_cons.
  cbn [omap list_omap]. rewrite Hr. rewrite fmap_cons, length_cons.
  rewrite <- IH1, IH2. split; [|reflexivity]. f_equal.
  rewrite <- Hr. rewrite last_lookup. f_equal. lia.
Qed.

Lemma all_defined_Some (l : list record) (w : World) :
  all_defined (Some <$> l) w = (Ok l, w).
Proof.
  unfold all_defined.
  replace (mapM id (Some <$> l)) with (Some l); [reflexivity|].
  symmetry. apply mapM_Some. induction l; constructor; auto.
Qed.

(** [getStatistics] on a store that holds an array. *)
Lemma getStatistics_run (env : Env) (w : World) (l : list record) :
  Storage.getAttendanceRecords w = (Ok (JArray l), w) ->
  let monthly := monthly_records l (now env) in
  let latest := latest_records monthly in
  let total :=
    foldl (fun total r => add_if_truthy total (field r "totalWorkMinutes")) (Some 0) latest in
  Attendance.getStatistics env w =
    (Ok {| Attendance.totalDays := length latest;
           Attendance.presentDays :=
             count (fun r => strict_eq (field r "status") (VStr "present")) latest;
           Attendance.lateDays :=
             count (fun r => strict_eq (field r "status") (VStr "late")) latest;
           Attendance.earlyLeaveDays :=
             count (fun r => truthy (field r "earlyLeave")) latest;
           Attendance.totalWorkHours := (fun t => t / 60) <$> total;
           Attendance.totalWorkMinutes := (fun t => Z.rem t 60) <$> total;
           Attendance.attendanceRate :=
             attendance_rate
               (count (fun r => strict_eq (field r "status") (VStr "present")) latest)
               (length latest) |}, w).
Proof.
  intros Hget monthly latest total. unfold Attendance.getStatistics.
  unfold mbind at 1, M_bind at 1, bind at 1. rewrite Hget.
  unfold mbind at 1, M_bind at 1, bind at 1. simpl as_array. unfold ret at 1.
  fold (monthly_records l (now env)). fold monthly.
  fold (dates_of monthly).
  destruct (latestRecordsByDate_defined monthly (unique (dates_of monthly)))
    as [Hdef Hlen]; [intros d; apply elem_of_unique|].
  fold (latest_records monthly) in Hdef, Hlen. fold latest in Hdef, Hlen.
  unfold mbind at 1, M_bind at 1, bind at 1. rewrite Hdef, all_defined_Some.
  rewrite <- Hlen. reflexivity.
Qed.

Lemma dates_of_latest (monthly : list record) (ds : list value) :
  (forall d, d ∈ ds -> d ∈ dates_of monthly) ->
  dates_of (omap (fun d => last (List.filter
                                   (fun r => strict_eq (field r "date") d) monthly)) ds)
  = ds.
Proof.
  induction ds as [|d ds IH]; intros Hds; [reflexivity|].
  destruct (latest_defined monthly d) as [r Hr]; [apply Hds; left|].
  cbn [omap list_omap]. rewrite Hr. unfold dates_of in *. rewrite fmap_cons.
  rewrite IH by (intros; apply Hds; by right). f_equal.
  apply last_filter_split in Hr as (_ & _ & _ & Hd & _).
  apply strict_eq_true in Hd. exact Hd.
Qed.

(** The reduction of [getStatistics]: the chosen records carry pairwise
    distinct dates, exactly the dates that occur in the month, and each of
    them is the last record of its date. *)
Lemma latest_records_spec (monthly : list record) :
  dates_of (latest_records monthly) = unique (dates_of monthly)
  /\ NoDup (dates_of (latest_records monthly))
  /\ (forall d, d ∈ dates_of (latest_records monthly) <-> d ∈ dates_of monthly)
  /\ (forall r, r ∈ latest_records monthly ->
        last_of_date monthly (field r "date") r).
Proof.
  assert (dates_of (latest_records monthly) = unique (dates_of monthly)) as Hd
    by (apply dates_of_latest; intros d; apply elem_of_unique).
  split; [exact Hd|]. rewrite Hd. split; [apply NoDup_unique|].
  split; [intros d; apply elem_of_unique|].
  intros r Hr. unfold latest_records in Hr.
  apply list_elem_of_omap in Hr as (d & _ & Hlast).
  apply last_filter_split in Hlast as (l1 & l2 & -> & Hrd & Hafter).
  apply strict_eq_true in Hrd. exists l1, l2. split; [reflexivity|].
  split; [reflexivity|]. intros x Hx. rewrite Hrd.
  apply strict_eq_false. auto.
Qed.

(** What [getStatistics] computes, over any stored array: its counts are
    taken from one record per distinct date of the current month, the
    last one of each date, and [totalDays] is the number of those. *)
Lemma getStatistics_one_record_per_date (env : Env) (w : World) (l : list record) :
  Storage.getAttendanceRecords w = (Ok (JArray l), w) ->
  exists (s : Attendance.Statistics) (latest : list record),
    let monthly := monthly_records l (now env) in
    Attendance.getStatistics env w = (Ok s, w)
    /\ NoDup (dates_of latest)
    /\ (forall d, d ∈ dates_of latest <-> d ∈ dates_of monthly)
    /\ (forall r, r ∈ latest -> last_of_date monthly (field r "date") r)
    /\ Attendance.totalDays s = length latest
    /\ Attendance.presentDays s
       = count (fun r => strict_eq (field r "status") (VStr "present")) latest
    /\ Attendance.lateDays s
       = count (fun r => strict_eq (field r "status") (VStr "late")) latest
    /\ Attendance.earlyLeaveDays s
       = count (fun r => truthy (field r "earlyLeave")) latest.
Proof.
  intros Hget. eexists _, (latest_records (monthly_records l (now env))).
  cbv zeta. split; [apply (getStatistics_run env w l Hget)|].
  destruct (latest_records_spec (monthly_records l (now env))) as (_ & H1 & H2 & H3).
  simpl. auto 10.
Qed.

(** C2, at the failing input. Two records of the same day, the later one
    [late]: [Attendance.getStatistics] reduces them to the last record
    of the day (one day, none present, one late), while
    [Reports.getSummaryStats] for that month counts both records (two
    "days", one present, one late). *)
Theorem getSummaryStats_counts_every_record :
  let w := Sample.page_two_cycles in
  (Attendance.getStatistics (Sample.env_at Sample.mid_june true) w).1
  = Ok {| Attendance.totalDays := 1; Attendance.presentDays := 0;
          Attendance.lateDays := 1; Attendance.earlyLeaveDays := 0;
          Attendance.totalWorkHours := Some 0;
          Attendance.totalWorkMinutes := Some 0;
          Attendance.attendanceRate := Some 0 |}
  /\ (Reports.getSummaryStats 2024 6 w).1
     = Ok {| Reports.totalDays := 2; Reports.presentDays := 1;
             Reports.lateDays := 1; Reports.earlyLeaveDays := 0;
             Reports.totalWorkHours := Some 0;
             Reports.attendanceRate := Some 50 |}.
Proof. by_evaluation. Qed.

(** ** C3: total work time *)

Lemma foldl_add_if_truthy (l : list record) (a : Z) :
  (forall r, r ∈ l -> minutes_typed r) ->
  foldl (fun total r => add_if_truthy total (field r "totalWorkMinutes")) (Some a) l
  = Some (a + total_minutes l).
Proof.
  revert a. induction l as [|r l IH]; intros a Htyped.
  - simpl. f_equal. unfold total_minutes. simpl. lia.
  - cbn [foldl].
    assert (add_if_truthy (Some a) (field r "totalWorkMinutes")
            = Some (a + own_minutes r)) as ->.
    { specialize (Htyped r). unfold minutes_typed in Htyped.
      unfold add_if_truthy, own_minutes.
      destruct (field r "totalWorkMinutes") as [| | |n| | |];
        try (exfalso; apply Htyped; left); simpl; try (f_equal; lia).
      destruct (n =? 0) eqn:Hn; simpl; f_equal; lia. }
    rewrite IH by (intros; apply Htyped; by right).
    f_equal. unfold total_minutes. rewrite fmap_cons. simpl. lia.
Qed.

Lemma latest_records_subset (monthly : list record) (r : record) :
  r ∈ latest_records monthly -> r ∈ monthly.
Proof.
  intros Hr. destruct (latest_records_spec monthly) as (_ & _ & _ & H).
  destruct (H r Hr) as (l1 & l2 & -> & _). apply elem_of_app. right. left.
Qed.

Lemma monthly_records_subset (l : list record) (now : Z) (r : record) :
  r ∈ monthly_records l now -> r ∈ l.
Proof.
  unfold monthly_records. intros Hr. apply list_elem_of_In in Hr.
  apply filter_In in Hr as [Hr _]. by apply list_elem_of_In.
Qed.

(** C3 (amended). The summary of [getStatistics] carries the summed
    duration split in two: over the reduced set (one record per date,
    the last of each date) the records' own [totalWorkMinutes] are
    added up, [totalWorkHours] is that sum divided by 60 rounded down,
    and the field [totalWorkMinutes] is the remainder of the sum by 60,
    not the sum. For a sum that is not negative the two fields give the
    sum back as [60 * totalWorkHours + totalWorkMinutes]. *)
Theorem getStatistics_work_time (env : Env) (w : World) (l : list record) :
  Storage.getAttendanceRecords w = (Ok (JArray l), w) ->
  (forall r, r ∈ l -> minutes_typed r) ->
  exists (s : Attendance.Statistics) (latest : list record),
    let monthly := monthly_records l (now env) in
    let sum := total_minutes latest in
    Attendance.getStatistics env w = (Ok s, w)
    /\ NoDup (dates_of latest)
    /\ (forall d, d ∈ dates_of latest <-> d ∈ dates_of monthly)
    /\ (forall r, r ∈ latest -> last_of_date monthly (field r "date") r)
    /\ Attendance.totalWorkHours s = Some (sum / 60)
    /\ Attendance.totalWorkMinutes s = Some (Z.rem sum 60)
    /\ (0 <= sum ->
        0 <= Z.rem sum 60 < 60 /\ sum = 60 * (sum / 60) + Z.rem sum 60).
Proof.
  intros Hget Htyped. eexists _, (latest_records (monthly_records l (now env))).
  cbv zeta. split; [apply (getStatistics_run env w l Hget)|].
  destruct (latest_records_spec (monthly_records l (now env))) as (_ & H1 & H2 & H3).
  split; [exact H1|]. split; [exact H2|]. split; [exact H3|].
  cbn [Attendance.totalWorkHours Attendance.totalWorkMinutes].
  rewrite foldl_add_if_truthy.
  2:{ intros r Hr. apply Htyped.
      eapply monthly_records_subset, latest_records_subset. exact Hr. }
  rewrite Z.add_0_l. split; [reflexivity|]. split; [reflexivity|].
  intros Hsum. rewrite Z.rem_mod_nonneg by lia.
  split; [apply Z.mod_pos_bound; lia | apply Z.div_mod; lia].
Qed.

Lemma getStatistics_work_time_witness :
  exists s, Attendance.getStatistics (Sample.env_at Sample.mid_june true) Sample.page_ninety
            = (Ok s, Sample.page_ninety)
            /\ Attendance.totalWorkHours s = Some 1
            /\ Attendance.totalWorkMinutes s = Some 30.
Proof.
  destruct (getStatistics_work_time (Sample.env_at Sample.mid_june true)
              Sample.page_ninety _ eq_refl) as (s & latest & Hs & _).
  - intros r Hr. apply list_elem_of_singleton in Hr as ->. exact I.
  - exists s. split; [exact Hs|].
    assert (Attendance.getStatistics (Sample.env_at Sample.mid_june true)
              Sample.page_ninety
            = (Ok {| Attendance.totalDays := 1; Attendance.presentDays := 1;
                     Attendance.lateDays := 0; Attendance.earlyLeaveDays := 0;
                     Attendance.totalWorkHours := Some 1;
                     Attendance.totalWorkMinutes := Some 30;
                     Attendance.attendanceRate := Some 100 |},
               Sample.page_ninety)) as Hrun by (vm_compute; reflexivity).
    rewrite Hrun in Hs. injection Hs as <-. split; reflexivity.
Defined.

(** C3 as stated fails on a single record of 90 minutes: the sum over
    the reduced set is 90, the summary's [totalWorkMinutes] is 30. *)
Lemma getStatistics_totalWorkMinutes_is_remainder :
  let w := Sample.page_ninety in
  let env := Sample.env_at Sample.mid_june true in
  total_minutes (latest_records (monthly_records (stored_records w) (now env))) = 90
  /\ (Attendance.getStatistics env w).1
     = Ok {| Attendance.totalDays := 1; Attendance.presentDays := 1;
             Attendance.lateDays := 0; Attendance.earlyLeaveDays := 0;
             Attendance.totalWorkHours := Some 1;
             Attendance.totalWorkMinutes := Some 30;
             Attendance.attendanceRate := Some 100 |}.
Proof. by_evaluation. Qed.

(** ** The calendar *)

Lemma LeapYear_range (y : Z) : 0 <= LeapYear y <= 1.
Proof.
  unfold LeapYear.
  destruct (y mod 4 =? 0), (y mod 100 =? 0), (y mod 400 =? 0); cbn; lia.
Qed.

Ltac div_lia := Z.div_mod_to_equations; lia.

Lemma div4_succ (a : Z) :
  (a + 1) / 4 = a / 4 + (if (a + 1) mod 4 =? 0 then 1 else 0).
Proof. destruct (Z.eqb_spec ((a + 1) mod 4) 0); div_lia. Qed.
Lemma div100_succ (a : Z) :
  (a + 1) / 100 = a / 100 + (if (a + 1) mod 100 =? 0 then 1 else 0).
Proof. destruct (Z.eqb_spec ((a + 1) mod 100) 0); div_lia. Qed.
Lemma div400_succ (a : Z) :
  (a + 1) / 400 = a / 400 + (if (a + 1) mod 400 =? 0 then 1 else 0).
Proof. destruct (Z.eqb_spec ((a + 1) mod 400) 0); div_lia. Qed.

Lemma mod4_shift (y : Z) : ((y - 1968) mod 4 =? 0) = (y mod 4 =? 0).
Proof.
  destruct (Z.eqb_spec ((y - 1968) mod 4) 0), (Z.eqb_spec (y mod 4) 0);
    auto; div_lia.
Qed.
Lemma mod100_shift (y : Z) : ((y - 1900) mod 100 =? 0) = (y mod 100 =? 0).
Proof.
  destruct (Z.eqb_spec ((y - 1900) mod 100) 0), (Z.eqb_spec (y mod 100) 0);
    auto; div_lia.
Qed.
Lemma mod400_shift (y : Z) : ((y - 1600) mod 400 =? 0) = (y mod 400 =? 0).
Proof.
  destruct (Z.eqb_spec ((y - 1600) mod 400) 0), (Z.eqb_spec (y mod 400) 0);
    auto; div_lia.
Qed.

Lemma mod400_100_4 (y : Z) : y mod 400 = 0 -> y mod 100 = 0 /\ y mod 4 = 0.
Proof. div_lia. Qed.
Lemma mod100_4 (y : Z) : y mod 100 = 0 -> y mod 4 = 0.
Proof. div_lia. Qed.

(** A year has 365 days, or 366 when it is a leap year. *)
Lemma DayFromYear_succ (y : Z) :
  DayFromYear (y + 1) = DayFromYear y + 365 + LeapYear y.
Proof.
  unfold DayFromYear, LeapYear.
  replace (y + 1 - 1969) with (y - 1969 + 1) by lia.
  replace (y + 1 - 1901) with (y - 1901 + 1) by lia.
  replace (y + 1 - 1601) with (y - 1601 + 1) by lia.
  rewrite div4_succ, div100_succ, div400_succ.
  replace (y - 1969 + 1) with (y - 1968) by lia.
  replace (y - 1901 + 1) with (y - 1900) by lia.
  replace (y - 1601 + 1) with (y - 1600) by lia.
  rewrite mod4_shift, mod100_shift, mod400_shift.
  pose proof (mod400_100_4 y) as M1. pose proof (mod100_4 y) as M2.
  destruct (Z.eqb_spec (y mod 4) 0) as [H4|H4];
    destruct (Z.eqb_spec (y mod 100) 0) as [H100|H100];
    destruct (Z.eqb_spec (y mod 400) 0) as [H400|H400];
    cbn [negb]; first [lia | exfalso; tauto].
Qed.

(** The year found is the one whose days contain the day number. *)
Lemma YearFromDay_spec (day : Z) :
  DayFromYear (YearFromDay day) <= day < DayFromYear (YearFromDay day + 1).
Proof.
  unfold YearFromDay.
  set (y := 1970 + 400 * day / 146097).
  assert (146097 * (y - 1970) <= 400 * day < 146097 * (y - 1970) + 146097) as Hy
    by (unfold y; div_lia).
  clearbody y.
  destruct (day <? DayFromYear y) eqn:H1.
  - apply Z.ltb_lt in H1. replace (y - 1 + 1) with y by lia.
    split; [|exact H1]. unfold DayFromYear in *. div_lia.
  - apply Z.ltb_ge in H1.
    destruct (DayFromYear (y + 1) <=? day) eqn:H2.
    + apply Z.leb_le in H2. split; [exact H2|]. unfold DayFromYear in *. div_lia.
    + apply Z.leb_gt in H2. lia.
Qed.

Lemma DayWithinYear_range (t : Z) : 0 <= DayWithinYear t < 365 + InLeapYear t.
Proof.
  unfold DayWithinYear, InLeapYear, YearFromTime.
  pose proof (YearFromDay_spec (Day t)) as H.
  rewrite DayFromYear_succ in H. lia.
Qed.

Lemma DateFromTime_range (t : Z) : 1 <= DateFromTime t <= 31.
Proof.
  unfold DateFromTime, MonthFromTime.
  pose proof (DayWithinYear_range t) as Hd.
  pose proof (LeapYear_range (YearFromTime t)) as Hl. fold (InLeapYear t) in Hl.
  set (d := DayWithinYear t) in *. set (leap := InLeapYear t) in *.
  repeat match goal with
         | |- context [if ?a <? ?b then _ else _] =>
             destruct (Z.ltb_spec a b)
         end; cbn; lia.
Qed.

(** ** C8: the attendance rate *)

Lemma rate_table :
  forallb (fun t => forallb (rate_ok t) (seq 0 (S t))) (seq 1 39) = true.
Proof. vm_compute. reflexivity. Qed.

Lemma attendance_rate_exact (p t : nat) :
  (0 < t < 40)%nat -> (p <= t)%nat ->
  attendance_rate p t = Some (round_percent (Z.of_nat p) (Z.of_nat t)).
Proof.
  intros Ht Hp. pose proof rate_table as H.
  rewrite forallb_forall in H. specialize (H t).
  rewrite forallb_forall in H.
  assert (rate_ok t p = true) as Hok.
  { apply H; apply in_seq; lia. }
  unfold rate_ok in Hok. apply bool_decide_eq_true in Hok. exact Hok.
Qed.

(** From 40 on the two roundings can part: 23 of 40 is 57.5 exactly,
    and 57.49999999999999 in double precision. *)
Lemma attendance_rate_forty :
  attendance_rate 23 40 = Some 57 /\ round_percent 23 40 = 58.
Proof. split; vm_compute; reflexivity. Qed.

Lemma count_le_length (p : record -> bool) (l : list record) :
  (count p l <= length l)%nat.
Proof. unfold count. pose proof (List.filter_length p l). lia. Qed.

Lemma in_current_month_inv (cm cy : Z) (r : record) :
  Attendance.in_current_month cm cy r = true ->
  exists t, toDate (field r "dateTime") = Some t
            /\ MonthFromTime t + 1 = cm /\ YearFromTime t = cy.
Proof.
  unfold Attendance.in_current_month.
  destruct (toDate (field r "dateTime")) as [t|]; [|discriminate].
  intros H. apply andb_prop in H as [H1 H2].
  apply Z.eqb_eq in H1, H2. eauto.
Qed.

(** Records of one month that are dated by their own timestamp carry at
    most 31 distinct dates. *)
Lemma dated_month_days (l : list record) (now : Z) :
  (forall r, r ∈ l -> dated r) ->
  (length (latest_records (monthly_records l now)) <= 31)%nat.
Proof.
  intros Hdated.
  set (monthly := monthly_records l now).
  set (cm := MonthFromTime now + 1). set (cy := YearFromTime now).
  set (day_string := fun d : Z =>
         VStr (padStart 2 "0" (toString d) +:+ "/" +:+
               padStart 2 "0" (toString cm) +:+ "/" +:+ toString cy)).
  destruct (latest_records_spec monthly) as (Hd & Hnodup & _).
  assert (length (latest_records monthly) = length (dates_of (latest_records monthly)))
    as -> by (unfold dates_of; rewrite length_fmap; reflexivity).
  change 31%nat with (length (day_string <$> (Z.of_nat <$> seq 1 31))).
  apply submseteq_length, NoDup_submseteq; [exact Hnodup|].
  intros d Hin. rewrite Hd, elem_of_unique in Hin.
  apply list_elem_of_fmap in Hin as (r & -> & Hr).
  pose proof (Hdated r (monthly_records_subset _ _ _ Hr)) as Hrd.
  unfold monthly, monthly_records in Hr. apply list_elem_of_In, filter_In in Hr as [_ Hm].
  apply in_current_month_inv in Hm as (t & Ht & Hmonth & Hyear).
  unfold dated in Hrd. rewrite Ht in Hrd. rewrite Hrd.
  unfold Utils.formatDate. rewrite Hmonth, Hyear. fold cm cy.
  apply list_elem_of_fmap. exists (DateFromTime t). split; [reflexivity|].
  pose proof (DateFromTime_range t) as Hrange.
  apply list_elem_of_fmap. exists (Z.to_nat (DateFromTime t)). split; [lia|].
  apply list_elem_of_In, in_seq. lia.
Qed.

Lemma getSummaryStats_rate (year month : Z) (w w' : World) (s : Reports.SummaryStats) :
  Reports.getSummaryStats year month w = (Ok s, w') ->
  Reports.attendanceRate s
  = attendance_rate (Reports.presentDays s) (Reports.totalDays s)
  /\ (Reports.presentDays s <= Reports.totalDays s)%nat.
Proof.
  unfold Reports.getSummaryStats. unfold mbind at 1, M_bind at 1, bind at 1.
  destruct (Storage.getMonthlyAttendance year month w) as [[records|] w1];
    [|discriminate].
  intros [= <- _]. simpl. split; [reflexivity | apply count_le_length].
Qed.

(** C8 (amended). The attendance rate is 0 when [totalDays] is 0, and
    otherwise [Math.round((presentDays / totalDays) * 100)] in double
    precision; the quotient is only formed when [totalDays] is positive.
    For every count of days below 40 this is the rounded percentage
    [round(100 * presentDays / totalDays)]. [Attendance.getStatistics]
    stays below 40 over every stored array whose records are dated by
    their own timestamp: a month then has at most 31 distinct dates.
    [Reports.getSummaryStats] evaluates the same expression on the
    number of records of the month, which is not bounded. *)
Theorem getStatistics_attendanceRate (env : Env) (w : World) (l : list record) :
  Storage.getAttendanceRecords w = (Ok (JArray l), w) ->
  (exists s : Attendance.Statistics,
     Attendance.getStatistics env w = (Ok s, w)
     /\ Attendance.attendanceRate s
        = attendance_rate (Attendance.presentDays s) (Attendance.totalDays s)
     /\ (Attendance.totalDays s = 0%nat -> Attendance.attendanceRate s = Some 0)
     /\ ((0 < Attendance.totalDays s < 40)%nat ->
         Attendance.attendanceRate s
         = Some (round_percent (Z.of_nat (Attendance.presentDays s))
                               (Z.of_nat (Attendance.totalDays s))))
     /\ ((forall r, r ∈ l -> dated r) -> (Attendance.totalDays s <= 31)%nat))
  /\ (forall year month,
      exists s : Reports.SummaryStats,
        Reports.getSummaryStats year month w = (Ok s, w)
        /\ Reports.attendanceRate s
           = attendance_rate (Reports.presentDays s) (Reports.totalDays s)
        /\ (Reports.totalDays s = 0%nat -> Reports.attendanceRate s = Some 0)
        /\ ((0 < Reports.totalDays s < 40)%nat ->
            Reports.attendanceRate s
            = Some (round_percent (Z.of_nat (Reports.presentDays s))
                                  (Z.of_nat (Reports.totalDays s))))).
Proof.
  intros Hget. split.
  - eexists. split; [apply (getStatistics_run env w l Hget)|].
    cbn [Attendance.totalDays Attendance.presentDays Attendance.attendanceRate].
    set (latest := latest_records (monthly_records l (now env))) in *.
    split; [reflexivity|]. split; [|split].
    + intros ->. reflexivity.
    + intros Hpos. apply attendance_rate_exact; [lia | apply count_le_length].
    + intros Hdated. apply (dated_month_days l (now env) Hdated).
  - intros year month.
    destruct (Reports.getSummaryStats year month w) as [res w'] eqn:Hrun.
    assert (exists s, res = Ok s /\ w' = w) as (s & -> & ->).
    { revert Hrun. unfold Reports.getSummaryStats, Storage.getMonthlyAttendance.
      unfold mbind, M_bind, bind. rewrite Hget. cbn. intros [= <- <-]. eauto. }
    exists s. split; [reflexivity|].
    destruct (getSummaryStats_rate year month w w s Hrun) as [Hrate Hle].
    split; [exact Hrate|]. rewrite Hrate. split.
    + intros ->. reflexivity.
    + intros Hpos. apply attendance_rate_exact; [lia | exact Hle].
Qed.

Lemma getStatistics_attendanceRate_witness :
  let w := Sample.page_three_days in
  (exists s, Attendance.getStatistics (Sample.env_at Sample.mid_june true) w = (Ok s, w)
             /\ Attendance.totalDays s = 3%nat
             /\ Attendance.presentDays s = 2%nat
             /\ Attendance.attendanceRate s = Some 67)
  /\ (exists s, Reports.getSummaryStats 2024 6 w = (Ok s, w)
                /\ Reports.totalDays s = 3%nat
                /\ Reports.presentDays s = 2%nat
                /\ Reports.attendanceRate s = Some 67).
Proof.
  intros w.
  assert (Hget : Storage.getAttendanceRecords w = (Ok (JArray (stored_records w)), w))
    by (vm_compute; reflexivity).
  destruct (getStatistics_attendanceRate (Sample.env_at Sample.mid_june true) w
              (stored_records w) Hget)
    as [(s & Hs & _ & _ & Hrate & _) Hsummary].
  destruct (Hsummary 2024 6) as (s' & Hs' & _ & _ & Hrate').
  assert (Hrun : (Attendance.getStatistics (Sample.env_at Sample.mid_june true) w).1
                 = Ok {| Attendance.totalDays := 3; Attendance.presentDays := 2;
                         Attendance.lateDays := 1; Attendance.earlyLeaveDays := 0;
                         Attendance.totalWorkHours := Some 0;
                         Attendance.totalWorkMinutes := Some 0;
                         Attendance.attendanceRate := Some 67 |})
    by (vm_compute; reflexivity).
  assert (Hrun' : (Reports.getSummaryStats 2024 6 w).1
                  = Ok {| Reports.totalDays := 3; Reports.presentDays := 2;
                          Reports.lateDays := 1; Reports.earlyLeaveDays := 0;
                          Reports.totalWorkHours := Some 0;
                          Reports.attendanceRate := Some 67 |})
    by (vm_compute; reflexivity).
  rewrite Hs in Hrun. cbn [fst] in Hrun. injection Hrun as Hrun.
  rewrite Hs' in Hrun'. cbn [fst] in Hrun'. injection Hrun' as Hrun'.
  split.
  - exists s. split; [exact Hs|].
    assert (Attendance.totalDays s = 3%nat) as Ht by (rewrite Hrun; reflexivity).
    assert (Attendance.presentDays s = 2%nat) as Hp by (rewrite Hrun; reflexivity).
    split; [exact Ht|]. split; [exact Hp|].
    rewrite Hrate by lia. rewrite Ht, Hp. reflexivity.
  - exists s'. split; [exact Hs'|].
    assert (Reports.totalDays s' = 3%nat) as Ht by (rewrite Hrun'; reflexivity).
    assert (Reports.presentDays s' = 2%nat) as Hp by (rewrite Hrun'; reflexivity).
    split; [exact Ht|]. split; [exact Hp|].
    rewrite Hrate' by lia. rewrite Ht, Hp. reflexivity.
Defined.

(** C8 as stated fails from 40 days on. Forty time-ins in June 2024, 23
    of them on time, leave 40 records of that month; the summary of the
    month counts 40 days of which 23 are present, and its attendance
    rate is 57, while [round(100 * 23 / 40)], the rounding of 57.5, is
    58: in double precision [23 / 40] is just below 0.575 and the
    product with 100 just below 57.5. *)
Lemma getSummaryStats_forty :
  let w := Sample.page_forty in
  length (stored_records w) = 40%nat
  /\ (Reports.getSummaryStats 2024 6 w).1
     = Ok {| Reports.totalDays := 40; Reports.presentDays := 23;
             Reports.lateDays := 17; Reports.earlyLeaveDays := 0;
             Reports.totalWorkHours := Some 0;
             Reports.attendanceRate := Some 57 |}
  /\ round_percent 23 40 = 58
  /\ fmul (fdiv (of_Z 23) (of_Z 40)) (of_Z 100)
     = S754_finite false 8092405580431359 (-47)
  /\ 8092405580431359 < 115 * 2 ^ 46.
Proof.
  cbv zeta. repeat apply conj; vm_compute; reflexivity.
Qed.

(** ** C4: the records of a month *)

Lemma getMonthlyAttendance_run (year month : Z) (w : World) (l : list record) :
  Storage.getAttendanceRecords w = (Ok (JArray l), w) ->
  Storage.getMonthlyAttendance year month w
  = (Ok (List.filter (Storage.in_range (Utils.getMonthRange year month)) l), w).
Proof.
  intros Hget. unfold Storage.getMonthlyAttendance.
  unfold mbind at 1, M_bind at 1, bind at 1. rewrite Hget. reflexivity.
Qed.

Lemma filter_sublist {A} (p : A -> bool) (l : list A) :
  List.filter p l `sublist_of` l.
Proof.
  induction l as [|a l IH]; simpl; [constructor|].
  destruct (p a); by constructor.
Qed.

(** What is selected: the stored records, in order, whose timestamp lies
    between the two ends of the range. *)
Lemma getMonthlyAttendance_spec (year month : Z) (w : World) (l : list record)
    (r : record) :
  Storage.getAttendanceRecords w = (Ok (JArray l), w) ->
  exists selected, Storage.getMonthlyAttendance year month w = (Ok selected, w)
    /\ selected `sublist_of` l
    /\ (r ∈ selected <->
        r ∈ l /\ exists t, toDate (field r "dateTime") = Some t
                           /\ newDate year (month - 1) 1 <= t <= newDate year month 0).
Proof.
  intros Hget. eexists. split; [apply (getMonthlyAttendance_run _ _ _ _ Hget)|].
  split; [apply filter_sublist|].
  rewrite list_elem_of_In, filter_In, <- list_elem_of_In.
  unfold Storage.in_range, Utils.getMonthRange. simpl.
  destruct (toDate (field r "dateTime")) as [t|].
  - rewrite andb_true_iff, !Z.leb_le. split.
    + intros [Hr Ht]. split; [exact Hr|]. exists t. split; [reflexivity | exact Ht].
    + intros [Hr (t' & [= <-] & Ht)]. auto.
  - split; [intros [_ H]; discriminate | intros [_ (t & H & _)]; discriminate].
Qed.

(** The upper end of the range is the midnight that begins the last day
    of the month, so a record stamped later on that day is not selected. *)
Lemma last_day_not_in_range (year month tod : Z) (r : record) :
  0 < tod ->
  toDate (field r "dateTime")
  = Some (Utils.end_ (Utils.getMonthRange year month) + tod) ->
  Storage.in_range (Utils.getMonthRange year month) r = false.
Proof.
  intros Htod Hr. unfold Storage.in_range. rewrite Hr.
  apply andb_false_iff. right. apply Z.leb_gt. lia.
Qed.

(** C4, at the failing input. A record stamped at 10:00 on 30 June 2024
    is dated within June (its local month is June, its formatted date
    30/06/2024), and [getMonthlyAttendance(2024, 6)] leaves it out: the
    range ends at 30 June 00:00. The record of 1 June is returned. *)
Theorem getMonthlyAttendance_drops_last_day :
  let w := Sample.page_june in
  let stamp := Sample.clock 2024 6 30 10 0 in
  field Sample.last_day "dateTime" = VInstant stamp
  /\ (YearFromTime stamp, MonthFromTime stamp + 1, DateFromTime stamp) = (2024, 6, 30)
  /\ Utils.formatDate (Some stamp) = "30/06/2024"
  /\ Utils.end_ (Utils.getMonthRange 2024 6) = Sample.clock 2024 6 30 0 0
  /\ (Storage.getMonthlyAttendance 2024 6 w).1 = Ok [ Sample.first_cycle ]
  /\ stored_records w = [ Sample.first_cycle; Sample.last_day ].
Proof. by_evaluation. Qed.

(** ** C7: the geofence *)

Lemma SFcompare_antisym (x y : float64) :
  SFcompare y x = CompOpp <$> SFcompare x y.
Proof.
  destruct x as [sx|sx| |sx mx ex], y as [sy|sy| |sy my ey]; simpl;
    try destruct sx; try destruct sy; try reflexivity.
  - rewrite (Z.compare_antisym ex ey).
    destruct (ex ?= ey); simpl; try reflexivity.
    rewrite (Pos.compare_cont_antisym mx my Eq). reflexivity.
  - rewrite (Z.compare_antisym ex ey).
    destruct (ex ?= ey); simpl; try reflexivity.
    rewrite (Pos.compare_cont_antisym mx my Eq). reflexivity.
Qed.

Lemma fsub_diag (x : float64) :
  is_finite x = true -> fsub x x = S754_zero false.
Proof.
  destruct x as [[]|[]| |s m e]; try discriminate; try reflexivity.
  intros _. unfold fsub, SFsub. rewrite Z.min_id, Z.sub_diag. reflexivity.
Qed.

Lemma distance_same_point
    (Math_sin Math_cos : float64 -> float64)
    (Math_atan2 : float64 -> float64 -> float64) (lat lon : float64) :
  Math_sin (S754_zero false) = S754_zero false ->
  Math_atan2 (S754_zero false) (of_Z 1) = S754_zero false ->
  is_finite lat = true -> is_finite lon = true ->
  is_finite (fmul (Math_cos (Haversine.radians lat))
                  (Math_cos (Haversine.radians lat))) = true ->
  Haversine.distance Math_sin Math_cos Math_atan2 lat lon lat lon = S754_zero false.
Proof.
  intros Hsin Hatan Hlat Hlon Hcos.
  unfold Haversine.distance, Haversine.central_angle, Haversine.haversine,
    Haversine.sin_half.
  rewrite (fsub_diag lat Hlat), (fsub_diag lon Hlon).
  change (fdiv (Haversine.radians (S754_zero false)) (of_Z 2)) with (S754_zero false).
  rewrite Hsin.
  set (p := fmul _ _) in Hcos.
  change (fmul (Math_cos _) (Math_cos _)) with p.
  change (fmul (S754_zero false) (S754_zero false)) with (S754_zero false).
  assert (fadd (S754_zero false) (fmul (fmul p (S754_zero false)) (S754_zero false))
          = S754_zero false) as ->
    by (destruct p as [[]|[]| |[] m e]; try discriminate; reflexivity).
  change (fsqrt (S754_zero false)) with (S754_zero false).
  change (fsqrt (fsub (of_Z 1) (S754_zero false))) with (of_Z 1).
  rewrite Hatan. reflexivity.
Qed.

(** C7. The distance that [Utils.calculateDistance] computes is the
    great-circle distance of the Haversine formula, [Haversine.distance],
    in double precision, and the geofence check answers
    [distance <= radius] for it: inside exactly when that distance is
    less than the radius or equal to it, so a distance equal to the
    radius is inside and a distance greater than the radius is outside.
    A point whose distance is taken as the radius itself is inside,
    unless the distance is not a number. The distance of a point from
    itself is 0 as soon as [Math.sin(0)] and [Math.atan2(0, 1)] are 0
    and the square of the cosine is finite, so that the point is inside
    for every radius from 0 on. *)
Theorem isWithinGeofence_boundary
    (Math_sin Math_cos : float64 -> float64)
    (Math_atan2 : float64 -> float64 -> float64)
    (userLat userLon officeLat officeLon radius : float64) :
  let distance :=
    Haversine.distance Math_sin Math_cos Math_atan2
                       userLat userLon officeLat officeLon in
  let inside :=
    Utils.isWithinGeofence Math_sin Math_cos Math_atan2
                           userLat userLon officeLat officeLon radius in
  Utils.calculateDistance Math_sin Math_cos Math_atan2
                          userLat userLon officeLat officeLon = distance
  /\ inside = fle distance radius
  /\ inside = (flt distance radius || feq distance radius)
  /\ implb (feq distance radius) inside = true
  /\ implb (flt radius distance) (negb inside) = true
  /\ Utils.isWithinGeofence Math_sin Math_cos Math_atan2
       userLat userLon officeLat officeLon distance
     = negb (bool_decide (distance = S754_nan))
  /\ (Math_sin (S754_zero false) = S754_zero false ->
      Math_atan2 (S754_zero false) (of_Z 1) = S754_zero false ->
      is_finite officeLat = true -> is_finite officeLon = true ->
      is_finite (fmul (Math_cos (Haversine.radians officeLat))
                      (Math_cos (Haversine.radians officeLat))) = true ->
      Utils.calculateDistance Math_sin Math_cos Math_atan2
        officeLat officeLon officeLat officeLon = S754_zero false
      /\ Utils.isWithinGeofence Math_sin Math_cos Math_atan2
           officeLat officeLon officeLat officeLon radius
         = fle (S754_zero false) radius).
Proof.
  intros distance inside.
  assert (Hsame : forall lat1 lon1 lat2 lon2,
             Utils.calculateDistance Math_sin Math_cos Math_atan2 lat1 lon1 lat2 lon2
             = Haversine.distance Math_sin Math_cos Math_atan2 lat1 lon1 lat2 lon2).
  { intros. unfold Utils.calculateDistance, Haversine.distance,
      Haversine.central_angle, Haversine.haversine, Haversine.sin_half,
      Haversine.radians, Haversine.earth_radius. reflexivity. }
  unfold inside, Utils.isWithinGeofence. rewrite !Hsame. fold distance.
  split; [reflexivity|]. split; [reflexivity|].
  unfold fle, flt, feq, SFleb, SFltb, SFeqb.
  rewrite (SFcompare_antisym distance radius).
  split; [|split; [|split; [|split]]].
  - destruct (SFcompare distance radius) as [[| |]|]; reflexivity.
  - destruct (SFcompare distance radius) as [[| |]|]; reflexivity.
  - destruct (SFcompare distance radius) as [[| |]|]; reflexivity.
  - destruct distance as [[]|[]| |[] m e]; simpl; try reflexivity.
    + rewrite Z.compare_refl. rewrite Pos.compare_cont_refl. reflexivity.
    + rewrite Z.compare_refl. rewrite Pos.compare_cont_refl. reflexivity.
  - intros Hsin Hatan Hlat Hlon Hcos.
    rewrite !(Hsame officeLat officeLon officeLat officeLon).
    rewrite (distance_same_point _ _ _ _ _ Hsin Hatan Hlat Hlon Hcos).
    split; reflexivity.
Qed.

(** A hundredth of a degree of latitude is 1111.95 m on the sphere, and
    a hundredth of a degree of longitude at the latitude of the office
    is 1008 m. With the radius of 1000 m both points are outside; the
    point to the north is inside for a radius of 1112 m, outside for
    1111 m, and inside when the radius is its distance. *)
Lemma isWithinGeofence_boundary_witness :
  let distance p :=
    Utils.calculateDistance Sample.Math_sin Sample.Math_cos Sample.Math_atan2
      p.1 p.2 Sample.office.1 Sample.office.2 in
  let inside p radius :=
    Utils.isWithinGeofence Sample.Math_sin Sample.Math_cos Sample.Math_atan2
      p.1 p.2 Sample.office.1 Sample.office.2 radius in
  distance Sample.office = S754_zero false
  /\ flt (of_Z 1111) (distance Sample.north) = true
  /\ flt (distance Sample.north) (of_Z 1112) = true
  /\ flt (of_Z 1008) (distance Sample.east) = true
  /\ flt (distance Sample.east) (of_Z 1009) = true
  /\ inside Sample.office (of_Z 0) = true
  /\ inside Sample.north (GEO_FENCE_RADIUS CONFIG) = false
  /\ inside Sample.east (GEO_FENCE_RADIUS CONFIG) = false
  /\ inside Sample.north (of_Z 1112) = true
  /\ inside Sample.north (of_Z 1111) = false
  /\ inside Sample.north (distance Sample.north) = true.
Proof.
  intros distance inside.
  pose proof (fun p radius =>
                isWithinGeofence_boundary Sample.Math_sin Sample.Math_cos
                  Sample.Math_atan2 p.1 p.2 Sample.office.1 Sample.office.2 radius)
    as H.
  assert (Hd : forall p, distance p
                         = Haversine.distance Sample.Math_sin Sample.Math_cos
                             Sample.Math_atan2 p.1 p.2 Sample.office.1 Sample.office.2)
    by (intros p; exact (proj1 (H p (of_Z 0)))).
  assert (Hin : forall p radius,
             inside p radius
             = fle (Haversine.distance Sample.Math_sin Sample.Math_cos
                      Sample.Math_atan2 p.1 p.2 Sample.office.1 Sample.office.2)
                   radius)
    by (intros p radius; exact (proj1 (proj2 (H p radius)))).
  rewrite !Hin, !Hd. repeat apply conj; vm_compute; reflexivity.
Defined.

(** ** The shape of every store the application writes *)

Lemma well_formed_fields (r r' : record) :
  (forall k, k <> "synced" -> field r' k = field r k) ->
  well_formed r -> well_formed r'.
Proof.
  intros H [Hd Hm]. unfold well_formed, dated, minutes_typed in *.
  rewrite !H by discriminate. auto.
Qed.

Lemma same_but_synced_well_formed (l l' : list record) :
  same_but_synced l l' -> Forall well_formed l -> Forall well_formed l'.
Proof.
  unfold same_but_synced. intros Hs. induction Hs as [|r r' l l' Hr _ IH]; intros Hwf.
  - constructor.
  - inversion Hwf; subst. constructor; [eapply well_formed_fields; eauto | auto].
Qed.

Lemma holds_array_ext (w w' : World) :
  localStorage w' = localStorage w -> holds_array w -> holds_array w'.
Proof. intros H [l Hl]. exists l. apply (getAttendanceRecords_ext w w' _ H Hl). Qed.

Lemma holds_array_setItem (l : list record) (w w' : World) :
  Storage.setItem l w = (Ok true, w') -> holds_array w'.
Proof.
  rewrite setItem_run.
  destruct (available (localStorage w)); [|discriminate].
  destruct (quotaExceeded (localStorage w)); [discriminate|].
  intros [= <-]. eexists. reflexivity.
Qed.

(** Syncing or queueing keeps an array an array. *)
Lemma sync_or_queue_array (env : Env) (r : record) (w : World) :
  holds_array w -> holds_array (sync_or_queue env r w).2.
Proof.
  intros [l Hget]. unfold sync_or_queue. destruct (onLine env).
  - destruct (update_synced (field r "id") w l Hget)
      as (b & w1 & Hup & _ & _ & _ & _ & Hget1).
    unfold Attendance.syncAttendance, try_catch, mbind, M_bind, bind.
    rewrite Hup. simpl. eexists. exact Hget1.
  - rewrite addToOfflineQueue_run. simpl.
    eapply holds_array_ext; [|exists l; exact Hget]. reflexivity.
Qed.

(** A time-out that is not saved leaves the store as it is. *)
Lemma handleTimeOut_not_saved (cfg : Config) (env : Env) (w : World) :
  (Attendance.handleTimeOut cfg env w).1 <> Ok Attendance.Saved ->
  localStorage (Attendance.handleTimeOut cfg env w).2 = localStorage w.
Proof.
  intros Hres.
  destruct (isAuthenticated env) eqn:Hauth;
    [|rewrite handleTimeOut_login by assumption; reflexivity].
  destruct (todayRecord w) as [r|] eqn:Hr;
    [|rewrite handleTimeOut_guard by auto; reflexivity].
  destruct (truthy (field r "timeIn")) eqn:Hin;
    [|rewrite handleTimeOut_guard by eauto; reflexivity].
  rewrite (handleTimeOut_pass cfg env w r Hauth Hr Hin) in Hres |- *.
  destruct (validateGeofence env); [|reflexivity].
  set (w1 := add_toasts (locationToasts env ++ checkout_toasts cfg env) w) in *.
  destruct (getAttendanceRecords_run w1) as [[l|] Hget1].
  - destruct (updateAttendanceRecord_cases (field r "id")
                (Attendance.timeOutUpdates cfg env r) w1 l Hget1)
      as (b & w2 & Hup & Hb & _).
    rewrite Hup in Hres |- *. destruct b; [exfalso; apply Hres; reflexivity|].
    simpl. rewrite Hb. reflexivity.
  - rewrite (updateAttendanceRecord_throw _ _ _ Hget1). reflexivity.
Qed.

Lemma timeOutUpdates_well_formed (cfg : Config) (env : Env) (r old new : record) :
  (forall k, k <> "synced" ->
     field new k = from_option (fun v => v) (field old k)
                     (Attendance.timeOutUpdates cfg env r !! k)) ->
  well_formed old -> well_formed new.
Proof.
  intros Hnew [Hd Hm]. unfold well_formed, dated, minutes_typed in *.
  rewrite !Hnew by discriminate.
  assert (Attendance.timeOutUpdates cfg env r !! "dateTime" = None
          /\ Attendance.timeOutUpdates cfg env r !! "date" = None
          /\ exists v, Attendance.timeOutUpdates cfg env r !! "totalWorkMinutes" = Some v
                       /\ (v = VUndefined \/ exists n, v = VNum n))
    as (-> & -> & v & -> & Hv).
  { unfold Attendance.timeOutUpdates.
    destruct (Attendance.isEarlyLeave cfg _ && strict_eq _ _);
      (split; [reflexivity|]; split; [reflexivity|]);
      eexists; (split; [reflexivity|]);
      destruct (Utils.totalMinutes _); simpl; eauto. }
  simpl. split; [exact Hd|]. destruct Hv as [->|[n ->]]; exact I.
Qed.

(** A time-out keeps the store an array of well-formed records. *)
Lemma handleTimeOut_invariant (cfg : Config) (env : Env) (w : World) :
  holds_array w -> Forall well_formed (stored_records w) ->
  holds_array (Attendance.handleTimeOut cfg env w).2
  /\ Forall well_formed (stored_records (Attendance.handleTimeOut cfg env w).2).
Proof.
  intros Harr Hwf.
  destruct (Attendance.handleTimeOut cfg env w) as [res w'] eqn:Hrun.
  assert (res = Ok Attendance.Saved \/ res <> Ok Attendance.Saved) as [->|Hne]
    by (destruct res as [[]|]; first [left; reflexivity | right; discriminate]).
  - pose proof (handleTimeOut_saved cfg env w w' Hrun)
      as (r & i & old & new & Hauth & Hr & Hin & Hgeo & _ & Hi & _ & Hi' & Hnew & Hlen & Hother).
    split.
    + rewrite (handleTimeOut_pass cfg env w r Hauth Hr Hin) in Hrun.
      rewrite Hgeo in Hrun.
      destruct (Storage.updateAttendanceRecord _ _ _) as [[[|]|] w2] eqn:Hup;
        try discriminate.
      injection Hrun as <-. apply sync_or_queue_array.
      eapply holds_array_ext with (w := w2); [reflexivity|].
      destruct Harr as [l Hget].
      assert (Storage.getAttendanceRecords
                (add_toasts (locationToasts env ++ checkout_toasts cfg env) w)
              = (Ok (JArray l),
                 add_toasts (locationToasts env ++ checkout_toasts cfg env) w)) as Hget1
        by (apply (getAttendanceRecords_ext w); [reflexivity | exact Hget]).
      rewrite (updateAttendanceRecord_run _ _ _ _ Hget1) in Hup.
      destruct (findIndex _ l); [|discriminate].
      destruct (l !! n); [|discriminate].
      eapply holds_array_setItem. exact Hup.
    + simpl. apply Forall_lookup. intros j y Hy.
      destruct (lookup_lt_is_Some_2 (stored_records w) j) as [x Hx];
        [rewrite <- Hlen; eapply lookup_lt_Some; eauto|].
      pose proof (proj1 (Forall_lookup _ _) Hwf j x Hx) as Hxwf.
      destruct (decide (j = i)) as [->|Hji].
      * rewrite Hi' in Hy. injection Hy as <-. rewrite Hi in Hx. injection Hx as <-.
        eapply timeOutUpdates_well_formed; eauto.
      * destruct (Hother j x Hji Hx) as (y' & Hy' & Hsame).
        rewrite Hy in Hy'. injection Hy' as <-.
        eapply well_formed_fields; eauto.
  - assert (localStorage w' = localStorage w) as Hls.
    { pose proof (handleTimeOut_not_saved cfg env w) as H.
      rewrite Hrun in H. apply H. exact Hne. }
    simpl. split; [eapply holds_array_ext; eauto|].
    rewrite (stored_records_ext w w' Hls). exact Hwf.
Qed.

(** A time-in either leaves the store as it is or is saved. *)
Lemma handleTimeIn_store (cfg : Config) (env : Env) (w : World) :
  localStorage (Attendance.handleTimeIn cfg env w).2 = localStorage w
  \/ ((Attendance.handleTimeIn cfg env w).1 = Ok Attendance.Saved
      /\ holds_array (Attendance.handleTimeIn cfg env w).2).
Proof.
  destruct (Attendance.handleTimeIn cfg env w) as [res w'] eqn:Hrun.
  cbn [fst snd].
  unfold Attendance.handleTimeIn, try_catch in Hrun.
  destruct (isAuthenticated env); [|injection Hrun as <- <-; left; reflexivity].
  cbn [negb] in Hrun.
  unfold mbind at 1, M_bind at 1, bind at 1 in Hrun.
  rewrite validateLocation_run in Hrun.
  destruct (validateGeofence env); [|injection Hrun as <- <-; left; reflexivity].
  cbn [negb] in Hrun. rewrite app_nil_r in Hrun.
  destruct (verifyFace_run cfg env) as (o & ts & Hface).
  unfold mbind at 1, M_bind at 1, bind at 1 in Hrun.
  rewrite Hface, add_toasts_app in Hrun.
  set (w1 := add_toasts (locationToasts env ++ ts) w) in *.
  destruct o as [[faceVerified photoData]|];
    [|injection Hrun as <- <-; left; reflexivity].
  unfold mbind at 1, M_bind at 1, bind at 1 in Hrun.
  destruct (currentUser env) as [user|];
    [|injection Hrun as <- <-; left; reflexivity].
  unfold ret at 1 in Hrun.
  set (r0 := Attendance.attendanceRecord cfg env user faceVerified photoData) in *.
  unfold mbind at 1, M_bind at 1, bind at 1 in Hrun.
  destruct (getAttendanceRecords_run w1) as [[l|] Hget1];
    [|rewrite (saveAttendanceRecord_throw _ _ _ Hget1) in Hrun;
      injection Hrun as <- <-; left; reflexivity].
  rewrite (saveAttendanceRecord_run _ _ _ _ Hget1) in Hrun.
  set (r1 := if negb (truthy (field r0 "id")) then _ else r0) in *.
  destruct (setItem_total (l ++ [ r1 ]) w1) as (b & w2 & Hset).
  rewrite Hset in Hrun. cbn [fst snd] in Hrun. destruct b.
  - right.
    destruct (sync_or_queue_run env r1
                (committed r1 (getSuccess cfg SUCCESS_checkinSuccess) w2))
      as (w3 & Hs & _).
    pose proof (sync_or_queue_array env r1
                  (committed r1 (getSuccess cfg SUCCESS_checkinSuccess) w2)) as Harr.
    rewrite Hs in Harr.
    assert (holds_array w3) as Hw3.
    { apply Harr. eapply holds_array_ext; [|eapply holds_array_setItem; exact Hset].
      reflexivity. }
    unfold sync_or_queue, committed in Hs.
    unfold mbind, M_bind, bind, set_todayRecord, showToast, modify, ret in Hrun.
    simpl in Hs, Hrun.
    destruct (onLine env); rewrite Hs in Hrun; injection Hrun as <- <-; auto.
  - left. apply setItem_false in Hset as [Hls _].
    injection Hrun as <- <-. simpl. exact Hls.
Qed.

(** A time-in keeps the store an array of well-formed records. *)
Lemma handleTimeIn_invariant (cfg : Config) (env : Env) (w : World) :
  holds_array w -> Forall well_formed (stored_records w) ->
  holds_array (Attendance.handleTimeIn cfg env w).2
  /\ Forall well_formed (stored_records (Attendance.handleTimeIn cfg env w).2).
Proof.
  intros Harr Hwf.
  destruct (handleTimeIn_store cfg env w) as [Hls | [Hres Harr']].
  - split; [eapply holds_array_ext; eauto|].
    rewrite (stored_records_ext w _ Hls). exact Hwf.
  - split; [exact Harr'|].
    destruct (Attendance.handleTimeIn cfg env w) as [res w'] eqn:Hrun.
    simpl in Hres |- *. subst res.
    destruct (handleTimeIn_saved cfg env w w' Hrun)
      as (user & fv & pd & r & new & _ & _ & _ & Hr & _ & Hlen & Hlast & Hnew & Hold).
    apply Forall_lookup. intros j y Hy.
    destruct (decide (j < length (stored_records w))%nat) as [Hj|Hj].
    + destruct (lookup_lt_is_Some_2 (stored_records w) j Hj) as [x Hx].
      destruct (Hold j x Hx) as (y' & Hy' & Hsame).
      rewrite Hy in Hy'. injection Hy' as <-.
      eapply well_formed_fields; [exact Hsame|].
      exact (proj1 (Forall_lookup _ _) Hwf j x Hx).
    + assert (j = length (stored_records w)) as ->.
      { apply lookup_lt_Some in Hy. lia. }
      rewrite last_lookup, Hlen in Hlast. simpl in Hlast.
      rewrite Hy in Hlast. injection Hlast as ->.
      eapply well_formed_fields; [exact Hnew|].
      pose proof (attendanceRecord_dated cfg env user fv pd) as Hd.
      unfold well_formed, dated, minutes_typed in *.
      rewrite !Hr by discriminate. split; [exact Hd|]. reflexivity.
Qed.

(** X28. Every page the application can reach from a first load, by
    time-ins, time-outs, reloads and drain passes in any order and under
    any outside conditions, holds an array of well-formed records: each
    is dated by its own timestamp and its duration, if any, is a number.
    The assumptions made about stored records above are met by whatever
    the handlers have written. *)
Lemma reachable_well_formed (cfg : Config) (w : World) :
  reachable cfg w ->
  holds_array w /\ Forall well_formed (stored_records w).
Proof.
  induction 1 as [av qe | env w _ [IHa IHw] | env w _ [IHa IHw]
                  | env w _ [IHa IHw] | w _ [IHa IHw]].
  - split.
    + exists []. unfold start_page, Storage.getAttendanceRecords, Storage.getItem,
        Storage.isLocalStorageAvailable. munfold. simpl. destruct av; reflexivity.
    + unfold stored_records, start_page, Storage.getAttendanceRecords,
        Storage.getItem, Storage.isLocalStorageAvailable. munfold. simpl.
      destruct av; constructor.
  - apply handleTimeIn_invariant; assumption.
  - apply handleTimeOut_invariant; assumption.
  - destruct IHa as [l Hget].
    destruct (loadTodayAttendance_run env w l Hget) as (w' & Hrun & Hls & _).
    rewrite Hrun. simpl. split; [eapply holds_array_ext; eauto; by exists l|].
    rewrite (stored_records_ext w w' Hls). exact IHw.
  - destruct IHa as [l Hget].
    destruct (offlineQueue w) as [|r q] eqn:Hq.
    + rewrite syncOfflineQueue_unfold, Hq. simpl. split; [by exists l | exact IHw].
    + destruct (syncOfflineQueue_array w l Hget) as (w' & Hrun & _ & _ & Hsame & Harr);
        [rewrite Hq; discriminate|].
      rewrite Hrun. simpl. split; [exact Harr|].
      eapply same_but_synced_well_formed; eauto.
Qed.

Lemma reachable_well_formed_witness :
  let w := (Attendance.handleTimeIn CONFIG (Sample.env_at Sample.t_in true)
              (start_page true false)).2 in
  holds_array w /\ Forall well_formed (stored_records w).
Proof.
  intros w. apply (reachable_well_formed CONFIG).
  apply reachable_timeIn, reachable_start.
Defined.

(** ** The calendar, read back *)

Lemma DayFromYear_mono (a b : Z) : a <= b -> DayFromYear a <= DayFromYear b.
Proof. intros H. unfold DayFromYear. div_lia. Qed.

Lemma YearFromDay_unique (day y : Z) :
  DayFromYear y <= day < DayFromYear (y + 1) -> YearFromDay day = y.
Proof.
  intros H. pose proof (YearFromDay_spec day) as Hs.
  destruct (Z.lt_trichotomy (YearFromDay day) y) as [Hlt|[Heq|Hgt]]; [|exact Heq|].
  - pose proof (DayFromYear_mono (YearFromDay day + 1) y ltac:(lia)). lia.
  - pose proof (DayFromYear_mono (y + 1) (YearFromDay day) ltac:(lia)). lia.
Qed.

Lemma Day_make (day tod : Z) :
  0 <= tod < msPerDay -> Day (day * msPerDay + tod) = day.
Proof. unfold Day, msPerDay. intros H. div_lia. Qed.

(** Reading back the fields of a calendar date. *)
Lemma civil_roundtrip (y m d tod : Z) :
  0 <= m <= 11 -> 1 <= d <= DaysInMonth y (m + 1) -> 0 <= tod < msPerDay ->
  let t := (DayFromYear y + MonthStart m (LeapYear y) + d - 1) * msPerDay + tod in
  YearFromTime t = y /\ MonthFromTime t = m /\ DateFromTime t = d.
Proof.
  intros Hm Hd Htod t.
  assert (Day t = DayFromYear y + MonthStart m (LeapYear y) + d - 1) as HD
    by (apply Day_make; exact Htod).
  pose proof (LeapYear_range y) as Hl.
  pose proof (DayFromYear_succ y) as Hsucc.
  clearbody t. remember (LeapYear y) as leap eqn:Hleap.
  assert (0 <= MonthStart m leap + d - 1 < 365 + leap) as Hw.
  { unfold MonthStart, DaysInMonth in *.
    repeat match goal with
           | H : context [if ?a =? ?b then _ else _] |- _ => destruct (Z.eqb_spec a b)
           | |- context [if ?a =? ?b then _ else _] => destruct (Z.eqb_spec a b)
           end; cbn in *; lia. }
  assert (YearFromTime t = y) as HY.
  { unfold YearFromTime. rewrite HD. apply YearFromDay_unique.
    lia. }
  assert (DayWithinYear t = MonthStart m leap + d - 1) as HW.
  { unfold DayWithinYear. rewrite HY, HD. lia. }
  assert (MonthFromTime t = m) as HM.
  { unfold MonthFromTime, InLeapYear. rewrite HW, HY, <- Hleap.
    unfold MonthStart, DaysInMonth in *.
    repeat match goal with
           | H : context [if ?a =? ?b then _ else _] |- _ => destruct (Z.eqb_spec a b)
           | |- context [if ?a =? ?b then _ else _] => destruct (Z.eqb_spec a b)
           end; cbn in *;
    repeat match goal with
           | |- context [if ?a <? ?b then _ else _] => destruct (Z.ltb_spec a b)
           end; lia. }
  split; [exact HY|]. split; [exact HM|].
  unfold DateFromTime, InLeapYear. rewrite HW, HM, HY, <- Hleap. lia.
Qed.

Lemma two_chars_table : forallb two_chars_ok (Z.of_nat <$> seq 0 100) = true.
Proof. vm_compute. reflexivity. Qed.

Lemma two_chars (n : Z) :
  0 <= n < 100 ->
  exists c1 c2, padStart 2 "0" (toString n) = String c1 (String c2 "")
                /\ is_Some (digit c1).
Proof.
  intros Hn. pose proof two_chars_table as Ht.
  rewrite forallb_forall in Ht.
  assert (two_chars_ok n = true) as Hok.
  { apply Ht. apply list_elem_of_In. apply list_elem_of_fmap.
    exists (Z.to_nat n). split; [lia|].
    apply list_elem_of_In, in_seq. lia. }
  unfold two_chars_ok in Hok. apply andb_prop in Hok as [H1 H2].
  destruct (padStart 2 "0" (toString n)) as [|c1 [|c2 [|c3 s]]]; try discriminate.
  exists c1, c2. split; [reflexivity|]. apply bool_decide_eq_true in H2. exact H2.
Qed.

Lemma two_digit_inj (a b : Z) :
  0 <= a < 100 -> 0 <= b < 100 ->
  padStart 2 "0" (toString a) = padStart 2 "0" (toString b) -> a = b.
Proof.
  intros Ha Hb Heq.
  destruct (two_digit a Ha) as [Na _]. destruct (two_digit b Hb) as [Nb _].
  rewrite Heq in Na. congruence.
Qed.

Lemma MonthFromTime_range (t : Z) : 0 <= MonthFromTime t <= 11.
Proof.
  unfold MonthFromTime.
  repeat match goal with
         | |- context [if ?a <? ?b then _ else _] => destruct (Z.ltb_spec a b)
         end; lia.
Qed.

(** The day number is made of the three calendar fields. *)
Lemma Day_civil (t : Z) :
  Day t = DayFromYear (YearFromTime t)
          + MonthStart (MonthFromTime t) (LeapYear (YearFromTime t))
          + DateFromTime t - 1.
Proof. unfold DateFromTime, DayWithinYear, InLeapYear. lia. Qed.

Lemma same_day_fields (t1 t2 : Z) :
  Day t1 = Day t2 <->
  DateFromTime t1 = DateFromTime t2 /\ MonthFromTime t1 = MonthFromTime t2
  /\ YearFromTime t1 = YearFromTime t2.
Proof.
  split.
  - intros H. unfold DateFromTime, MonthFromTime, InLeapYear, DayWithinYear, YearFromTime.
    rewrite H. auto.
  - intros (Hd & Hm & Hy). rewrite (Day_civil t1), (Day_civil t2). congruence.
Qed.

Lemma formatDate_fields (t1 t2 : Z) :
  Utils.formatDate (Some t1) = Utils.formatDate (Some t2) <->
  DateFromTime t1 = DateFromTime t2 /\ MonthFromTime t1 = MonthFromTime t2
  /\ YearFromTime t1 = YearFromTime t2.
Proof.
  split.
  - unfold Utils.formatDate.
    pose proof (DateFromTime_range t1) as D1. pose proof (DateFromTime_range t2) as D2.
    pose proof (MonthFromTime_range t1) as M1. pose proof (MonthFromTime_range t2) as M2.
    destruct (two_chars (DateFromTime t1)) as (a1 & a2 & Ha & _); [lia|].
    destruct (two_chars (DateFromTime t2)) as (b1 & b2 & Hb & _); [lia|].
    destruct (two_chars (MonthFromTime t1 + 1)) as (c1 & c2 & Hc & _); [lia|].
    destruct (two_chars (MonthFromTime t2 + 1)) as (d1 & d2 & Hd & _); [lia|].
    intros Heq. pose proof Heq as Heq'. rewrite Ha, Hb, Hc, Hd in Heq'. simpl in Heq'.
    injection Heq' as E1 E2 E3 E4 E5.
    assert (DateFromTime t1 = DateFromTime t2) as HD.
    { apply two_digit_inj; [lia|lia|]. rewrite Ha, Hb. congruence. }
    assert (MonthFromTime t1 + 1 = MonthFromTime t2 + 1) as HM.
    { apply two_digit_inj; [lia|lia|]. rewrite Hc, Hd. congruence. }
    split; [exact HD|]. split; [lia|].
    unfold toString in E5. exact (inj pretty _ _ E5).
  - intros (Hd & Hm & Hy). unfold Utils.formatDate. rewrite Hd, Hm, Hy. reflexivity.
Qed.

Lemma formatDate_valid (t : Z) : Utils.formatDate (Some t) <> "Invalid Date".
Proof.
  unfold Utils.formatDate.
  pose proof (DateFromTime_range t) as D.
  destruct (two_chars (DateFromTime t)) as (a1 & a2 & Ha & _); [lia|].
  rewrite Ha. simpl. intros H. discriminate H.
Qed.

Lemma formatDate_Day (t1 t2 : Z) :
  Utils.formatDate (Some t1) = Utils.formatDate (Some t2) <-> Day t1 = Day t2.
Proof. rewrite formatDate_fields, same_day_fields. reflexivity. Qed.

(** X1. [formatDate] tells the local days apart and nothing more: two
    valid dates get the same text exactly when they fall on the same
    local day, whatever the time of day, and the text of an invalid date
    is the text of no valid one. The [date] property of a record
    therefore identifies the day of its timestamp. *)
Theorem formatDate_same_day (d1 d2 : option Z) :
  Utils.formatDate d1 = Utils.formatDate d2 <->
  match d1, d2 with
  | Some t1, Some t2 => Day t1 = Day t2
  | None, None => True
  | _, _ => False
  end.
Proof.
  destruct d1 as [t1|], d2 as [t2|].
  - apply formatDate_Day.
  - split; [intros H; exact (formatDate_valid _ H) | tauto].
  - split; [intros H; symmetry in H; exact (formatDate_valid _ H) | tauto].
  - split; auto.
Qed.

(** X2. [isToday] and the date texts agree: [isToday(date)] holds exactly
    when [formatDate(date)] is the text of today, which is the test by
    which [getTodayAttendance] picks the records of today. An invalid
    date is never today. *)
Theorem isToday_formatDate (date : option Z) (today : Z) :
  Utils.isToday date today = true <->
  Utils.formatDate date = Utils.formatDate (Some today).
Proof.
  destruct date as [d|]; cbn [Utils.isToday].
  - rewrite formatDate_fields, !andb_true_iff, !Z.eqb_eq. tauto.
  - split; [discriminate|]. intros H. symmetry in H. destruct (formatDate_valid _ H).
Qed.

Lemma MonthStart_next (m leap : Z) (y : Z) :
  0 <= m < 11 -> leap = LeapYear y ->
  MonthStart (m + 1) leap = MonthStart m leap + DaysInMonth y (m + 1).
Proof.
  intros Hm ->. unfold MonthStart, DaysInMonth.
  repeat match goal with
         | |- context [if ?a =? ?b then _ else _] => destruct (Z.eqb_spec a b)
         end; lia.
Qed.

Lemma DaysInMonth_range (y m : Z) : 28 <= DaysInMonth y m <= 31.
Proof.
  unfold DaysInMonth. pose proof (LeapYear_range y).
  repeat match goal with
         | |- context [if ?a =? ?b then _ else _] => destruct (Z.eqb_spec a b)
         end; lia.
Qed.

Lemma newDate_first (year month : Z) :
  newDate year (month - 1) 1
  = (DayFromYear (full_year year + (month - 1) / 12)
     + MonthStart ((month - 1) mod 12) (LeapYear (full_year year + (month - 1) / 12))
     + 1 - 1) * msPerDay + 0.
Proof. unfold newDate, MakeDay, full_year. lia. Qed.

Lemma newDate_last (year month : Z) :
  let y := full_year year + (month - 1) / 12 in
  let m := (month - 1) mod 12 in
  newDate year month 0
  = (DayFromYear y + MonthStart m (LeapYear y) + DaysInMonth y (m + 1) - 1) * msPerDay + 0.
Proof.
  intros y m. unfold newDate, MakeDay. fold (full_year year).
  assert (0 <= m <= 11) as Hm by (unfold m; div_lia).
  destruct (Z.eq_dec m 11) as [H11|H11].
  - assert (month / 12 = (month - 1) / 12 + 1 /\ month mod 12 = 0) as [Hq Hr]
      by (unfold m in *; div_lia).
    rewrite Hq, Hr. replace (full_year year + ((month - 1) / 12 + 1)) with (y + 1)
      by (unfold y; lia).
    rewrite DayFromYear_succ, H11. cbn [MonthStart DaysInMonth Z.eqb Z.add Pos.eqb Pos.add Pos.succ].
    unfold MonthStart, DaysInMonth. simpl. lia.
  - assert (month / 12 = (month - 1) / 12 /\ month mod 12 = m + 1) as [Hq Hr]
      by (unfold m in *; div_lia).
    rewrite Hq, Hr. fold y. rewrite (MonthStart_next m _ y) by (auto; lia). lia.
Qed.

(** The calendar fields of the two ends of a month range. *)
Lemma month_ends (year month : Z) :
  let y := full_year year + (month - 1) / 12 in
  let m := (month - 1) mod 12 + 1 in
  (YearFromTime (newDate year (month - 1) 1) = y
   /\ MonthFromTime (newDate year (month - 1) 1) + 1 = m
   /\ DateFromTime (newDate year (month - 1) 1) = 1)
  /\ (YearFromTime (newDate year month 0) = y
      /\ MonthFromTime (newDate year month 0) + 1 = m
      /\ DateFromTime (newDate year month 0) = DaysInMonth y m).
Proof.
  intros y m.
  assert (0 <= (month - 1) mod 12 <= 11) as Hm by div_lia.
  pose proof (DaysInMonth_range y m) as Hdim.
  pose proof (newDate_first year month) as Hfirst.
  pose proof (newDate_last year month) as Hlast. cbv zeta in Hlast.
  fold y in Hfirst, Hlast. fold m in Hlast.
  destruct (civil_roundtrip y ((month - 1) mod 12) 1 0) as (Y1 & M1 & D1);
    [lia | fold m; lia | unfold msPerDay; lia |].
  destruct (civil_roundtrip y ((month - 1) mod 12) (DaysInMonth y m) 0) as (Y2 & M2 & D2);
    [lia | fold m; lia | unfold msPerDay; lia |].
  rewrite <- Hfirst in Y1, M1, D1. rewrite <- Hlast in Y2, M2, D2.
  unfold m. rewrite Y1, M1, D1, Y2, M2, D2. auto.
Qed.

(** X3. [getMonthRange(year, month)] for integers for which the two
    dates it builds are within the range of [Date]: [start] is local
    midnight of the first day of the month and [end] is local midnight of
    its last day, 27 to 30 whole days later, so the last day itself lies
    beyond [end] except for its first instant. A month outside 1..12
    runs over into the neighbouring years, and a year from 0 to 99 is
    taken as 1900 + year. *)
Theorem getMonthRange_bounds (year month : Z) :
  in_Date_range year (month - 1) 1 ->
  in_Date_range year month 0 ->
  let y := full_year year + (month - 1) / 12 in
  let m := (month - 1) mod 12 + 1 in
  let range := Utils.getMonthRange year month in
  (YearFromTime (Utils.start range), MonthFromTime (Utils.start range) + 1,
   DateFromTime (Utils.start range)) = (y, m, 1)
  /\ (YearFromTime (Utils.end_ range), MonthFromTime (Utils.end_ range) + 1,
      DateFromTime (Utils.end_ range)) = (y, m, DaysInMonth y m)
  /\ TimeWithinDay (Utils.start range) = 0
  /\ Utils.end_ range = Utils.start range + (DaysInMonth y m - 1) * msPerDay.
Proof.
  intros _ _ y m range. unfold range, Utils.getMonthRange. cbn [Utils.start Utils.end_].
  destruct (month_ends year month) as [(Y1 & M1 & D1) (Y2 & M2 & D2)].
  cbv zeta in *. fold y m in Y1, M1, Y2, M2, D2.
  pose proof (newDate_first year month) as Hfirst.
  pose proof (newDate_last year month) as Hlast. cbv zeta in Hlast.
  fold y in Hfirst, Hlast. fold m in Hlast.
  rewrite Y1, M1, D1, Y2, M2, D2.
  split; [reflexivity|]. split; [reflexivity|]. split.
  - rewrite Hfirst. unfold TimeWithinDay, msPerDay. div_lia.
  - rewrite Hfirst, Hlast. lia.
Qed.

Lemma getMonthRange_bounds_witness :
  let range := Utils.getMonthRange 2024 2 in
  (YearFromTime (Utils.end_ range), MonthFromTime (Utils.end_ range) + 1,
   DateFromTime (Utils.end_ range)) = (2024, 2, 29)
  /\ Utils.end_ range = Utils.start range + 28 * msPerDay.
Proof.
  destruct (getMonthRange_bounds 2024 2) as (_ & Hend & _ & Hlen).
  - repeat split; vm_compute; discriminate.
  - repeat split; vm_compute; discriminate.
  - split; [exact Hend | exact Hlen].
Defined.

Lemma WeekDay_range (t : Z) : 0 <= WeekDay t <= 6.
Proof. unfold WeekDay. div_lia. Qed.

Lemma Day_shift (t k : Z) : Day (t + k * msPerDay) = Day t + k.
Proof. unfold Day, msPerDay. div_lia. Qed.

Lemma days_lookup_inj (i j : nat) (s : string) :
  Utils.days !! i = Some s -> Utils.days !! j = Some s -> i = j.
Proof.
  intros Hi Hj.
  assert (NoDup Utils.days) as Hnd
    by (apply (bool_decide_unpack _); vm_compute; reflexivity).
  eapply NoDup_lookup; eauto.
Qed.

Lemma getDayName_lookup (t : Z) :
  Utils.days !! Z.to_nat (WeekDay t) = Some (Utils.getDayName (Some t)).
Proof.
  pose proof (WeekDay_range t) as H. unfold Utils.getDayName. simpl.
  assert (Z.to_nat (WeekDay t) ∈ seq 0 7) as Hin by (apply list_elem_of_In, in_seq; lia).
  cbn in Hin. set_unfold in Hin.
  destruct Hin as [->|[->|[->|[->|[->|[->|[->|[]]]]]]]]; reflexivity.
Qed.

(** X4. [getDayName] gives 'Invalid Day' for an invalid date and one of
    the seven names for every valid one, and the names repeat with
    period exactly seven days: two dates a whole number [k] of days apart
    have the same name if and only if 7 divides [k]. *)
Theorem getDayName_week (t k : Z) :
  Utils.getDayName None = "Invalid Day"
  /\ Utils.getDayName (Some t) ∈ Utils.days
  /\ (Utils.getDayName (Some (t + k * msPerDay)) = Utils.getDayName (Some t)
      <-> k mod 7 = 0).
Proof.
  split; [reflexivity|]. split.
  - eapply list_elem_of_lookup_2. apply getDayName_lookup.
  - pose proof (getDayName_lookup t) as H1.
    pose proof (getDayName_lookup (t + k * msPerDay)) as H2.
    pose proof (WeekDay_range t) as R1.
    pose proof (WeekDay_range (t + k * msPerDay)) as R2.
    assert (WeekDay (t + k * msPerDay) = WeekDay t <-> k mod 7 = 0) as Hw.
    { unfold WeekDay. rewrite Day_shift. div_lia. }
    rewrite <- Hw. split.
    + intros Heq. rewrite Heq in H2.
      pose proof (days_lookup_inj _ _ _ H2 H1). lia.
    + intros Heq. rewrite Heq in H2. congruence.
Qed.

(** [date.setDate(date.getDate() - i)] goes back [i] days on the clock. *)
Lemma setDate_back (t i : Z) :
  setDate t (DateFromTime t - i) = t - i * msPerDay.
Proof.
  unfold setDate, MakeDay, TimeWithinDay.
  pose proof (MonthFromTime_range t) as Hm.
  assert (MonthFromTime t / 12 = 0 /\ MonthFromTime t mod 12 = MonthFromTime t)
    as [-> ->] by div_lia.
  rewrite Z.add_0_r.
  pose proof (Day_civil t) as HD.
  replace (DayFromYear (YearFromTime t)
           + MonthStart (MonthFromTime t) (LeapYear (YearFromTime t))
           + (DateFromTime t - i) - 1) with (Day t - i) by lia.
  unfold Day, msPerDay. div_lia.
Qed.

Lemma WeekDay_back (t i : Z) : WeekDay (t - i * msPerDay) = (WeekDay t - i) mod 7.
Proof.
  unfold WeekDay. replace (t - i * msPerDay) with (t + (- i) * msPerDay) by lia.
  rewrite Day_shift. div_lia.
Qed.

Lemma week_labels_NoDup (w0 : Z) : 0 <= w0 <= 6 -> NoDup (week_labels w0).
Proof.
  intros H.
  assert (w0 ∈ (Z.of_nat <$> seq 0 7)) as Hin.
  { apply list_elem_of_fmap. exists (Z.to_nat w0). split; [lia|].
    apply list_elem_of_In, in_seq. lia. }
  cbn in Hin. set_unfold in Hin.
  destruct Hin as [->|[->|[->|[->|[->|[->|[->|[]]]]]]]];
    apply (bool_decide_unpack _); vm_compute; reflexivity.
Qed.

(** X5. Over a store that holds an array, the weekly chart has seven
    labels and seven bars, no two labels alike; position [6 - i] is the
    day [i] days before now, labelled with the first three letters of
    its week day, and its bar is the [totalWorkMinutes / 60] of the
    first stored record carrying that day's date text (0 when there is
    none or it has no duration). The store is left as it was. *)
Theorem getWeeklyChartData_week (now : Z) (w : World) (l : list record) :
  Storage.getAttendanceRecords w = (Ok (JArray l), w) ->
  exists c, Dashboard.getWeeklyChartData now w = (Ok c, w)
    /\ length (Dashboard.labels c) = 7%nat
    /\ length (Dashboard.hours c) = 7%nat
    /\ NoDup (Dashboard.labels c)
    /\ forall i : nat, (i <= 6)%nat ->
         let day := now - Z.of_nat i * msPerDay in
         Dashboard.labels c !! (6 - i)%nat
         = Some (String.substring 0 3 (Utils.getDayName (Some day)))
         /\ Dashboard.hours c !! (6 - i)%nat
            = Some (chart_hours (first_of_date l (Utils.formatDate (Some day)))).
Proof.
  intros Hget. unfold Dashboard.getWeeklyChartData.
  unfold mbind at 1, M_bind at 1, bind at 1. rewrite Hget.
  unfold mbind at 1, M_bind at 1, bind at 1. cbn [as_array ret].
  eexists. split; [reflexivity|]. cbn [Dashboard.labels Dashboard.hours].
  split; [reflexivity|]. split; [reflexivity|]. split.
  - assert ((Dashboard.weekDay now l <$> [6; 5; 4; 3; 2; 1; 0]).*1
            = week_labels (WeekDay now)) as ->.
    { unfold week_labels. rewrite <- list_fmap_compose.
      apply list_fmap_ext. intros j i _. unfold Dashboard.weekDay. cbn [fst compose].
      rewrite setDate_back. unfold Utils.getDayName. cbn [mbind option_bind].
      rewrite WeekDay_back. reflexivity. }
    apply week_labels_NoDup, WeekDay_range.
  - intros i Hi.
    assert (i ∈ seq 0 7) as Hin by (apply list_elem_of_In, in_seq; lia).
    cbn in Hin. set_unfold in Hin.
    destruct Hin as [->|[->|[->|[->|[->|[->|[->|[]]]]]]]];
      cbn [Nat.sub fmap list_fmap lookup list_lookup fst snd Dashboard.weekDay];
      rewrite setDate_back; split; reflexivity.
Qed.

Lemma getWeeklyChartData_week_witness :
  exists c,
    Dashboard.getWeeklyChartData Sample.mid_june Sample.page_two_cycles
    = (Ok c, Sample.page_two_cycles)
    /\ length (Dashboard.labels c) = 7%nat
    /\ NoDup (Dashboard.labels c)
    /\ Dashboard.labels c !! 6%nat = Some "Sat".
Proof.
  destruct (getWeeklyChartData_week Sample.mid_june Sample.page_two_cycles
              [ Sample.first_cycle; Sample.second_cycle ]
              ltac:(vm_compute; reflexivity))
    as (c & Hrun & Hlen & _ & Hnd & Hday).
  exists c. split; [exact Hrun|]. split; [exact Hlen|]. split; [exact Hnd|].
  exact (proj1 (Hday 0%nat ltac:(lia))).
Defined.

(** X6. For a year and a month whose first and last day are within the
    range of [Date], the monthly trend chart has one label and one bar
    for every day of the month, 28 to 31 of them, leap years included:
    the labels are 1, 2, ... up to the length of the month, every day of
    the month is within the range of [Date], and the bar of day [d] is
    taken from the first record whose [date] is the text of that day. *)
Theorem prepareMonthlyTrendData_days (records : list record) (year month : Z) :
  in_Date_range year (month - 1) 1 ->
  in_Date_range year month 0 ->
  let y := full_year year + (month - 1) / 12 in
  let m := (month - 1) mod 12 + 1 in
  let c := Reports.prepareMonthlyTrendData records year month in
  Reports.labels c = Z.of_nat <$> seq 1 (Z.to_nat (DaysInMonth y m))
  /\ length (Reports.hours c) = Z.to_nat (DaysInMonth y m)
  /\ forall d : Z, 1 <= d <= DaysInMonth y m ->
       in_Date_range year (month - 1) d
       /\ Reports.hours c !! Z.to_nat (d - 1)
          = Some (chart_hours (first_of_date records (date_string y m d))).
Proof.
  intros Hstart Hend_range y m c. unfold c, Reports.prepareMonthlyTrendData.
  cbn [Reports.labels Reports.hours].
  destruct (month_ends year month) as [_ (_ & _ & Hend)].
  cbv zeta in Hend. fold y m in Hend. rewrite Hend.
  pose proof (DaysInMonth_range y m) as Hr.
  split; [|split].
  - rewrite <- list_fmap_compose.
    etransitivity; [|apply list_fmap_id]. apply list_fmap_ext. intros; reflexivity.
  - rewrite !length_fmap, length_seq. reflexivity.
  - intros d Hd.
    assert (0 <= (month - 1) mod 12 <= 11) as Hm by div_lia.
    assert (newDate year (month - 1) d
            = (DayFromYear y + MonthStart ((month - 1) mod 12) (LeapYear y) + d - 1)
              * msPerDay + 0) as Hday.
    { unfold newDate, MakeDay. fold (full_year year). fold y. lia. }
    split.
    { pose proof (newDate_first year month) as Hfirst.
      pose proof (newDate_last year month) as Hlast. cbv zeta in Hlast.
      fold y in Hfirst, Hlast. fold m in Hlast.
      destruct Hstart as (Hy & Hmo & _ & Hlo), Hend_range as (_ & _ & _ & Hhi).
      unfold in_Date_range. rewrite Hday.
      rewrite Hfirst in Hlo. rewrite Hlast in Hhi.
      unfold msPerDay, maxTime in *. repeat split; lia. }
    rewrite !list_lookup_fmap.
    rewrite lookup_seq_lt by lia. cbn [fmap option_fmap option_map].
    unfold Reports.trendDay. cbn [snd]. f_equal. f_equal.
    unfold first_of_date. f_equal.
    replace (Z.of_nat (1 + Z.to_nat (d - 1))) with d by lia.
    rewrite Hday.
    destruct (civil_roundtrip y ((month - 1) mod 12) d 0) as (Y1 & M1 & D1);
      [lia | fold m; lia | unfold msPerDay; lia |].
    unfold Utils.formatDate, date_string. rewrite Y1, M1, D1. reflexivity.
Qed.

Lemma prepareMonthlyTrendData_days_witness :
  let c := Reports.prepareMonthlyTrendData [ Sample.completed ] 2024 2 in
  Reports.labels c = Z.of_nat <$> seq 1 29
  /\ length (Reports.hours c) = 29%nat.
Proof.
  destruct (prepareMonthlyTrendData_days [ Sample.completed ] 2024 2)
    as (Hlabels & Hlen & _).
  - repeat split; vm_compute; discriminate.
  - repeat split; vm_compute; discriminate.
  - split; [exact Hlabels | exact Hlen].
Defined.

(** ** Numbers and their decimal text *)

Lemma digit_pretty_N_char (d : N) :
  (d < 10)%N -> digit (pretty_N_char d) = Some (Z.of_N d).
Proof.
  intros H.
  assert (d ∈ (N.of_nat <$> seq 0 10)) as Hin.
  { apply list_elem_of_fmap. exists (N.to_nat d). split; [lia|].
    apply list_elem_of_In, in_seq. lia. }
  cbn in Hin. set_unfold in Hin.
  repeat (destruct Hin as [->|Hin]; [reflexivity|]). destruct Hin.
Qed.

Lemma digits_pretty_N_go (x : N) :
  forall (acc : Z) (s : string),
    exists k : Z, 0 <= k
      /\ digits acc (pretty_N_go x s) = digits (acc * 10 ^ k + Z.of_N x) s.
Proof.
  induction (N.lt_wf_0 x) as [x _ IH]. intros acc s.
  destruct (N.eq_dec x 0%N) as [->|Hx].
  - exists 0. split; [lia|]. rewrite pretty_N_go_0. f_equal. simpl. lia.
  - rewrite pretty_N_go_step by lia.
    destruct (IH (x `div` 10)%N ltac:(apply N.div_lt; lia) acc
                 (String (pretty_N_char (x `mod` 10)) s)) as (k & Hk & ->).
    exists (k + 1). split; [lia|]. cbn [digits].
    rewrite digit_pretty_N_char by (apply N.mod_lt; lia). f_equal.
    rewrite Z.pow_add_r by lia.
    rewrite (N.div_mod x 10) at 3 by lia. rewrite N2Z.inj_add, N2Z.inj_mul. simpl Z.of_N. lia.
Qed.

Lemma Number_toString (n : Z) : 0 <= n -> Number (toString n) = Some n.
Proof.
  intros Hn. unfold Number, toString, pretty, pretty_Z.
  destruct n as [|p|p]; [reflexivity| |lia].
  unfold pretty, pretty_positive, pretty, pretty_N.
  destruct (decide (N.pos p = 0)%N) as [H|_]; [discriminate H|].
  destruct (digits_pretty_N_go (N.pos p) 0 "") as (k & _ & ->).
  simpl. reflexivity.
Qed.

Lemma split_no_sep (sep : ascii) (a : string) :
  no_sep sep a = true -> split sep a = [ a ].
Proof.
  induction a as [|c a IH]; [reflexivity|].
  unfold no_sep. simpl. intros H. apply andb_prop in H as [Hc Ha].
  apply negb_true_iff in Hc. rewrite Hc. unfold no_sep in IH.
  rewrite (IH Ha). reflexivity.
Qed.

Lemma split_sep_app (sep : ascii) (a rest : string) :
  no_sep sep a = true ->
  split sep (a +:+ String sep rest) = a :: split sep rest.
Proof.
  induction a as [|c a IH]; simpl.
  - intros _. rewrite Ascii.eqb_refl. reflexivity.
  - unfold no_sep. simpl. intros H. apply andb_prop in H as [Hc Ha].
    apply negb_true_iff in Hc. rewrite Hc. unfold no_sep in IH.
    rewrite (IH Ha). reflexivity.
Qed.

Lemma all_digits_pretty_N_go (x : N) :
  forall s, all_digits s = true -> all_digits (pretty_N_go x s) = true.
Proof.
  induction (N.lt_wf_0 x) as [x _ IH]. intros s Hs.
  destruct (N.eq_dec x 0%N) as [->|Hx].
  - rewrite pretty_N_go_0. exact Hs.
  - rewrite pretty_N_go_step by lia. apply IH; [apply N.div_lt; lia|].
    unfold all_digits. simpl. rewrite andb_true_iff. split; [|exact Hs].
    unfold is_digit. apply bool_decide_eq_true.
    rewrite digit_pretty_N_char by (apply N.mod_lt; lia). eauto.
Qed.

Lemma all_digits_toString (n : Z) : 0 <= n -> all_digits (toString n) = true.
Proof.
  intros Hn. unfold toString, pretty, pretty_Z.
  destruct n as [|p|p]; [reflexivity| |lia].
  unfold pretty, pretty_positive, pretty, pretty_N.
  destruct (decide (N.pos p = 0)%N) as [H|_]; [discriminate H|].
  apply all_digits_pretty_N_go. reflexivity.
Qed.

Lemma all_digits_no_sep (sep : ascii) (s : string) :
  digit sep = None -> all_digits s = true -> no_sep sep s = true.
Proof.
  intros Hsep. unfold all_digits, no_sep.
  induction (list_ascii_of_string s) as [|c l IH]; [reflexivity|]. simpl.
  rewrite !andb_true_iff. intros [Hc Hl]. split; [|auto].
  apply negb_true_iff, Ascii.eqb_neq. intros ->.
  unfold is_digit in Hc. apply bool_decide_eq_true in Hc as [d Hd]. congruence.
Qed.

(** ** The month input of the reports *)

(** X7. The month that [setDefaultMonth] writes into the month input is
    the month [generateReport] reads back from it: splitting the text at
    ['-'] and converting with [Number] gives the current year and the
    current month, counted from 1, for every date of year 0 or later. *)
Theorem selectedMonth_setDefaultMonth (now : Z) :
  0 <= YearFromTime now ->
  Reports.selectedMonth (Reports.setDefaultMonth now)
  = (Some (YearFromTime now), Some (MonthFromTime now + 1)).
Proof.
  intros Hy. unfold Reports.selectedMonth, Reports.setDefaultMonth.
  pose proof (MonthFromTime_range now) as Hm.
  destruct (two_digit (MonthFromTime now + 1)) as [Hnum _]; [lia|].
  assert (no_sep "-" (padStart 2 "0" (toString (MonthFromTime now + 1))) = true) as Hns.
  { destruct (two_chars (MonthFromTime now + 1)) as (c1 & c2 & Hc & _); [lia|].
    assert (forallb (fun n => no_sep "-" (padStart 2 "0" (toString n)))
              (Z.of_nat <$> seq 0 100) = true) as Ht by (vm_compute; reflexivity).
    rewrite forallb_forall in Ht. apply Ht.
    apply list_elem_of_In, list_elem_of_fmap. exists (Z.to_nat (MonthFromTime now + 1)).
    split; [lia|]. apply list_elem_of_In, in_seq. lia. }
  change (?a +:+ "-" +:+ ?b) with (a +:+ String "-" b).
  rewrite split_sep_app
    by (apply all_digits_no_sep; [reflexivity | apply all_digits_toString; exact Hy]).
  rewrite split_no_sep by exact Hns.
  unfold nth_num. cbn [lookup list_lookup].
  rewrite Number_toString by exact Hy. rewrite Hnum. reflexivity.
Qed.

Lemma selectedMonth_setDefaultMonth_witness :
  Reports.selectedMonth (Reports.setDefaultMonth Sample.mid_june) = (Some 2024, Some 6).
Proof.
  exact (selectedMonth_setDefaultMonth Sample.mid_june ltac:(vm_compute; discriminate)).
Defined.

(** ** Durations *)

(** X8. [calculateTimeDifference(start, end)] for two valid dates:
    [totalMinutes] is the whole minutes from start to end, rounded down,
    and [hours] is its whole hours, rounded down. For an end not before
    the start, hours and minutes are the usual split, with
    [hours * 60 + minutes = totalMinutes] and minutes from 0 to 59. For
    an end before the start, hours is negative and minutes lies from -59
    to 0, and the two parts add up to [totalMinutes - 60] unless minutes
    is 0: floor and remainder round in different directions. *)
Theorem calculateTimeDifference_parts (s e : Z) :
  let d := Utils.calculateTimeDifference (Some s) (Some e) in
  exists m, Utils.totalMinutes d = Some m
    /\ m * 60000 <= e - s < (m + 1) * 60000
    /\ Utils.hours d * 60 <= m < (Utils.hours d + 1) * 60
    /\ Utils.hours d * 60 + Utils.minutes d
       = (if (0 <=? m) || (Utils.minutes d =? 0) then m else m - 60)
    /\ (s <= e -> 0 <= Utils.hours d /\ 0 <= Utils.minutes d < 60)
    /\ (e < s -> Utils.hours d < 0 /\ -60 < Utils.minutes d <= 0).
Proof.
  cbn. eexists. split; [reflexivity|].
  set (m := (e - s) / 60000).
  assert (m * 60000 <= e - s < (m + 1) * 60000) as Hm by (unfold m; div_lia).
  clearbody m.
  split; [exact Hm|]. split; [div_lia|]. split.
  - destruct (Z.leb_spec 0 m) as [H0|H0]; cbn [orb].
    + Z.to_euclidean_division_equations; lia.
    + destruct (Z.eqb_spec (Z.rem m 60) 0) as [Hz|Hz];
        Z.to_euclidean_division_equations; lia.
  - split; intros H; (split; [div_lia | Z.to_euclidean_division_equations; lia]).
Qed.

Lemma timeOutUpdates_minutes (cfg : Config) (env : Env) (r : record) :
  Attendance.timeOutUpdates cfg env r !! "totalWorkMinutes"
  = Some (from_option VNum VUndefined
            (Utils.totalMinutes
               (Utils.calculateTimeDifference (toDate (field r "timeIn"))
                                              (Some (now env))))).
Proof.
  unfold Attendance.timeOutUpdates.
  destruct (Attendance.isEarlyLeave cfg _ && strict_eq _ _); reflexivity.
Qed.

(** X9. The work-hours cell of the history table and of the CSV export
    for a record after a time-out, when the record's [timeIn] is a valid
    timestamp not after the clock: a stay of a minute or more shows its
    hours and minutes, but a stay of less than a minute, whose
    [totalWorkMinutes] is 0, shows 'In Progress' in the table and an
    empty cell in the export although [timeOut] is set. *)
Theorem historyWorkHours_after_timeOut (cfg : Config) (env : Env) (r : record)
    (t0 : Z) :
  toDate (field r "timeIn") = Some t0 ->
  t0 <= now env ->
  let r' := spread r (Attendance.timeOutUpdates cfg env r) in
  truthy (field r' "timeOut") = true
  /\ Reports.historyWorkHours r'
     = (if now env - t0 <? 60000 then "In Progress"
        else Utils.total (Utils.calculateTimeDifference (Some t0) (Some (now env))))
  /\ Reports.csvWorkHours r'
     = (if now env - t0 <? 60000 then ""
        else toString ((now env - t0) / 60000 / 60) +:+ ":"
             +:+ padStart 2 "0" (toString ((now env - t0) / 60000 mod 60))).
Proof.
  intros Hin Hle r'.
  destruct (timeOutUpdates_lookup cfg env r) as (Hout & _).
  pose proof (timeOutUpdates_minutes cfg env r) as Hmin. rewrite Hin in Hmin.
  cbn [Utils.calculateTimeDifference Utils.totalMinutes from_option] in Hmin.
  assert (field r' "timeOut" = VInstant (now env)) as Ho.
  { unfold r'. rewrite field_spread, Hout. reflexivity. }
  assert (field r' "totalWorkMinutes" = VNum ((now env - t0) / 60000)) as Hm.
  { unfold r'. rewrite field_spread, Hmin. reflexivity. }
  split; [rewrite Ho; reflexivity|].
  unfold Reports.historyWorkHours, Reports.csvWorkHours. rewrite Hm.
  cbn [truthy to_num fmap option_fmap option_map num_text Utils.calculateTimeDifference
       Utils.total].
  set (m := (now env - t0) / 60000).
  assert (0 <= m) as Hm0 by (unfold m; div_lia).
  destruct (Z.ltb_spec (now env - t0) 60000) as [Hlt|Hge].
  - assert (m = 0) as -> by (unfold m; div_lia). split; reflexivity.
  - assert ((m =? 0) = false) as -> by (apply Z.eqb_neq; unfold m; div_lia).
    cbn [negb]. rewrite Z.rem_mod_nonneg by lia. split; reflexivity.
Qed.

Lemma historyWorkHours_after_timeOut_witness :
  let env := Sample.env_at (Sample.t_in + 30000) true in
  let r' := spread Sample.queued (Attendance.timeOutUpdates CONFIG env Sample.queued) in
  truthy (field r' "timeOut") = true
  /\ Reports.historyWorkHours r' = "In Progress"
  /\ Reports.csvWorkHours r' = "".
Proof.
  intros env r'.
  destruct (historyWorkHours_after_timeOut CONFIG env Sample.queued Sample.t_in
              eq_refl ltac:(vm_compute; discriminate))
    as (Hout & Hhist & Hcsv).
  split; [exact Hout|]. split; [exact Hhist | exact Hcsv].
Defined.

(** ** The handlers, whatever happens *)

Lemma handleTimeIn_run (cfg : Config) (env : Env) (w : World) :
  exists (o : option (bool * value)) (ts : list Toast),
    (forall w0, Attendance.verifyFace cfg env w0 = (Ok o, add_toasts ts w0))
    /\ Attendance.handleTimeIn cfg env w =
       if negb (isAuthenticated env) then
         (Ok Attendance.LoginRequired,
          add_toasts [ mkToast "Please login first" "error" ] w)
       else if negb (validateGeofence env) then
         (Ok Attendance.LocationRejected,
          add_toasts (locationToasts env
                      ++ [ mkToast (getError cfg ERRORS_outsideGeofence) "error" ]) w)
       else
         let w1 := add_toasts (locationToasts env ++ ts) w in
         match o with
         | None => (Ok Attendance.FaceRejected, w1)
         | Some (faceVerified, photoData) =>
             match currentUser env with
             | None =>
                 (Ok Attendance.UnknownError,
                  add_toasts [ mkToast (getError cfg ERRORS_unknownError) "error" ] w1)
             | Some user =>
                 let r0 := Attendance.attendanceRecord cfg env user faceVerified photoData in
                 match Storage.saveAttendanceRecord r0 (generateId env 1) w1 with
                 | (Ok (true, r1), w2) =>
                     (Ok Attendance.Saved,
                      (sync_or_queue env r1
                         (committed r1 (getSuccess cfg SUCCESS_checkinSuccess) w2)).2)
                 | (Ok (false, _), w2) =>
                     (Ok Attendance.SaveFailed,
                      add_toasts
                        [ mkToast "Failed to save attendance. Please try again." "error" ] w2)
                 | (Throw, w2) =>
                     (Ok Attendance.UnknownError,
                      add_toasts [ mkToast (getError cfg ERRORS_unknownError) "error" ] w2)
                 end
             end
         end.
Proof.
  destruct (verifyFace_run cfg env) as (o & ts & Hface).
  exists o, ts. split; [exact Hface|].
  unfold Attendance.handleTimeIn, try_catch.
  destruct (isAuthenticated env); [|reflexivity]. cbn [negb].
  unfold mbind at 1, M_bind at 1, bind at 1. rewrite validateLocation_run.
  destruct (validateGeofence env); [|reflexivity]. cbn [negb]. rewrite app_nil_r.
  unfold mbind at 1, M_bind at 1, bind at 1. rewrite Hface, add_toasts_app.
  cbv zeta. set (w1 := add_toasts (locationToasts env ++ ts) w).
  destruct o as [[faceVerified photoData]|]; [|reflexivity].
  unfold mbind at 1, M_bind at 1, bind at 1.
  destruct (currentUser env) as [user|]; [|reflexivity].
  unfold ret at 1.
  unfold mbind at 1, M_bind at 1, bind at 1.
  destruct (Storage.saveAttendanceRecord _ _ w1) as [[[[|] r1]|] w2];
    [| reflexivity | reflexivity].
  cbn [fst snd].
  destruct (sync_or_queue_run env r1
              (committed r1 (getSuccess cfg SUCCESS_checkinSuccess) w2))
    as (w' & Hs & _).
  rewrite Hs. unfold sync_or_queue in Hs.
  unfold mbind, M_bind, bind, set_todayRecord, showToast, modify. simpl.
  unfold committed in Hs. simpl in Hs.
  destruct (onLine env); rewrite Hs; reflexivity.
Qed.

Lemma saveAttendanceRecord_cases (r : record) (gid : string) (w : World) :
  (exists b r1 w', Storage.saveAttendanceRecord r gid w = (Ok (b, r1), w')
     /\ (b = false -> exists ts, w' = add_toasts ts w))
  \/ Storage.saveAttendanceRecord r gid w = (Throw, w).
Proof.
  destruct (getAttendanceRecords_run w) as [[l|] Hget].
  - left. rewrite (saveAttendanceRecord_run _ _ _ _ Hget). cbv zeta.
    rewrite setItem_run.
    destruct (available (localStorage w));
      [destruct (quotaExceeded (localStorage w))|].
    + eexists _, _, _. split; [reflexivity|]. intros _. eexists. reflexivity.
    + eexists _, _, _. split; [reflexivity|]. discriminate.
    + eexists _, _, _. split; [reflexivity|]. intros _. exists [].
      rewrite add_toasts_nil. reflexivity.
  - right. apply saveAttendanceRecord_throw. exact Hget.
Qed.

Lemma ends_in_error_snoc (ts : list Toast) (msg : string) :
  ends_in_error (ts ++ [ mkToast msg "error" ]).
Proof. eexists. rewrite last_snoc. split; reflexivity. Qed.

Lemma updateAttendanceRecord_outcomes (rid : value) (updates : record) (w : World) :
  (exists b w', Storage.updateAttendanceRecord rid updates w = (Ok b, w')
     /\ (b = false -> exists ts, w' = add_toasts ts w))
  \/ Storage.updateAttendanceRecord rid updates w = (Throw, w).
Proof.
  destruct (getAttendanceRecords_run w) as [[l|] Hget].
  - left. rewrite (updateAttendanceRecord_run _ _ _ _ Hget).
    assert (exists ts, w = add_toasts ts w) as Hsame
      by (exists []; rewrite add_toasts_nil; reflexivity).
    destruct (findIndex _ l) as [i|]; [|eauto].
    destruct (l !! i); [|eauto].
    rewrite setItem_run.
    destruct (available (localStorage w));
      [destruct (quotaExceeded (localStorage w))|]; [| |eauto].
    + eexists _, _. split; [reflexivity|]. intros _. eexists. reflexivity.
    + eexists _, _. split; [reflexivity|]. discriminate.
  - right. apply updateAttendanceRecord_throw. exact Hget.
Qed.

Lemma verifyFace_cases (cfg : Config) (env : Env) :
  exists o ts,
    (forall w, Attendance.verifyFace cfg env w = (Ok o, add_toasts ts w))
    /\ (o = None -> ends_in_error ts).
Proof.
  unfold Attendance.verifyFace.
  destruct (FEATURES_faceRecognition cfg);
    [|exists (Some (false, VNull)), []; split; [|discriminate];
      intros; by rewrite add_toasts_nil].
  destruct (startCamera env), (success (performFaceVerification env)),
    (requiresRegistration (performFaceVerification env)), (showFaceModal env),
    (success (retryFaceVerification env)); cbn [negb];
    eexists _, _;
    (split;
     [intros w; unfold mbind, M_bind, bind, ret;
      repeat first [ rewrite shown_by_run | rewrite showToast_run
                   | progress cbv beta iota ];
      rewrite ?add_toasts_app; reflexivity
     |first [discriminate | intros _; rewrite ?app_assoc; apply ends_in_error_snoc]]).
Qed.

Lemma verifyFace_none (cfg : Config) (env : Env) (ts : list Toast) :
  (forall w0, Attendance.verifyFace cfg env w0 = (Ok None, add_toasts ts w0)) ->
  ends_in_error ts.
Proof.
  intros H. destruct (verifyFace_cases cfg env) as (o & ts' & Hrun & Herr).
  specialize (H (start_page true false)). rewrite Hrun in H.
  injection H as -> Hts. cbn in Hts. subst ts'. auto.
Qed.

Lemma handleTimeIn_failure (cfg : Config) (env : Env) (w : World) :
  exists o, (Attendance.handleTimeIn cfg env w).1 = Ok o
    /\ (o <> Attendance.Saved ->
        exists ts, (Attendance.handleTimeIn cfg env w).2 = add_toasts ts w
                   /\ ends_in_error ts).
Proof.
  - destruct (handleTimeIn_run cfg env w) as (o & ts & Hface & ->).
    destruct (isAuthenticated env); cbn [negb];
      [|eexists; split; [reflexivity|]; intros _; eexists; split;
        [reflexivity | apply (ends_in_error_snoc [])]].
    destruct (validateGeofence env); cbn [negb];
      [|eexists; split; [reflexivity|]; intros _; eexists; split;
        [reflexivity | apply ends_in_error_snoc]].
    cbv zeta.
    destruct o as [[faceVerified photoData]|].
    + destruct (currentUser env) as [user|].
      * destruct (saveAttendanceRecord_cases
                    (Attendance.attendanceRecord cfg env user faceVerified photoData)
                    (generateId env 1) (add_toasts (locationToasts env ++ ts) w))
          as [(b & r1 & w2 & -> & Hb)| ->].
        -- destruct b.
           ++ eexists; split; [reflexivity|]. intros H. exfalso. apply H. reflexivity.
           ++ destruct (Hb eq_refl) as (ts2 & ->).
              eexists; split; [reflexivity|]. intros _.
              rewrite !add_toasts_app. eexists. split; [reflexivity|].
              rewrite ?app_assoc. apply ends_in_error_snoc.
        -- eexists; split; [reflexivity|]. intros _.
           rewrite !add_toasts_app. eexists. split; [reflexivity|].
           rewrite ?app_assoc. apply ends_in_error_snoc.
      * eexists; split; [reflexivity|]. intros _.
        rewrite !add_toasts_app. eexists. split; [reflexivity|].
        rewrite ?app_assoc. apply ends_in_error_snoc.
    + eexists; split; [reflexivity|]. intros _. eexists. split; [reflexivity|].
      destruct (verifyFace_none cfg env ts Hface) as (t & Hlast & Hkind).
      exists t. split; [|exact Hkind].
      destruct ts as [|t0 ts] using rev_ind; [discriminate Hlast|].
      rewrite app_assoc, last_snoc. rewrite last_snoc in Hlast. exact Hlast.
Qed.

Lemma handleTimeOut_failure (cfg : Config) (env : Env) (w : World) :
  exists o, (Attendance.handleTimeOut cfg env w).1 = Ok o
    /\ (o <> Attendance.Saved ->
        exists ts, (Attendance.handleTimeOut cfg env w).2 = add_toasts ts w
                   /\ ends_in_error ts).
Proof.
  - destruct (isAuthenticated env) eqn:Hauth;
      [|rewrite handleTimeOut_login by assumption;
        eexists; split; [reflexivity|]; intros _; eexists; split;
        [reflexivity | apply (ends_in_error_snoc [])]].
    destruct (todayRecord w) as [r|] eqn:Hr;
      [|rewrite handleTimeOut_guard by auto;
        eexists; split; [reflexivity|]; intros _; eexists; split;
        [reflexivity | apply (ends_in_error_snoc [])]].
    destruct (truthy (field r "timeIn")) eqn:Hin;
      [|rewrite handleTimeOut_guard by eauto;
        eexists; split; [reflexivity|]; intros _; eexists; split;
        [reflexivity | apply (ends_in_error_snoc [])]].
    rewrite (handleTimeOut_pass cfg env w r Hauth Hr Hin).
    destruct (validateGeofence env);
      [|eexists; split; [reflexivity|]; intros _; eexists; split;
        [reflexivity | apply ends_in_error_snoc]].
    destruct (updateAttendanceRecord_outcomes (field r "id")
                (Attendance.timeOutUpdates cfg env r)
                (add_toasts (locationToasts env ++ checkout_toasts cfg env) w))
      as [(b & w2 & -> & Hb)| ->].
    + destruct b.
      * eexists; split; [reflexivity|]. intros H. exfalso. apply H. reflexivity.
      * destruct (Hb eq_refl) as (ts2 & ->).
        eexists; split; [reflexivity|]. intros _.
        rewrite !add_toasts_app. eexists. split; [reflexivity|].
        rewrite ?app_assoc. apply ends_in_error_snoc.
    + eexists; split; [reflexivity|]. intros _.
      rewrite !add_toasts_app. eexists. split; [reflexivity|].
      rewrite ?app_assoc. apply ends_in_error_snoc.
Qed.

(** X10. Neither handler ever fails silently or escapes with an
    exception: every run of [handleTimeIn] and of [handleTimeOut] ends
    with an outcome, and whenever that outcome is not a saved record the
    state of the attendance module, that is the stored attendance
    records, the cached record of today and the offline queue, is
    exactly as before, and toasts have been added, those of the
    location and camera calls among them, the last of them an error
    toast. No attendance record is stored, cached or queued on a failed
    run. The face descriptor that a registration during the run has
    stored with the camera module is not part of this state and stays
    stored when the run fails afterwards. *)
Theorem handlers_report_failure (cfg : Config) (env : Env) (w : World) :
  (exists o, (Attendance.handleTimeIn cfg env w).1 = Ok o
     /\ (o <> Attendance.Saved ->
         exists ts, (Attendance.handleTimeIn cfg env w).2 = add_toasts ts w
                    /\ ends_in_error ts))
  /\ (exists o, (Attendance.handleTimeOut cfg env w).1 = Ok o
        /\ (o <> Attendance.Saved ->
            exists ts, (Attendance.handleTimeOut cfg env w).2 = add_toasts ts w
                       /\ ends_in_error ts)).
Proof. split; [apply handleTimeIn_failure | apply handleTimeOut_failure]. Qed.

Lemma timeOutUpdates_keys (cfg : Config) (env : Env) (r : record) (k : string) :
  k ∉ time_out_keys -> Attendance.timeOutUpdates cfg env r !! k = None.
Proof.
  intros Hk. unfold Attendance.timeOutUpdates.
  assert (k <> "status") as Hs
    by (intros ->; apply Hk; unfold time_out_keys; rewrite !elem_of_cons; tauto).
  destruct (Attendance.isEarlyLeave cfg _ && strict_eq _ _);
    rewrite ?lookup_insert_ne by congruence;
    apply not_elem_of_list_to_map_1; cbn [fmap list_fmap fst];
    intros Hin; apply Hk; unfold time_out_keys;
    rewrite !elem_of_cons in *; tauto.
Qed.

Lemma handler_outcome_dec (res : result Attendance.Outcome) :
  res = Ok Attendance.Saved \/ res <> Ok Attendance.Saved.
Proof. destruct res as [[]|]; first [left; reflexivity | right; discriminate]. Qed.

(** X11. What the handlers leave of the stored records. After
    [handleTimeIn], every record that was stored is still at its
    position with every property but [synced] unchanged, and at most one
    record has been added. After [handleTimeOut], the number of records
    is the same and at most one position is rewritten: at that position
    the ten properties that a time-out writes may change, the others
    are kept, and at every other position every property but [synced]
    is kept. When the time-out is saved, the position that is rewritten
    holds a record with the [id] of the cached record, whether or not
    that record was completed before. *)
Theorem handlers_keep_records (cfg : Config) (env : Env) (w : World) :
  let w_in := (Attendance.handleTimeIn cfg env w).2 in
  let w_out := (Attendance.handleTimeOut cfg env w).2 in
  (forall j x, stored_records w !! j = Some x ->
     exists y, stored_records w_in !! j = Some y
               /\ forall k, k <> "synced" -> field y k = field x k)
  /\ (length (stored_records w) <= length (stored_records w_in)
      <= S (length (stored_records w)))%nat
  /\ (exists i : nat,
        (forall j x, stored_records w !! j = Some x ->
           exists y, stored_records w_out !! j = Some y
                     /\ (forall k, k ∉ time_out_keys -> field y k = field x k)
                     /\ (j <> i -> forall k, k <> "synced" -> field y k = field x k))
        /\ ((Attendance.handleTimeOut cfg env w).1 = Ok Attendance.Saved ->
            exists r old, todayRecord w = Some r
                          /\ stored_records w !! i = Some old
                          /\ field old "id" = field r "id"))
  /\ length (stored_records w_out) = length (stored_records w).
Proof.
  intros w_in w_out.
  destruct (handleTimeIn_failure cfg env w) as (o1 & Ho1 & Hf1).
  destruct (handleTimeOut_failure cfg env w) as (o2 & Ho2 & Hf2).
  split; [|split; [|split]].
  - destruct (Attendance.handleTimeIn cfg env w) as [res w'] eqn:Hrun.
    cbn [fst snd] in *. subst w_in. cbn [snd].
    destruct (handler_outcome_dec res) as [->|Hne].
    + destruct (handleTimeIn_saved cfg env w w' Hrun)
        as (_ & _ & _ & _ & _ & _ & _ & _ & _ & _ & _ & _ & _ & Hold).
      exact Hold.
    + destruct (Hf1 ltac:(congruence)) as (ts & -> & _).
      intros j x Hx. exists x. rewrite stored_records_add_toasts. auto.
  - destruct (Attendance.handleTimeIn cfg env w) as [res w'] eqn:Hrun.
    cbn [fst snd] in *. subst w_in. cbn [snd].
    destruct (handler_outcome_dec res) as [->|Hne].
    + destruct (handleTimeIn_saved cfg env w w' Hrun)
        as (_ & _ & _ & _ & _ & _ & _ & _ & _ & _ & Hlen & _). lia.
    + destruct (Hf1 ltac:(congruence)) as (ts & -> & _).
      rewrite stored_records_add_toasts. lia.
  - destruct (Attendance.handleTimeOut cfg env w) as [res w'] eqn:Hrun.
    cbn [fst snd] in *. subst w_out. cbn [snd].
    destruct (handler_outcome_dec res) as [->|Hne].
    + destruct (handleTimeOut_saved cfg env w w' Hrun)
        as (r & i & old & new & _ & Hr & _ & _ & _ & Hi & Hid & Hi' & Hnew & _ & Hother).
      exists i. split; [|intros _; exists r, old; auto].
      intros j x Hx. destruct (decide (j = i)) as [->|Hji].
      * rewrite Hi in Hx. injection Hx as <-. exists new. split; [exact Hi'|].
        split; [|intros Hii; destruct (Hii eq_refl)].
        intros k Hk. rewrite Hnew by (intros ->; apply Hk; set_solver).
        rewrite timeOutUpdates_keys by exact Hk. reflexivity.
      * destruct (Hother j x Hji Hx) as (y & Hy & Hf). exists y. split; [exact Hy|].
        split; [|intros _; exact Hf].
        intros k Hk. apply Hf. intros ->. apply Hk. set_solver.
    + destruct (Hf2 ltac:(congruence)) as (ts & -> & _).
      exists 0%nat. split; [|intros Hs; destruct (Hne Hs)].
      intros j x Hx. exists x. rewrite stored_records_add_toasts. auto.
  - destruct (Attendance.handleTimeOut cfg env w) as [res w'] eqn:Hrun.
    cbn [fst snd] in *. subst w_out. cbn [snd].
    destruct (handler_outcome_dec res) as [->|Hne].
    + destruct (handleTimeOut_saved cfg env w w' Hrun)
        as (r & i & old & new & _ & _ & _ & _ & _ & _ & _ & _ & _ & Hlen & _).
      exact Hlen.
    + destruct (Hf2 ltac:(congruence)) as (ts & -> & _).
      rewrite stored_records_add_toasts. reflexivity.
Qed.

(** ** Round trips through the store *)

Lemma getTodayAttendance_run (now : Z) (w : World) (l : list record) :
  Storage.getAttendanceRecords w = (Ok (JArray l), w) ->
  Storage.getTodayAttendance now w
  = (Ok (last (List.filter
                 (fun x => strict_eq (field x "date")
                                     (VStr (Utils.formatDate (Some now)))) l)), w).
Proof.
  intros Hget. unfold Storage.getTodayAttendance.
  unfold mbind at 1, M_bind at 1, bind at 1. rewrite Hget.
  unfold mbind at 1, M_bind at 1, bind at 1. simpl.
  set (today := List.filter _ l).
  destruct today as [|x today] using rev_ind; [reflexivity|].
  rewrite length_app. simpl.
  replace (length today + 1 =? 0)%nat with false by (symmetry; apply Nat.eqb_neq; lia).
  unfold ret. rewrite last_snoc.
  replace (length today + 1 - 1)%nat with (length today) by lia.
  rewrite lookup_app_r by lia. rewrite Nat.sub_diag. reflexivity.
Qed.

Lemma last_filter_snoc {A} (p : A -> bool) (l : list A) (x : A) :
  p x = true -> last (List.filter p (l ++ [ x ])) = Some x.
Proof. intros Hp. rewrite List.filter_app. simpl. rewrite Hp. apply last_snoc. Qed.

Lemma holds_array_stored (w : World) :
  holds_array w ->
  Storage.getAttendanceRecords w = (Ok (JArray (stored_records w)), w).
Proof. intros [l Hl]. rewrite (getAttendanceRecords_array _ _ Hl). exact Hl. Qed.

(** X12. Saving and reading back: over a writable store that holds an
    array, [saveAttendanceRecord] succeeds, gives the record the
    generated [id] only if it has none, and appends it; if the record is
    dated today, [getTodayAttendance] then returns exactly that record,
    as the store keeps it. *)
Theorem saveAttendanceRecord_today (r : record) (gid : string) (now : Z)
    (w : World) (l : list record) :
  Storage.getAttendanceRecords w = (Ok (JArray l), w) ->
  available (localStorage w) = true ->
  quotaExceeded (localStorage w) = false ->
  field r "date" = VStr (Utils.formatDate (Some now)) ->
  exists r1 w',
    Storage.saveAttendanceRecord r gid w = (Ok (true, r1), w')
    /\ r1 = (if truthy (field r "id") then r else <["id" := VStr gid]> r)
    /\ stored_records w' = l ++ [ json_roundtrip r1 ]
    /\ Storage.getTodayAttendance now w' = (Ok (Some (json_roundtrip r1)), w').
Proof.
  intros Hget Hav Hq Hdate.
  rewrite (saveAttendanceRecord_run _ _ _ _ Hget). cbv zeta.
  set (r1 := if negb (truthy (field r "id")) then <["id" := VStr gid]> r else r).
  rewrite setItem_run, Hav, Hq.
  eexists r1, _. split; [reflexivity|].
  pose proof (getAttendanceRecords_array _ _ Hget) as Hl.
  pose proof (stored_records_roundtrip w) as Hclean. rewrite Hl in Hclean.
  split; [unfold r1; destruct (truthy (field r "id")); reflexivity|].
  match goal with |- stored_records ?x = _ /\ _ => set (w' := x) end.
  assert (stored_records w' = l ++ [ json_roundtrip r1 ]) as Hst.
  { unfold w', stored_records. simpl. rewrite fmap_app, Hclean. reflexivity. }
  split; [exact Hst|].
  assert (holds_array w') as Harr by (eexists; reflexivity).
  rewrite (getTodayAttendance_run now w' _ (holds_array_stored w' Harr)), Hst.
  rewrite last_filter_snoc; [reflexivity|].
  apply strict_eq_true. rewrite field_json_roundtrip, <- Hdate.
  unfold r1. destruct (negb _); [|reflexivity].
  unfold field. rewrite lookup_insert_ne by discriminate. reflexivity.
Qed.

Lemma saveAttendanceRecord_today_witness :
  exists r1 w',
    Storage.saveAttendanceRecord Sample.queued "g" (Sample.page [] None) = (Ok (true, r1), w')
    /\ Storage.getTodayAttendance Sample.t_again w' = (Ok (Some (json_roundtrip r1)), w').
Proof.
  destruct (saveAttendanceRecord_today Sample.queued "g" Sample.t_again
              (Sample.page [] None) [] eq_refl eq_refl eq_refl
              ltac:(vm_compute; reflexivity))
    as (r1 & w' & Hsave & _ & _ & Htoday).
  exists r1, w'. split; [exact Hsave | exact Htoday].
Defined.

Lemma filter_clean (p : record -> bool) (l : list record) :
  json_roundtrip <$> l = l ->
  json_roundtrip <$> List.filter p l = List.filter p l.
Proof.
  induction l as [|a l IH]; [reflexivity|]. cbn [fmap list_fmap List.filter].
  intros [= Ha Hl]. destruct (p a); cbn [fmap list_fmap]; [rewrite Ha|]; rewrite IH; auto.
Qed.

(** X13. Over a writable store that holds an array,
    [deleteAttendanceRecord(id)] succeeds and removes every record with
    that [id], all of them if several share it, and nothing else: the
    others stay, in their order. A later update of that [id] finds
    nothing. The cached record of today and the offline queue are not
    touched, so they may still hold the deleted record. *)
Theorem deleteAttendanceRecord_removes (rid : value) (w : World) (l : list record) :
  Storage.getAttendanceRecords w = (Ok (JArray l), w) ->
  available (localStorage w) = true ->
  quotaExceeded (localStorage w) = false ->
  exists w',
    Storage.deleteAttendanceRecord rid w = (Ok true, w')
    /\ stored_records w'
       = List.filter (fun r => negb (strict_eq (field r "id") rid)) l
    /\ (forall r, r ∈ stored_records w' <-> r ∈ l /\ field r "id" <> rid)
    /\ (forall updates, Storage.updateAttendanceRecord rid updates w' = (Ok false, w'))
    /\ todayRecord w' = todayRecord w
    /\ offlineQueue w' = offlineQueue w
    /\ toasts w' = toasts w.
Proof.
  intros Hget Hav Hq. unfold Storage.deleteAttendanceRecord.
  unfold mbind at 1, M_bind at 1, bind at 1. rewrite Hget.
  unfold mbind at 1, M_bind at 1, bind at 1. simpl as_array. unfold ret at 1.
  rewrite setItem_run, Hav, Hq. eexists. split; [reflexivity|].
  pose proof (getAttendanceRecords_array _ _ Hget) as Hl.
  pose proof (stored_records_roundtrip w) as Hclean. rewrite Hl in Hclean.
  match goal with |- stored_records ?x = _ /\ _ => set (w' := x) end.
  assert (stored_records w'
          = List.filter (fun r => negb (strict_eq (field r "id") rid)) l) as Hst.
  { unfold w', stored_records. simpl. apply filter_clean. exact Hclean. }
  assert (forall r, r ∈ stored_records w' <-> r ∈ l /\ field r "id" <> rid) as Hin.
  { intros r. rewrite Hst, list_elem_of_In, filter_In, <- list_elem_of_In.
    rewrite negb_true_iff, strict_eq_false. reflexivity. }
  split; [exact Hst|]. split; [exact Hin|].
  split; [|repeat split].
  intros updates.
  assert (holds_array w') as Harr by (eexists; reflexivity).
  rewrite (updateAttendanceRecord_run _ _ _ _ (holds_array_stored w' Harr)).
  replace (findIndex _ (stored_records w')) with (@None nat); [reflexivity|].
  symmetry. apply findIndex_None. intros x Hx. apply strict_eq_false.
  apply Hin in Hx. tauto.
Qed.

Lemma deleteAttendanceRecord_removes_witness :
  exists w',
    Storage.deleteAttendanceRecord (VStr "a") Sample.page_waiting = (Ok true, w')
    /\ (forall r, r ∈ stored_records w' -> field r "id" <> VStr "a")
    /\ offlineQueue w' = [ Sample.queued ].
Proof.
  destruct (deleteAttendanceRecord_removes (VStr "a") Sample.page_waiting _
              eq_refl eq_refl eq_refl)
    as (w' & Hrun & _ & Hin & _ & _ & Hq & _).
  exists w'. split; [exact Hrun|]. split; [|exact Hq].
  intros r Hr. exact (proj2 (proj1 (Hin r) Hr)).
Defined.



(** ** A time-in, seen from the store and the dashboard *)

Lemma findIndex_app_fresh {A} (p : A -> bool) (l : list A) (x : A) :
  (forall y, y ∈ l -> p y = false) -> p x = true ->
  findIndex p (l ++ [ x ]) = Some (length l).
Proof.
  intros Hl Hx. induction l as [|a l IH]; simpl.
  - rewrite Hx. reflexivity.
  - rewrite (Hl a) by left. rewrite IH; [reflexivity|].
    intros y Hy. apply Hl. by right.
Qed.

Lemma attendanceRecord_id (cfg : Config) (env : Env) (user : User)
    (faceVerified : bool) (photoData : value) :
  field (Attendance.attendanceRecord cfg env user faceVerified photoData) "id"
  = VStr (generateId env 0)
  /\ field (Attendance.attendanceRecord cfg env user faceVerified photoData) "synced"
     = VBool false.
Proof. split; reflexivity. Qed.

(** X15. A saved time-in whose generated [id] is non-empty and not yet
    in the store appends one record that agrees with the cached record
    of today on everything but [synced]; its [synced] flag is [true]
    exactly when the browser was online, and the record joins the
    offline queue exactly when it was offline. *)
Theorem handleTimeIn_synced_flag (cfg : Config) (env : Env) (w w' : World) :
  Attendance.handleTimeIn cfg env w = (Ok Attendance.Saved, w') ->
  generateId env 0 <> "" ->
  (forall x, x ∈ stored_records w -> field x "id" <> VStr (generateId env 0)) ->
  exists r new,
    todayRecord w' = Some r
    /\ field r "id" = VStr (generateId env 0)
    /\ stored_records w' = stored_records w ++ [ new ]
    /\ (forall k, k <> "synced" -> field new k = field r k)
    /\ field new "synced" = VBool (onLine env)
    /\ offlineQueue w' = offlineQueue w ++ (if onLine env then [] else [ r ]).
Proof.
  intros Hrun Hid Hfresh.
  destruct (handleTimeIn_run cfg env w) as (o & ts & Hface & Heq).
  rewrite Heq in Hrun. clear Heq.
  destruct (isAuthenticated env); [|discriminate]. cbn [negb] in Hrun.
  destruct (validateGeofence env); [|discriminate]. cbn [negb] in Hrun.
  cbv zeta in Hrun. set (w1 := add_toasts (locationToasts env ++ ts) w) in *.
  destruct o as [[faceVerified photoData]|]; [|discriminate].
  destruct (currentUser env) as [user|]; [|discriminate].
  set (r0 := Attendance.attendanceRecord cfg env user faceVerified photoData) in *.
  destruct (attendanceRecord_id cfg env user faceVerified photoData) as [Hr0id Hr0s].
  fold r0 in Hr0id, Hr0s.
  destruct (getAttendanceRecords_run w) as [[l|] Hget].
  2:{ rewrite (saveAttendanceRecord_throw r0 _ w1) in Hrun
        by (apply (getAttendanceRecords_ext w); [reflexivity | exact Hget]).
      discriminate. }
  pose proof (getAttendanceRecords_ext w w1 _ eq_refl Hget) as Hget1.
  pose proof (getAttendanceRecords_array _ _ Hget) as Hl. rewrite Hl in *.
  pose proof (stored_records_roundtrip w) as Hclean. rewrite Hl in Hclean.
  rewrite (saveAttendanceRecord_run _ _ _ _ Hget1) in Hrun. cbv zeta in Hrun.
  assert (truthy (field r0 "id") = true) as Htr.
  { rewrite Hr0id. simpl. apply negb_true_iff, String.eqb_neq. exact Hid. }
  rewrite Htr in Hrun. cbn [negb] in Hrun.
  rewrite setItem_run in Hrun. change (localStorage w1) with (localStorage w) in Hrun.
  destruct (available (localStorage w)) eqn:Hav; [|discriminate].
  destruct (quotaExceeded (localStorage w)) eqn:Hq; [discriminate|].
  injection Hrun as <-.
  unfold sync_or_queue. destruct (onLine env).
  - match goal with |- context [Attendance.syncAttendance r0 ?x] => set (w2 := x) end.
    assert (Storage.getAttendanceRecords w2
            = (Ok (JArray (l ++ [ json_roundtrip r0 ])), w2)) as Hget2.
    { unfold w2, committed, Storage.getAttendanceRecords, Storage.getItem,
        Storage.isLocalStorageAvailable. munfold. simpl.
      rewrite fmap_app, Hclean. reflexivity. }
    assert (Attendance.syncAttendance r0 w2
            = (Ok tt,
               {| localStorage :=
                    {| available := true; quotaExceeded := false;
                       attendance :=
                         Some (JArray (l ++ [ spread (json_roundtrip r0)
                                                {[ "synced" := VBool true ]} ])) |};
                  toasts := toasts w2; todayRecord := todayRecord w2;
                  offlineQueue := offlineQueue w2 |})) as Hsync.
    { unfold Attendance.syncAttendance, try_catch.
      unfold mbind at 1, M_bind at 1, bind at 1.
      rewrite (updateAttendanceRecord_run _ _ _ _ Hget2).
      rewrite findIndex_app_fresh.
      2:{ intros y Hy. apply strict_eq_false. rewrite Hr0id. apply Hfresh. exact Hy. }
      2:{ apply strict_eq_true. rewrite field_json_roundtrip. reflexivity. }
      rewrite lookup_app_r by lia. rewrite Nat.sub_diag. cbn [lookup list_lookup].
      rewrite setItem_run. cbn [localStorage w2 committed available quotaExceeded].
      rewrite insert_app_r_alt by lia. rewrite Nat.sub_diag. reflexivity. }
    rewrite Hsync. cbn [snd].
    exists r0, (json_roundtrip (spread (json_roundtrip r0) {[ "synced" := VBool true ]})).
    split; [reflexivity|]. split; [exact Hr0id|]. split.
    + unfold stored_records. simpl. rewrite fmap_app, Hclean. reflexivity.
    + split; [|split; [|cbn; rewrite app_nil_r; reflexivity]].
      * intros k Hk. rewrite field_json_roundtrip, field_spread.
        rewrite lookup_singleton_ne by congruence. cbn. apply field_json_roundtrip.
      * rewrite field_json_roundtrip, field_spread, lookup_singleton_eq. reflexivity.
  - rewrite addToOfflineQueue_run. cbn [snd].
    exists r0, (json_roundtrip r0).
    split; [reflexivity|]. split; [exact Hr0id|]. split.
    + unfold stored_records. simpl. rewrite fmap_app, Hclean. reflexivity.
    + split; [intros; apply field_json_roundtrip|].
      split; [rewrite field_json_roundtrip; exact Hr0s | reflexivity].
Qed.

Lemma handleTimeIn_synced_flag_witness :
  let env := Sample.env_at Sample.t_in false in
  let w' := (Attendance.handleTimeIn CONFIG env (Sample.page [] None)).2 in
  exists r new,
    stored_records w' = [ new ]
    /\ field new "synced" = VBool false
    /\ offlineQueue w' = [ r ].
Proof.
  intros env w'.
  destruct (handleTimeIn_synced_flag CONFIG env (Sample.page [] None) w')
    as (r & new & _ & _ & Hst & _ & Hs & Hq).
  - vm_compute. reflexivity.
  - discriminate.
  - intros x Hx. vm_compute in Hx. inversion Hx.
  - exists r, new. split; [exact Hst|]. split; [exact Hs | exact Hq].
Defined.

Lemma last_filter_last {A} (p : A -> bool) (l : list A) (x : A) :
  last l = Some x -> p x = true -> last (List.filter p l) = Some x.
Proof.
  intros Hlast Hp. destruct l as [|y l] using rev_ind; [discriminate|].
  rewrite last_snoc in Hlast. injection Hlast as ->. apply last_filter_snoc. exact Hp.
Qed.

(** A saved time-in leaves the cache in step with the store for the
    rest of the local day: the record it has cached is the latest record
    of that date, which the store holds with [synced] set if the record
    has been synced. *)
Lemma handleTimeIn_in_step (cfg : Config) (env env' : Env) (w w' : World) :
  Attendance.handleTimeIn cfg env w = (Ok Attendance.Saved, w') ->
  Day (now env') = Day (now env) ->
  cache_in_step env' w' (stored_records w').
Proof.
  intros Hrun Hday.
  destruct (handleTimeIn_saved cfg env w w' Hrun)
    as (user & fv & pd & r & new & _ & _ & _ & Hr & Hcached & Hlen & Hlast & Hnew & _).
  destruct (attendanceRecord_fields cfg env user fv pd) as (_ & _ & _ & _ & Hdate).
  assert (holds_array w') as Harr.
  { destruct (handleTimeIn_store cfg env w) as [Hls|[_ Ha]]; rewrite Hrun in *.
    - exfalso. pose proof (stored_records_ext w w' Hls) as Hsame.
      cbn [snd] in Hsame. rewrite Hsame in Hlen. lia.
    - exact Ha. }
  split; [apply holds_array_stored, Harr|].
  rewrite Hcached. unfold latest_today.
  rewrite (last_filter_last _ _ new Hlast).
  - intros k Hk. symmetry. apply Hnew, Hk.
  - apply strict_eq_true. rewrite Hnew, Hr by discriminate. rewrite Hdate.
    f_equal. symmetry. apply formatDate_Day. exact Hday.
Qed.

(** X16. After a saved time-in the dashboard shows it for the rest of
    the local day: [getTodayAttendance] returns the record just stored,
    which is the last of the store, the status card reads 'Checked In',
    and the work-hours card shows the time elapsed since the time-in. *)
Theorem dashboard_after_timeIn (toISOString : Z -> string) (cfg : Config) (env : Env)
    (w w' : World) (later : Z) :
  Attendance.handleTimeIn cfg env w = (Ok Attendance.Saved, w') ->
  Day later = Day (now env) ->
  exists r,
    Storage.getTodayAttendance later w' = (Ok (Some r), w')
    /\ last (stored_records w') = Some r
    /\ Dashboard.todayStatus (Some r) = "Checked In"
    /\ Dashboard.workHours toISOString (Some r) later
       = Utils.total (Utils.calculateTimeDifference (Some (now env)) (Some later)).
Proof.
  intros Hrun Hday.
  destruct (handleTimeIn_saved cfg env w w' Hrun)
    as (user & fv & pd & r & new & _ & _ & _ & Hr & _ & _ & Hlast & Hnew & _).
  destruct (attendanceRecord_fields cfg env user fv pd) as (_ & Hout & Hin & _ & Hdate).
  assert (forall k, k <> "synced" -> k <> "id" ->
            field new k = field (Attendance.attendanceRecord cfg env user fv pd) k) as Hf.
  { intros k H1 H2. rewrite Hnew, Hr; auto. }
  assert (holds_array w') as Harr.
  { destruct (handleTimeIn_store cfg env w) as [Hls|[_ Ha]]; rewrite Hrun in *.
    - exfalso. pose proof (stored_records_ext w w' Hls) as Hsame.
      destruct (handleTimeIn_saved cfg env w w' Hrun)
        as (_ & _ & _ & _ & _ & _ & _ & _ & _ & _ & Hlen & _).
      cbn [snd] in Hsame. rewrite Hsame in Hlen. lia.
    - exact Ha. }
  exists new.
  rewrite (getTodayAttendance_run later w' _ (holds_array_stored w' Harr)).
  split; [|split; [exact Hlast|split]].
  - rewrite (last_filter_last _ _ new Hlast); [reflexivity|].
    apply strict_eq_true. rewrite Hf by discriminate. rewrite Hdate.
    f_equal. symmetry. apply formatDate_Day. exact Hday.
  - unfold Dashboard.todayStatus. rewrite Hf by discriminate. rewrite Hout. reflexivity.
  - unfold Dashboard.workHours.
    rewrite !Hf by discriminate. rewrite Hout, Hin. reflexivity.
Qed.

Lemma dashboard_after_timeIn_witness :
  let env := Sample.env_at Sample.t_in true in
  let w' := (Attendance.handleTimeIn CONFIG env (Sample.page [] None)).2 in
  exists r,
    Storage.getTodayAttendance Sample.t_out w' = (Ok (Some r), w')
    /\ Dashboard.todayStatus (Some r) = "Checked In"
    /\ Dashboard.workHours (fun _ => "") (Some r) Sample.t_out = "3h 0m".
Proof.
  intros env w'.
  destruct (dashboard_after_timeIn (fun _ => "") CONFIG env (Sample.page [] None) w'
              Sample.t_out ltac:(vm_compute; reflexivity) ltac:(vm_compute; reflexivity))
    as (r & Hget & _ & Hstatus & Hhours).
  exists r. split; [exact Hget|]. split; [exact Hstatus | exact Hhours].
Defined.

(** ** The monthly summary is always there and its counts fit together *)

Lemma count_disjoint (p q : record -> bool) (l : list record) :
  (forall r, p r = true -> q r = true -> False) ->
  (count p l + count q l <= length l)%nat.
Proof.
  intros Hpq. unfold count. induction l as [|a l IH]; simpl; [lia|].
  destruct (p a) eqn:Hp, (q a) eqn:Hq; simpl; try lia.
  exfalso. eauto.
Qed.

Lemma latest_records_length (monthly : list record) :
  (length (latest_records monthly) <= length monthly)%nat.
Proof.
  destruct (latest_records_spec monthly) as (Hd & Hnd & _).
  assert (length (latest_records monthly) = length (dates_of (latest_records monthly)))
    as -> by (unfold dates_of; rewrite length_fmap; reflexivity).
  rewrite Hd.
  assert (length monthly = length (dates_of monthly)) as ->
    by (unfold dates_of; rewrite length_fmap; reflexivity).
  apply submseteq_length, NoDup_submseteq; [apply NoDup_unique|].
  intros d. apply elem_of_unique.
Qed.

(** X17. Over a store that holds an array, [getStatistics] always
    returns a summary, leaving the page as it was, and its counts fit
    together: the days present and the days late together never exceed
    the days counted, nor do the early leaves, and no more days are
    counted than the month has records; a month without records gives
    the all-zero summary with rate 0. Over a store that holds something
    else than an array, [getStatistics] throws. *)
Theorem getStatistics_counts (env : Env) (w : World) :
  (forall l, Storage.getAttendanceRecords w = (Ok (JArray l), w) ->
     exists s, Attendance.getStatistics env w = (Ok s, w)
       /\ (Attendance.presentDays s + Attendance.lateDays s
           <= Attendance.totalDays s)%nat
       /\ (Attendance.earlyLeaveDays s <= Attendance.totalDays s)%nat
       /\ (Attendance.totalDays s <= length (monthly_records l (now env)))%nat
       /\ (monthly_records l (now env) = [] ->
           s = {| Attendance.totalDays := 0; Attendance.presentDays := 0;
                  Attendance.lateDays := 0; Attendance.earlyLeaveDays := 0;
                  Attendance.totalWorkHours := Some 0;
                  Attendance.totalWorkMinutes := Some 0;
                  Attendance.attendanceRate := Some 0 |}))
  /\ (Storage.getAttendanceRecords w = (Ok JOther, w) ->
      Attendance.getStatistics env w = (Throw, w)).
Proof.
  split.
  - intros l Hget. eexists. split; [apply (getStatistics_run env w l Hget)|].
    cbn [Attendance.presentDays Attendance.lateDays Attendance.totalDays
         Attendance.earlyLeaveDays].
    split; [|split; [|split]].
    + apply count_disjoint. intros r H1 H2.
      apply strict_eq_true in H1, H2. rewrite H1 in H2. discriminate H2.
    + apply count_le_length.
    + apply latest_records_length.
    + intros ->. reflexivity.
  - intros Hget. unfold Attendance.getStatistics.
    unfold mbind at 1, M_bind at 1, bind at 1. rewrite Hget. reflexivity.
Qed.

Lemma findIndex_ids (rid : value) (l l' : list record) :
  ids_of l = ids_of l' ->
  findIndex (fun r => strict_eq (field r "id") rid) l
  = findIndex (fun r => strict_eq (field r "id") rid) l'.
Proof.
  revert l'. induction l as [|a l IH]; intros [|a' l'] H; try discriminate; [reflexivity|].
  unfold ids_of in H. cbn [fmap list_fmap] in H. injection H as Ha Hl.
  simpl. rewrite Ha. destruct (strict_eq (field a' "id") rid); [reflexivity|].
  rewrite (IH l' Hl). reflexivity.
Qed.

Lemma mark_synced_spec (rid : value) (l : list record) :
  ids_of (mark_synced rid l) = ids_of l
  /\ (forall j x, l !! j = Some x ->
        exists y, mark_synced rid l !! j = Some y
          /\ (forall k, k <> "synced" -> field y k = field x k)
          /\ (field x "synced" = VBool true -> field y "synced" = VBool true))
  /\ (forall i, findIndex (fun r => strict_eq (field r "id") rid) l = Some i ->
        exists y, mark_synced rid l !! i = Some y /\ field y "synced" = VBool true).
Proof.
  unfold mark_synced.
  destruct (findIndex _ l) as [i|] eqn:Hfind.
  2:{ split; [reflexivity|]. split; [|discriminate]. intros j x Hx. eauto. }
  destruct (findIndex_Some _ _ _ Hfind) as (old & Hi & _). rewrite Hi.
  set (new := json_roundtrip (spread old {[ "synced" := VBool true ]})).
  assert (forall k, k <> "synced" -> field new k = field old k) as Hnew.
  { intros k Hk. unfold new. rewrite field_json_roundtrip, field_spread.
    rewrite lookup_singleton_ne by congruence. reflexivity. }
  assert (field new "synced" = VBool true) as Hs.
  { unfold new. rewrite field_json_roundtrip, field_spread, lookup_singleton_eq.
    reflexivity. }
  split; [|split].
  - unfold ids_of. rewrite list_fmap_insert. rewrite Hnew by discriminate.
    apply list_insert_id. rewrite list_lookup_fmap, Hi. reflexivity.
  - intros j x Hx. destruct (decide (j = i)) as [->|Hji].
    + rewrite Hi in Hx. injection Hx as <-. exists new.
      rewrite list_lookup_insert_eq by (eapply lookup_lt_Some; eauto). auto.
    + exists x. rewrite list_lookup_insert_ne by auto. auto.
  - intros i' [= <-]. exists new.
    rewrite list_lookup_insert_eq by (eapply lookup_lt_Some; eauto). auto.
Qed.

Lemma marks_spec (q : list record) :
  forall l : list record,
    let l' := foldl (fun l r => mark_synced (field r "id") l) l q in
    ids_of l' = ids_of l
    /\ (forall j x, l !! j = Some x ->
          exists y, l' !! j = Some y
            /\ (forall k, k <> "synced" -> field y k = field x k)
            /\ (field x "synced" = VBool true -> field y "synced" = VBool true))
    /\ (forall r i, r ∈ q ->
          findIndex (fun x => strict_eq (field x "id") (field r "id")) l = Some i ->
          exists y, l' !! i = Some y /\ field y "synced" = VBool true).
Proof.
  induction q as [|a q IH]; intros l; cbn [foldl].
  - split; [reflexivity|]. split; [eauto|]. intros r i Hr. inversion Hr.
  - destruct (mark_synced_spec (field a "id") l) as (Hids & Hkeep & Hmark).
    destruct (IH (mark_synced (field a "id") l)) as (Hids' & Hkeep' & Hmark').
    cbv zeta in *. split; [congruence|]. split.
    + intros j x Hx. destruct (Hkeep j x Hx) as (y & Hy & Hf & Hs).
      destruct (Hkeep' j y Hy) as (z & Hz & Hf' & Hs').
      exists z. split; [exact Hz|]. split.
      * intros k Hk. rewrite Hf', Hf; auto.
      * auto.
    + intros r i Hr Hfind. apply elem_of_cons in Hr as [->|Hr].
      * destruct (Hmark i Hfind) as (y & Hy & Hs).
        destruct (Hkeep' i y Hy) as (z & Hz & _ & Hs'). eauto.
      * apply (Hmark' r i Hr). rewrite <- Hfind. apply findIndex_ids. exact Hids.
Qed.

Lemma writable_ext (w w' : World) (l : list record) :
  localStorage w' = localStorage w -> writable w l -> writable w' l.
Proof.
  intros H (Hget & Hav & Hq). unfold writable. rewrite H.
  split; [apply (getAttendanceRecords_ext w w' _ H Hget) | auto].
Qed.

Lemma writable_clean (w : World) (l : list record) :
  writable w l -> json_roundtrip <$> l = l.
Proof.
  intros (Hget & _). pose proof (stored_records_roundtrip w) as H.
  rewrite (getAttendanceRecords_array _ _ Hget) in H. exact H.
Qed.

Lemma mark_synced_clean (rid : value) (l : list record) :
  json_roundtrip <$> l = l ->
  json_roundtrip <$> mark_synced rid l = mark_synced rid l.
Proof.
  intros Hl. unfold mark_synced.
  destruct (findIndex _ l) as [i|]; [|exact Hl].
  destruct (l !! i) as [old|]; [|exact Hl].
  rewrite list_fmap_insert, Hl, json_roundtrip_idemp. reflexivity.
Qed.

Lemma syncAttendance_writable (r : record) (w : World) (l : list record) :
  writable w l ->
  exists w', Attendance.syncAttendance r w = (Ok tt, w')
    /\ writable w' (mark_synced (field r "id") l)
    /\ toasts w' = toasts w
    /\ todayRecord w' = todayRecord w
    /\ offlineQueue w' = offlineQueue w.
Proof.
  intros Hw. pose proof (writable_clean w l Hw) as Hclean.
  destruct Hw as (Hget & Hav & Hq).
  unfold Attendance.syncAttendance, try_catch.
  unfold mbind at 1, M_bind at 1, bind at 1.
  rewrite (updateAttendanceRecord_run _ _ _ _ Hget). unfold mark_synced.
  destruct (findIndex _ l) as [i|]; [|eexists; split; [reflexivity|];
    repeat split; assumption].
  destruct (l !! i) as [old|]; [|eexists; split; [reflexivity|];
    repeat split; assumption].
  rewrite setItem_run, Hav, Hq. eexists. split; [reflexivity|].
  split; [|repeat split]. unfold writable. cbn [localStorage available quotaExceeded].
  split; [|auto].
  unfold Storage.getAttendanceRecords, Storage.getItem, Storage.isLocalStorageAvailable.
  munfold. cbn. rewrite list_fmap_insert, Hclean. reflexivity.
Qed.

Lemma drain_loop_writable (q : list record) (w : World) (l : list record) :
  writable w l ->
  exists w', drain_loop q w = (Ok tt, w')
    /\ writable w' (foldl (fun l r => mark_synced (field r "id") l) l q)
    /\ toasts w' = toasts w
    /\ todayRecord w' = todayRecord w
    /\ offlineQueue w' = offlineQueue w.
Proof.
  revert w l. induction q as [|r q IH]; intros w l Hw.
  - exists w. split; [reflexivity|]. split; [exact Hw|]. auto.
  - unfold drain_loop. cbn [for_of]. fold (drain_loop q).
    unfold mbind at 1, M_bind at 1, bind at 1.
    destruct (syncAttendance_writable r w l Hw) as (w1 & Hsync & Hw1 & Ht & Hc & Hq).
    unfold try_catch at 1. rewrite Hsync.
    destruct (IH w1 _ Hw1) as (w' & Hloop & Hw' & Ht' & Hc' & Hq').
    exists w'. split; [exact Hloop|]. cbn [foldl].
    split; [exact Hw'|]. repeat split; congruence.
Qed.

(** X18. Draining a non-empty offline queue over a writable store that
    holds an array: the pass ends with the queue empty and the success
    toast as the only toast added; no record is added, removed or moved,
    no property but [synced] changes and no [synced: true] is taken
    back; and for every queued record whose [id] is in the store, the
    first stored record with that [id] is marked [synced: true]. *)
Theorem syncOfflineQueue_marks (w : World) (l : list record) :
  writable w l ->
  offlineQueue w <> [] ->
  exists w',
    Attendance.syncOfflineQueue w = (Ok tt, w')
    /\ offlineQueue w' = []
    /\ toasts w'
       = toasts w ++ [ mkToast "All offline records synced successfully" "success" ]
    /\ todayRecord w' = todayRecord w
    /\ length (stored_records w') = length l
    /\ (forall j x, l !! j = Some x ->
          exists y, stored_records w' !! j = Some y
            /\ (forall k, k <> "synced" -> field y k = field x k)
            /\ (field x "synced" = VBool true -> field y "synced" = VBool true))
    /\ (forall r i, r ∈ offlineQueue w ->
          findIndex (fun x => strict_eq (field x "id") (field r "id")) l = Some i ->
          exists y, stored_records w' !! i = Some y /\ field y "synced" = VBool true).
Proof.
  intros Hw Hne. rewrite syncOfflineQueue_unfold.
  destruct (offlineQueue w) as [|r q] eqn:Hq; [congruence|]. cbn [length Nat.eqb].
  match goal with |- context [drain_loop _ ?w0] =>
    destruct (drain_loop_writable (r :: q) w0 l (writable_ext w w0 l eq_refl Hw))
      as (w' & Hloop & Hw' & Ht & Hc & Hq')
  end.
  rewrite Hloop. cbn [offlineQueue] in Hq'. rewrite Hq'. cbn [length Nat.eqb].
  eexists. split; [reflexivity|].
  destruct (marks_spec (r :: q) l) as (Hids & Hkeep & Hmark). cbv zeta in *.
  destruct Hw' as (Hget' & _).
  pose proof (getAttendanceRecords_array _ _ Hget') as Hst.
  rewrite stored_records_add_toasts, Hst.
  cbn [offlineQueue toasts todayRecord add_toasts].
  split; [exact Hq'|]. split; [rewrite Ht; reflexivity|]. split; [exact Hc|].
  split; [|split; [exact Hkeep | exact Hmark]].
  apply (f_equal length) in Hids. unfold ids_of in Hids. rewrite !length_fmap in Hids.
  exact Hids.
Qed.

Lemma syncOfflineQueue_marks_witness :
  exists w' y,
    Attendance.syncOfflineQueue Sample.page_waiting = (Ok tt, w')
    /\ offlineQueue w' = []
    /\ stored_records w' !! 0%nat = Some y
    /\ field y "synced" = VBool true.
Proof.
  destruct (syncOfflineQueue_marks Sample.page_waiting _
              ltac:(split; [reflexivity | split; reflexivity]) ltac:(discriminate))
    as (w' & Hrun & Hq & _ & _ & _ & _ & Hmark).
  destruct (Hmark Sample.queued 0%nat ltac:(left) ltac:(vm_compute; reflexivity))
    as (y & Hy & Hs).
  exists w', y. split; [exact Hrun|]. split; [exact Hq|]. split; [exact Hy | exact Hs].
Defined.

(** ** What the patterns accept *)

Import RegExp.

Lemma nullable_matches (r : regex) : nullable r = true <-> matches r "".
Proof.
  induction r as [|[a|a|a] r IH]; simpl.
  - split; [constructor | reflexivity].
  - split; [discriminate | intros H; inversion H].
  - split; [discriminate | intros H; inversion H].
  - rewrite IH. split; [apply matches_skip | intros H; inversion H; assumption].
Qed.

Ltac invert_matches H :=
  let a := fresh "a" in let rest := fresh "rest" in
  let c := fresh "c" in let s := fresh "s" in
  let Ha := fresh "Ha" in let Hm := fresh "Hm" in
  inversion H as [ | a rest c s Ha Hm | a rest c s Ha Hm
                   | a rest s Hm | a rest c s Ha Hm ]; subst.

Lemma step_matches (c : ascii) (r : regex) (s : string) :
  matches r (String c s) <-> exists r', r' ∈ step c r /\ matches r' s.
Proof.
  induction r as [|[a|a|a] r IH]; simpl.
  - split; [intros H; inversion H | intros (r' & H & _); inversion H].
  - split.
    + intros H. invert_matches H.
      match goal with Ha : atom_ok _ _ = true |- _ => rewrite Ha end.
      exists r. split; [left | assumption].
    + intros (r' & Hin & Hm). destruct (atom_ok a c) eqn:Ha; [|inversion Hin].
      apply list_elem_of_singleton in Hin as ->. by constructor.
  - split.
    + intros H. invert_matches H.
      match goal with Ha : atom_ok _ _ = true |- _ => rewrite Ha end.
      eexists. split; [left | assumption].
    + intros (r' & Hin & Hm). destruct (atom_ok a c) eqn:Ha; [|inversion Hin].
      apply list_elem_of_singleton in Hin as ->. by constructor.
  - split.
    + intros H. invert_matches H.
      * match goal with Hm : matches r (String c s) |- _ =>
          apply IH in Hm as (r' & Hin & Hm')
        end.
        exists r'. split; [|exact Hm']. apply elem_of_app. by right.
      * match goal with Ha : atom_ok _ _ = true |- _ => rewrite Ha end.
        eexists. split; [|eassumption]. apply elem_of_app. left. left.
    + intros (r' & Hin & Hm). apply elem_of_app in Hin as [Hin|Hin].
      * destruct (atom_ok a c) eqn:Ha; [|inversion Hin].
        apply list_elem_of_singleton in Hin as ->. by apply matches_star.
      * apply matches_skip. apply IH. eauto.
Qed.

Lemma run_matches (states : list regex) (s : string) :
  run states s = true <-> exists r, r ∈ states /\ matches r s.
Proof.
  revert states. induction s as [|c s IH]; intros states; simpl.
  - rewrite existsb_exists. split.
    + intros (r & Hin & Hn). exists r. rewrite list_elem_of_In, <- nullable_matches. auto.
    + intros (r & Hin & Hm). exists r. rewrite <- list_elem_of_In, nullable_matches. auto.
  - rewrite IH. split.
    + intros (r' & Hin & Hm). apply list_elem_of_In, in_flat_map in Hin as (r & Hr & Hr').
      exists r. rewrite list_elem_of_In. split; [exact Hr|].
      apply step_matches. exists r'. rewrite list_elem_of_In. auto.
    + intros (r & Hin & Hm). apply step_matches in Hm as (r' & Hr' & Hm).
      exists r'. split; [|exact Hm]. apply list_elem_of_In, in_flat_map.
      exists r. rewrite <- !list_elem_of_In. auto.
Qed.

Lemma matches_star_split (a : atom) (rest : regex) (s : string) :
  matches (Star a :: rest) s <->
  exists u v, s = u +:+ v /\ all_ok a u = true /\ matches rest v.
Proof.
  split.
  - intros H. remember (Star a :: rest) as r eqn:Hr.
    induction H as [| | |a' rest' s' Hm _|a' rest' c s' Ha Hm IH]; try discriminate.
    + injection Hr as -> ->. exists "", s'. auto.
    + injection Hr as -> ->. destruct (IH eq_refl) as (u & v & -> & Hu & Hv).
      exists (String c u), v. split; [reflexivity|]. split; [|exact Hv].
      unfold all_ok in *. simpl. rewrite Ha, Hu. reflexivity.
  - intros (u & v & -> & Hu & Hv). induction u as [|c u IH]; simpl.
    + by apply matches_skip.
    + unfold all_ok in Hu. simpl in Hu. apply andb_prop in Hu as [Hc Hu].
      apply matches_star; [exact Hc|]. apply IH. exact Hu.
Qed.

Lemma matches_many_split (a : atom) (rest : regex) (s : string) :
  matches (Many a :: rest) s <->
  exists u v, s = u +:+ v /\ u <> "" /\ all_ok a u = true /\ matches rest v.
Proof.
  split.
  - intros H. invert_matches H.
    match goal with Hm : matches (Star _ :: _) _ |- _ =>
      apply matches_star_split in Hm as (u & v & -> & Hu & Hv)
    end.
    match goal with Ha : atom_ok a ?c = true |- _ =>
      exists (String c u), v; split; [reflexivity|]; split; [discriminate|];
      split; [|exact Hv]; unfold all_ok in *; simpl; rewrite Ha, Hu; reflexivity
    end.
  - intros (u & v & -> & Hne & Hu & Hv). destruct u as [|c u]; [congruence|].
    unfold all_ok in Hu. simpl in Hu. apply andb_prop in Hu as [Hc Hu].
    simpl. apply matches_many; [exact Hc|]. apply matches_star_split. eauto.
Qed.

Lemma matches_one_split (a : atom) (rest : regex) (s : string) :
  matches (One a :: rest) s <->
  exists c v, s = String c v /\ atom_ok a c = true /\ matches rest v.
Proof.
  split.
  - intros H. invert_matches H. eauto.
  - intros (c & v & -> & Hc & Hv). by constructor.
Qed.

Lemma matches_nil_inv (s : string) : matches [] s <-> s = "".
Proof. split; [intros H; inversion H; reflexivity | intros ->; constructor]. Qed.

Lemma append_nil_r (s : string) : s +:+ "" = s.
Proof.
  induction s as [|c s IH]; [reflexivity|].
  change (String c (s +:+ "") = String c s). rewrite IH. reflexivity.
Qed.

Lemma all_ok_address (s : string) :
  all_ok (Class true [ Space; Lit "@" ]) s
  = forallb address_char (list_ascii_of_string s).
Proof.
  unfold all_ok. induction (list_ascii_of_string s) as [|c l IH]; [reflexivity|].
  simpl. rewrite IH. f_equal. unfold address_char. simpl.
  rewrite orb_false_r. destruct (bool_decide _), (Ascii.eqb c "@"); reflexivity.
Qed.

(** X19. [validateEmail] accepts exactly the strings of the form
    name@domain.tail in which each of the three parts is non-empty and
    free of white space and of '@'. Dots may occur in any part, so a
    name, a domain or a tail may begin or end with a dot; a second '@'
    or a blank anywhere makes the address invalid. *)
Theorem validateEmail_shape (email : string) :
  Utils.validateEmail email = true <->
  exists name domain tail,
    email = name +:+ "@" +:+ domain +:+ "." +:+ tail
    /\ address_part name /\ address_part domain /\ address_part tail.
Proof.
  unfold Utils.validateEmail, test_anchored. rewrite run_matches.
  split.
  - intros (r & Hin & Hm). apply list_elem_of_singleton in Hin as ->.
    unfold Utils.email_pattern in Hm.
    apply matches_many_split in Hm as (u1 & v1 & -> & Hn1 & Hu1 & Hm).
    apply matches_one_split in Hm as (c1 & v2 & -> & Hc1 & Hm).
    apply matches_many_split in Hm as (u2 & v3 & -> & Hn2 & Hu2 & Hm).
    apply matches_one_split in Hm as (c2 & v4 & -> & Hc2 & Hm).
    apply matches_many_split in Hm as (u3 & v5 & -> & Hn3 & Hu3 & Hm).
    apply matches_nil_inv in Hm as ->.
    simpl in Hc1, Hc2. apply Ascii.eqb_eq in Hc1 as ->. apply Ascii.eqb_eq in Hc2 as ->.
    rewrite all_ok_address in Hu1, Hu2, Hu3. rewrite append_nil_r.
    exists u1, u2, u3. unfold address_part. auto 10.
  - intros (u1 & u2 & u3 & -> & [Hn1 Hu1] & [Hn2 Hu2] & [Hn3 Hu3]).
    exists Utils.email_pattern. split; [left|]. unfold Utils.email_pattern.
    rewrite <- all_ok_address in Hu1, Hu2, Hu3.
    apply matches_many_split. exists u1, ("@" +:+ u2 +:+ "." +:+ u3).
    split; [reflexivity|]. split; [exact Hn1|]. split; [exact Hu1|].
    apply matches_one_split. exists "@"%char, (u2 +:+ "." +:+ u3).
    split; [reflexivity|]. split; [reflexivity|].
    apply matches_many_split. exists u2, ("." +:+ u3).
    split; [reflexivity|]. split; [exact Hn2|]. split; [exact Hu2|].
    apply matches_one_split. exists "."%char, u3.
    split; [reflexivity|]. split; [reflexivity|].
    apply matches_many_split. exists u3, "".
    split; [by rewrite append_nil_r|]. split; [exact Hn3|]. split; [exact Hu3|].
    constructor.
Qed.

Lemma all_ok_any (s : string) : all_ok any s = true.
Proof. unfold all_ok. induction (list_ascii_of_string s); simpl; auto. Qed.

Lemma matches_star_any (s : string) : matches [ Star any ] s.
Proof.
  apply matches_star_split. exists s, "". rewrite append_nil_r.
  split; [reflexivity|]. split; [apply all_ok_any | constructor].
Qed.

Lemma in_string_split (c : ascii) (s : string) :
  In c (list_ascii_of_string s) <-> exists u v, s = u +:+ String c v.
Proof.
  induction s as [|d s IH]; simpl.
  - split; [tauto|]. intros ([|? ?] & v & H); discriminate H.
  - rewrite IH. split.
    + intros [->|(u & v & ->)]; [exists "", s; reflexivity|].
      exists (String d u), v. reflexivity.
    + intros ([|e u] & v & H); injection H as -> ->; eauto.
Qed.

Lemma test_class (items : list item) (s : string) :
  test [ One (Class false items) ] s
  = has_char (fun c => existsb (fun i => item_ok i c) items) s.
Proof.
  apply eq_true_iff_eq. unfold test, has_char.
  rewrite run_matches, existsb_exists. split.
  - intros (r & Hin & Hm). apply list_elem_of_singleton in Hin as ->.
    apply matches_star_split in Hm as (u & v & -> & _ & Hm).
    cbn [app] in Hm. apply matches_one_split in Hm as (c & v' & -> & Hc & _).
    exists c. split; [apply in_string_split; eauto | exact Hc].
  - intros (c & Hin & Hc). apply in_string_split in Hin as (u & v & ->).
    eexists. split; [left|]. apply matches_star_split.
    exists u, (String c v). split; [reflexivity|]. split; [apply all_ok_any|].
    cbn [app]. apply matches_one; [exact Hc | apply matches_star_any].
Qed.

Lemma has_char_ext (p q : ascii -> bool) (s : string) :
  (forall c, p c = q c) -> has_char p s = has_char q s.
Proof.
  intros H. unfold has_char. induction (list_ascii_of_string s) as [|c l IH];
    simpl; [reflexivity|]. rewrite H, IH. reflexivity.
Qed.

Lemma ascii_cases (P : ascii -> Prop) :
  (forall n : nat, (n < 256)%nat -> P (ascii_of_nat n)) -> forall c, P c.
Proof.
  intros H c. rewrite <- (ascii_nat_embedding c). apply H. apply nat_ascii_bounded.
Qed.

Lemma special_chars_ok (c : ascii) :
  existsb (fun i => item_ok i c) Utils.special_chars = is_special c.
Proof.
  revert c. apply ascii_cases. intros n Hn.
  assert (forallb (fun n => Bool.eqb
            (existsb (fun i => item_ok i (ascii_of_nat n)) Utils.special_chars)
            (is_special (ascii_of_nat n))) (seq 0 256) = true) as Ht
    by (vm_compute; reflexivity).
  rewrite forallb_forall in Ht. apply Bool.eqb_prop, Ht, in_seq. lia.
Qed.

Lemma append_assoc (a b c : string) : (a +:+ b) +:+ c = a +:+ (b +:+ c).
Proof.
  induction a as [|d a IH]; [reflexivity|].
  change (String d ((a +:+ b) +:+ c) = String d (a +:+ (b +:+ c))).
  rewrite IH. reflexivity.
Qed.

Lemma has_char_app (p : ascii -> bool) (s extra : string) :
  has_char p s = true -> has_char p (s +:+ extra) = true.
Proof.
  unfold has_char. rewrite !existsb_exists. intros (c & Hin & Hc).
  exists c. split; [|exact Hc]. apply in_string_split in Hin as (u & v & ->).
  apply in_string_split. exists u, (v +:+ extra).
  rewrite append_assoc. reflexivity.
Qed.

Lemma length_append (s t : string) :
  String.length (s +:+ t) = (String.length s + String.length t)%nat.
Proof.
  induction s as [|c s IH]; [reflexivity|].
  change (String c s +:+ t) with (String c (s +:+ t)). simpl. rewrite IH. reflexivity.
Qed.

Lemma validatePassword_valid (password : string) (rules : Utils.PasswordRules) :
  Utils.isValid (Utils.validatePassword password rules) = true <->
  default 6 (Utils.minLength rules) <= Z.of_nat (String.length password)
  /\ (default false (Utils.requireUppercase rules) = true ->
      has_char is_upper password = true)
  /\ (default false (Utils.requireLowercase rules) = true ->
      has_char is_lower password = true)
  /\ (default false (Utils.requireNumbers rules) = true ->
      has_char is_number password = true)
  /\ (default false (Utils.requireSpecialChars rules) = true ->
      has_char is_special password = true).
Proof.
  unfold Utils.validatePassword. cbn [Utils.isValid].
  rewrite !test_class.
  rewrite (has_char_ext (fun c => existsb (fun i => item_ok i c) [ Range "A" "Z" ])
             is_upper) by (intros c; simpl; apply orb_false_r).
  rewrite (has_char_ext (fun c => existsb (fun i => item_ok i c) [ Range "a" "z" ])
             is_lower) by (intros c; simpl; apply orb_false_r).
  rewrite (has_char_ext (fun c => existsb (fun i => item_ok i c) [ Digit ])
             is_number) by (intros c; simpl; apply orb_false_r).
  rewrite (has_char_ext (fun c => existsb (fun i => item_ok i c) Utils.special_chars)
             is_special) by apply special_chars_ok.
  destruct (Z.ltb_spec (Z.of_nat (String.length password))
              (default 6 (Utils.minLength rules))) as [Hlt|Hge].
  - split; [discriminate | lia].
  - cbn [app].
    destruct (default false (Utils.requireUppercase rules)),
      (has_char is_upper password),
      (default false (Utils.requireLowercase rules)),
      (has_char is_lower password),
      (default false (Utils.requireNumbers rules)),
      (has_char is_number password),
      (default false (Utils.requireSpecialChars rules)),
      (has_char is_special password); cbn;
      (split; [intros H; first [discriminate H | repeat split; auto]
              | intros (_ & H1 & H2 & H3 & H4);
                first [reflexivity
                      | discriminate (H1 eq_refl) | discriminate (H2 eq_refl)
                      | discriminate (H3 eq_refl) | discriminate (H4 eq_refl)]]).
Qed.

(** X20. [validatePassword]: the result is valid exactly when the list
    of errors is empty, which holds at most five messages; it is valid
    exactly when the password has the minimum length (6 when the rules
    name none) and holds a character of every class the rules require;
    appending characters to a valid password keeps it valid; and under
    the rules of the repository's configuration only the length of six
    counts. *)
Theorem validatePassword_rules (password : string) (rules : Utils.PasswordRules) :
  let v := Utils.validatePassword password rules in
  (Utils.isValid v = true <-> Utils.errors v = [])
  /\ (length (Utils.errors v) <= 5)%nat
  /\ (Utils.isValid v = true <->
      default 6 (Utils.minLength rules) <= Z.of_nat (String.length password)
      /\ (default false (Utils.requireUppercase rules) = true ->
          has_char is_upper password = true)
      /\ (default false (Utils.requireLowercase rules) = true ->
          has_char is_lower password = true)
      /\ (default false (Utils.requireNumbers rules) = true ->
          has_char is_number password = true)
      /\ (default false (Utils.requireSpecialChars rules) = true ->
          has_char is_special password = true))
  /\ (forall extra,
        Utils.isValid v = true ->
        Utils.isValid (Utils.validatePassword (password +:+ extra) rules) = true)
  /\ (Utils.isValid (Utils.validatePassword password CONFIG_VALIDATION_password)
      = (6 <=? Z.of_nat (String.length password))).
Proof.
  intros v. split; [|split; [|split; [|split]]].
  - unfold v, Utils.validatePassword. cbn [Utils.isValid Utils.errors].
    rewrite Nat.eqb_eq. apply length_zero_iff_nil.
  - unfold v, Utils.validatePassword. cbn [Utils.errors].
    rewrite !length_app.
    repeat match goal with
           | |- context [if ?b then _ else _] => destruct b
           end; simpl; lia.
  - apply validatePassword_valid.
  - intros extra. unfold v. rewrite !validatePassword_valid.
    intros (Hlen & H1 & H2 & H3 & H4). rewrite length_append.
    split; [lia|]. repeat split; intros H; apply has_char_app; auto.
  - apply eq_true_iff_eq. rewrite validatePassword_valid. cbn [default
      CONFIG_VALIDATION_password Utils.minLength Utils.requireUppercase
      Utils.requireLowercase Utils.requireNumbers Utils.requireSpecialChars].
    rewrite Z.leb_le. split; [tauto|]. intros H. repeat split; try discriminate. exact H.
Qed.

(** ** The session code *)

(** X21. A token saved to a writable store at time [saved] is handed
    back by [getToken] as long as no more than the token lifetime has
    passed; the first read after that answers [null] and removes the
    stored token, so that every later read answers [null] as well, also
    one made with an earlier clock. *)
Theorem token_round_trip (cfg : Settings) (tok : string) (saved now later : Z)
    (s : Session) :
  store_ok s ->
  let s1 := (UserStorage.saveToken tok saved s).2 in
  let fresh := now - saved <=? token_life cfg in
  UserStorage.getToken cfg now s1
  = (if fresh then (Some tok, s1) else (None, set_token None s1))
  /\ (UserStorage.getToken cfg later (UserStorage.getToken cfg now s1).2).1
     = (if fresh && (later - saved <=? token_life cfg) then Some tok else None).
Proof.
  intros [Hav Hfull] s1 fresh.
  assert (s1 = set_token (Some {| token := tok; timestamp := saved |}) s) as Hs1.
  { unfold s1, UserStorage.saveToken, UserStorage.setItem. rewrite Hav, Hfull. reflexivity. }
  assert (UserStorage.getToken cfg now s1
          = (if fresh then (Some tok, s1) else (None, set_token None s1))) as Hget.
  { unfold UserStorage.getToken, UserStorage.removeToken, UserStorage.removeItem.
    rewrite Hs1. cbn [storageAvailable set_token attendance_token]. rewrite Hav.
    cbn [negb timestamp token]. unfold fresh, token_life.
    destruct (Z.ltb_spec (SECURITY_tokenExpiration cfg * 60 * 60 * 1000) (now - saved));
      destruct (Z.leb_spec (now - saved) (SECURITY_tokenExpiration cfg * 60 * 60 * 1000));
      try lia; reflexivity. }
  split; [exact Hget|]. rewrite Hget. destruct fresh; cbn [snd andb].
  - unfold UserStorage.getToken, UserStorage.removeToken, UserStorage.removeItem.
    rewrite Hs1. cbn [storageAvailable set_token attendance_token]. rewrite Hav.
    cbn [negb timestamp token]. unfold token_life.
    destruct (Z.ltb_spec (SECURITY_tokenExpiration cfg * 60 * 60 * 1000) (later - saved));
      destruct (Z.leb_spec (later - saved) (SECURITY_tokenExpiration cfg * 60 * 60 * 1000));
      try lia; reflexivity.
  - unfold UserStorage.getToken. cbn [storageAvailable set_token attendance_token].
    rewrite Hs1. cbn [storageAvailable set_token]. rewrite Hav. reflexivity.
Qed.

Lemma token_round_trip_witness :
  let s0 : Session :=
    {| storageAvailable := true; storageFull := false; registered_users := NoUsers;
       attendance_user := None; attendance_token := None; Auth_currentUser := None;
       Auth_loginAttempts := ∅; shown := [] |} in
  let s1 := (UserStorage.saveToken "t" 0 s0).2 in
  (UserStorage.getToken SETTINGS 86400000 s1).1 = Some "t"
  /\ (UserStorage.getToken SETTINGS 86400001 s1).1 = None
  /\ (UserStorage.getToken SETTINGS 5 (UserStorage.getToken SETTINGS 86400001 s1).2).1
     = None.
Proof.
  intros s0 s1.
  pose proof (token_round_trip SETTINGS "t" 0 86400000 5 s0 (conj eq_refl eq_refl))
    as [H1 _].
  pose proof (token_round_trip SETTINGS "t" 0 86400001 5 s0 (conj eq_refl eq_refl))
    as [H2 H3].
  cbv zeta in H1, H2, H3. fold s1 in H1, H2, H3.
  split; [rewrite H1; reflexivity|]. split; [rewrite H2; reflexivity|].
  rewrite H3. reflexivity.
Defined.

Lemma find_none_of {A} (p : A -> bool) (l : list A) :
  (forall x, In x l -> p x = false) -> List.find p l = None.
Proof.
  induction l as [|a l IH]; [reflexivity|]. intros H. simpl.
  rewrite (H a) by (left; reflexivity). apply IH. intros x Hx. apply H. by right.
Qed.

(** One login with an email and a password that no account carries. *)
Lemma handleLogin_failed (cfg : Settings) (email password : string)
    (checked answered : Z) (tokenId : string) (s : Session) (accounts : list Account)
    (c : Z) :
  Utils.validateEmail email = true ->
  password <> "" ->
  storageAvailable s = true ->
  registered_users s = Users accounts ->
  (forall a, a ∈ accounts ->
     ~ (account_email a = email /\ account_password a = password)) ->
  from_option attempts_count 0 (Auth_loginAttempts s !! email) = c ->
  c < SECURITY_maxLoginAttempts cfg ->
  exists s',
    Auth.handleLogin cfg email password checked answered tokenId s
    = (Auth.LoginFailed, s')
    /\ Auth_loginAttempts s' !! email = Some {| attempts_count := c + 1; attempts_lastAttempt := answered |}
    /\ storageAvailable s' = storageAvailable s
    /\ storageFull s' = storageFull s
    /\ registered_users s' = registered_users s
    /\ attendance_token s' = attendance_token s
    /\ Auth_currentUser s' = Auth_currentUser s.
Proof.
  intros Hemail Hpw Hav Husers Hnone Hc Hlt.
  assert (email <> "") as Hne by (intros ->; vm_compute in Hemail; discriminate).
  unfold Auth.handleLogin, Auth.validateLoginInputs.
  rewrite (proj2 (String.eqb_neq _ _) Hne), Hemail. cbn [negb].
  rewrite (proj2 (String.eqb_neq _ _) Hpw). cbn [negb].
  assert (Auth.isAccountLocked cfg email checked s = (false, s)) as ->.
  { unfold Auth.isAccountLocked.
    destruct (Auth_loginAttempts s !! email) as [a|]; [|reflexivity].
    cbn [from_option] in Hc. rewrite Hc.
    destruct (Z.leb_spec (SECURITY_maxLoginAttempts cfg) c); [lia | reflexivity]. }
  cbn [negb]. unfold UserStorage.getUsers. rewrite Hav, Husers. cbn [negb].
  replace (List.find _ accounts) with (@None Account).
  2:{ symmetry. apply find_none_of. intros a Ha.
      apply andb_false_iff. rewrite !String.eqb_neq.
      pose proof (Hnone a (proj2 (list_elem_of_In _ _) Ha)) as H.
      destruct (string_dec (account_email a) email); [right|left]; tauto. }
  eexists. split; [reflexivity|]. unfold Auth.recordFailedLogin.
  assert (attempts_count (match Auth_loginAttempts s !! email with
                 | Some a => a
                 | None => {| attempts_count := 0; attempts_lastAttempt := answered |}
                 end) = c) as Hcount
    by (destruct (Auth_loginAttempts s !! email); exact Hc).
  rewrite Hcount. cbn [attempts_count].
  destruct (0 <? SECURITY_maxLoginAttempts cfg - (c + 1));
    cbn [toast set_loginAttempts Auth_loginAttempts storageAvailable storageFull
         registered_users attendance_token Auth_currentUser];
    rewrite lookup_insert_eq; auto 10.
Qed.

Lemma try_logins_failed (cfg : Settings) (email password : string) (tokenId : string)
    (accounts : list Account) (times : list (Z * Z)) :
  Utils.validateEmail email = true ->
  password <> "" ->
  (forall a, a ∈ accounts ->
     ~ (account_email a = email /\ account_password a = password)) ->
  forall (s : Session) (c : Z),
    storageAvailable s = true ->
    registered_users s = Users accounts ->
    from_option attempts_count 0 (Auth_loginAttempts s !! email) = c ->
    c + Z.of_nat (length times) <= SECURITY_maxLoginAttempts cfg ->
    let s' := try_logins cfg email password tokenId times s in
    storageAvailable s' = true
    /\ storageFull s' = storageFull s
    /\ registered_users s' = Users accounts
    /\ attendance_token s' = attendance_token s
    /\ Auth_currentUser s' = Auth_currentUser s
    /\ from_option attempts_count 0 (Auth_loginAttempts s' !! email) = c + Z.of_nat (length times)
    /\ (forall t, last times = Some t ->
          Auth_loginAttempts s' !! email
          = Some {| attempts_count := c + Z.of_nat (length times); attempts_lastAttempt := t.2 |}).
Proof.
  intros Hemail Hpw Hnone.
  induction times as [|t times IH] using rev_ind; intros s c Hav Husers Hc Hlen.
  - cbn. rewrite Z.add_0_r. repeat split; auto. discriminate.
  - rewrite length_app in Hlen. cbn [length] in Hlen.
    destruct (IH s c Hav Husers Hc ltac:(lia)) as (Hav1 & Hf1 & Hu1 & Ht1 & Hc1 & Hn1 & _).
    unfold try_logins in *. rewrite foldl_snoc.
    set (s1 := foldl _ s times) in *.
    destruct (handleLogin_failed cfg email password t.1 t.2 tokenId s1 accounts
                (c + Z.of_nat (length times)) Hemail Hpw Hav1 Hu1 Hnone Hn1 ltac:(lia))
      as (s2 & Hrun & Hat & Hav2 & Hf2 & Hu2 & Ht2 & Hc2).
    rewrite Hrun. cbn [snd]. rewrite length_app. cbn [length].
    replace (c + Z.of_nat (length times + 1)) with (c + Z.of_nat (length times) + 1) by lia.
    split; [congruence|]. split; [congruence|]. split; [congruence|].
    split; [congruence|]. split; [congruence|]. split; [rewrite Hat; reflexivity|].
    intros t'. rewrite last_snoc. intros [= <-]. exact Hat.
Qed.

(** X22. The lockout. Starting with no failed attempt on record for a
    valid email address, as many failed logins as the configured maximum
    lock the account: from then on, and for the lockout duration counted
    from the last failed attempt, every login for that address is
    refused as locked, with the right password as with a wrong one, and
    nothing is changed by the refusal but the toast. Once the duration
    has passed, a login with the password of a registered account
    succeeds and clears the record of failed attempts. *)
Theorem login_lockout (cfg : Settings) (email wrong : string) (tokenId : string)
    (accounts : list Account) (times : list (Z * Z)) (s : Session) :
  Utils.validateEmail email = true ->
  wrong <> "" ->
  (forall a, a ∈ accounts ->
     ~ (account_email a = email /\ account_password a = wrong)) ->
  storageAvailable s = true ->
  registered_users s = Users accounts ->
  Auth_loginAttempts s !! email = None ->
  0 < SECURITY_maxLoginAttempts cfg ->
  Z.of_nat (length times) = SECURITY_maxLoginAttempts cfg ->
  let s' := try_logins cfg email wrong tokenId times s in
  exists final,
    last times = Some final
    /\ Auth_loginAttempts s' !! email
       = Some {| attempts_count := SECURITY_maxLoginAttempts cfg; attempts_lastAttempt := final.2 |}
    /\ forall (password : string) (checked answered : Z) (tokenId' : string),
         password <> "" ->
         (checked - final.2 < lockout_time cfg ->
          Auth.handleLogin cfg email password checked answered tokenId' s'
          = (Auth.LoginLocked, toast (errorText cfg ERRORS_accountLocked) "error" s'))
         /\ (lockout_time cfg <= checked - final.2 ->
             forall a,
               List.find (fun u => String.eqb (account_email u) email
                                   && String.eqb (account_password u) password) accounts
               = Some a ->
               exists s'',
                 Auth.handleLogin cfg email password checked answered tokenId' s'
                 = (Auth.LoggedIn, s'')
                 /\ Auth_currentUser s'' = Some (Member a)
                 /\ Auth_loginAttempts s'' !! email = None).
Proof.
  intros Hemail Hwrong Hnone Hav Husers Hat Hmax Hlen s'.
  destruct (try_logins_failed cfg email wrong tokenId accounts times Hemail Hwrong Hnone
              s 0 Hav Husers ltac:(rewrite Hat; reflexivity) ltac:(lia))
    as (Hav' & _ & Hu' & _ & _ & _ & Hlast).
  fold s' in Hav', Hu', Hlast.
  destruct (last times) as [final|] eqn:Hfin.
  2:{ apply last_None in Hfin. subst times. cbn in Hlen. lia. }
  exists final. split; [reflexivity|].
  specialize (Hlast final eq_refl). rewrite Z.add_0_l, Hlen in Hlast.
  split; [exact Hlast|].
  intros password checked answered tokenId' Hpw.
  assert (email <> "") as Hne by (intros ->; vm_compute in Hemail; discriminate).
  unfold Auth.handleLogin, Auth.validateLoginInputs.
  rewrite (proj2 (String.eqb_neq _ _) Hne), Hemail. cbn [negb].
  rewrite (proj2 (String.eqb_neq _ _) Hpw). cbn [negb].
  unfold Auth.isAccountLocked. rewrite Hlast. cbn [attempts_count attempts_lastAttempt].
  rewrite Z.leb_refl. fold (lockout_time cfg).
  split.
  - intros Hin. apply Z.ltb_lt in Hin. rewrite Hin. reflexivity.
  - intros Hout a Hfind. apply Z.ltb_ge in Hout. rewrite Hout. cbn [negb].
    unfold UserStorage.getUsers.
    cbn [Auth.clearFailedLogins set_loginAttempts storageAvailable registered_users].
    rewrite Hav', Hu'. cbn [negb]. rewrite Hfind.
    eexists. split; [reflexivity|].
    cbn [toast Auth_currentUser Auth_loginAttempts Auth.clearFailedLogins set_loginAttempts
         set_currentUser].
    split; [reflexivity|]. apply lookup_delete_eq.
Qed.

Lemma login_lockout_witness :
  let times := [ (0, 1); (2, 3); (4, 5); (6, 7); (8, 9) ] in
  let s' := try_logins SETTINGS "ann@example.org" "wrong" "id" times
              (Sample.session [ Sample.ann ]) in
  (Auth.handleLogin SETTINGS "ann@example.org" "secret1" 10 11 "id" s').1
  = Auth.LoginLocked
  /\ (Auth.handleLogin SETTINGS "ann@example.org" "secret1" 900009 900010 "id" s').1
     = Auth.LoggedIn.
Proof.
  intros times s'.
  destruct (login_lockout SETTINGS "ann@example.org" "wrong" "id" [ Sample.ann ] times
              (Sample.session [ Sample.ann ]))
    as (final & Hlast & _ & Hlock).
  - vm_compute. reflexivity.
  - discriminate.
  - intros a Ha [_ Hp]. apply list_elem_of_singleton in Ha as ->.
    vm_compute in Hp. discriminate Hp.
  - reflexivity.
  - reflexivity.
  - reflexivity.
  - reflexivity.
  - reflexivity.
  - cbn in Hlast. injection Hlast as <-. fold s' in Hlock.
    destruct (Hlock "secret1" 10 11 "id" ltac:(discriminate)) as [Hin _].
    destruct (Hlock "secret1" 900009 900010 "id" ltac:(discriminate)) as [_ Hout].
    split.
    + rewrite Hin by (vm_compute; reflexivity). reflexivity.
    + destruct (Hout ltac:(vm_compute; discriminate) Sample.ann eq_refl)
        as (s'' & Hrun & _).
      rewrite Hrun. reflexivity.
Defined.

(** X23. [handleLogin] logs in only with the credentials of a registered
    account: when it ends logged in, the store holds an account with
    exactly this email and password, the email is well-formed, that
    account is the current user and its failed attempts are cleared. On
    every other way out, the current user, the stored user, the stored
    token and the registered accounts are what they were. *)
Theorem handleLogin_sound (cfg : Settings) (email password : string)
    (checked answered : Z) (tokenId : string) (s : Session) :
  let out := (Auth.handleLogin cfg email password checked answered tokenId s).1 in
  let s' := (Auth.handleLogin cfg email password checked answered tokenId s).2 in
  (out = Auth.LoggedIn ->
   exists accounts a,
     UserStorage.getUsers s = Users accounts
     /\ a ∈ accounts
     /\ account_email a = email /\ account_password a = password
     /\ Utils.validateEmail email = true
     /\ Auth_currentUser s' = Some (Member a)
     /\ Auth_loginAttempts s' !! email = None)
  /\ (out <> Auth.LoggedIn ->
      Auth_currentUser s' = Auth_currentUser s
      /\ attendance_user s' = attendance_user s
      /\ attendance_token s' = attendance_token s
      /\ registered_users s' = registered_users s).
Proof.
  cbv zeta. unfold Auth.handleLogin, Auth.validateLoginInputs.
  destruct (String.eqb email ""); [split; [discriminate | auto]|].
  destruct (Utils.validateEmail email) eqn:Hemail; cbn [negb];
    [|split; [discriminate | auto]].
  destruct (String.eqb password ""); [split; [discriminate | auto]|]. cbn [negb].
  assert (exists b s1, Auth.isAccountLocked cfg email checked s = (b, s1)
            /\ storageAvailable s1 = storageAvailable s
            /\ registered_users s1 = registered_users s
            /\ Auth_currentUser s1 = Auth_currentUser s
            /\ attendance_user s1 = attendance_user s
            /\ attendance_token s1 = attendance_token s) as (b & s1 & -> & Hav & Hu & Hc & Hp & Ht).
  { unfold Auth.isAccountLocked.
    destruct (Auth_loginAttempts s !! email) as [a|]; [|eexists _, _; eauto 10].
    destruct (_ <=? _); [|eexists _, _; eauto 10].
    destruct (_ <? _); eexists _, _; split; try reflexivity; auto 10. }
  destruct b; [split; [discriminate | auto]|]. cbn [negb].
  destruct (UserStorage.getUsers s1) as [|accounts|] eqn:Hget;
    [split; [discriminate | auto]| |split; [discriminate | auto]].
  assert (UserStorage.getUsers s = Users accounts) as Hget0.
  { unfold UserStorage.getUsers in *. rewrite <- Hav, <- Hu. exact Hget. }
  destruct (List.find _ accounts) as [a|] eqn:Hfind.
  - split; [|intros H; exfalso; apply H; reflexivity]. intros _.
    apply find_some in Hfind as [Hin Hmatch].
    apply andb_prop in Hmatch as [H1 H2]. apply String.eqb_eq in H1, H2.
    exists accounts, a. rewrite list_elem_of_In.
    cbn [snd toast Auth_currentUser Auth_loginAttempts Auth.clearFailedLogins set_loginAttempts
         set_currentUser].
    repeat split; auto. apply lookup_delete_eq.
  - split; [discriminate|]. intros _. cbn [snd]. unfold Auth.recordFailedLogin.
    destruct (0 <? _); cbn; auto.
Qed.

Lemma find_app_fresh {A} (p : A -> bool) (l : list A) (x : A) :
  (forall y, In y l -> p y = false) -> p x = true ->
  List.find p (l ++ [ x ]) = Some x.
Proof.
  intros Hl Hx. induction l as [|a l IH]; simpl.
  - rewrite Hx. reflexivity.
  - rewrite (Hl a) by (left; reflexivity). apply IH. intros y Hy. apply Hl. by right.
Qed.

(** A login with the email and the password of an account, while the
    email is not locked out. *)
Lemma handleLogin_found (cfg : Settings) (email password : string)
    (checked answered : Z) (tokenId : string) (users : list Account)
    (user : Account) (s : Session) :
  store_ok s ->
  Utils.validateEmail email = true ->
  password <> "" ->
  (Auth.isAccountLocked cfg email checked s).1 = false ->
  UserStorage.getUsers s = Users users ->
  List.find (fun u => String.eqb (account_email u) email
                      && String.eqb (account_password u) password) users
  = Some user ->
  exists s2,
    Auth.handleLogin cfg email password checked answered tokenId s = (Auth.LoggedIn, s2)
    /\ Auth_currentUser s2 = Some (Member user)
    /\ attendance_user s2
       = Some {| profile_id := account_id user; profile_name := account_name user;
                 profile_email := account_email user;
                 profile_department := account_department user |}
    /\ (exists tok, attendance_token s2 = Some {| token := tok; timestamp := answered |})
    /\ forall now,
         (Auth.isAuthenticated cfg now s2).1 = (now - answered <=? token_life cfg).
Proof.
  intros [Hav Hfull] Hemail Hpne Hunlocked Hget Hfind.
  assert (email <> "") as Hne by (intros ->; vm_compute in Hemail; discriminate).
  unfold Auth.handleLogin, Auth.validateLoginInputs.
  rewrite (proj2 (String.eqb_neq _ _) Hne), Hemail. cbn [negb].
  rewrite (proj2 (String.eqb_neq _ _) Hpne). cbn [negb].
  assert (exists s1, Auth.isAccountLocked cfg email checked s = (false, s1)
                     /\ storageAvailable s1 = true /\ storageFull s1 = false
                     /\ UserStorage.getUsers s1 = Users users)
    as (s1 & -> & Hav1 & Hfull1 & Hget1).
  { revert Hunlocked. unfold Auth.isAccountLocked.
    destruct (Auth_loginAttempts s !! email) as [a|]; [|eauto].
    destruct (SECURITY_maxLoginAttempts cfg <=? attempts_count a); [|eauto].
    destruct (_ <? _); [discriminate|].
    intros _. eexists. split; [reflexivity|]. auto. }
  cbn [negb]. rewrite Hget1, Hfind.
  unfold UserStorage.saveUser, UserStorage.saveToken.
  unfold UserStorage.setItem at 2. rewrite Hav1, Hfull1. cbn [negb snd].
  unfold UserStorage.setItem.
  replace (storageAvailable (set_user _ s1)) with true by (symmetry; exact Hav1).
  replace (storageFull (set_user _ s1)) with false by (symmetry; exact Hfull1).
  cbn [negb snd].
  eexists. split; [reflexivity|]. split; [reflexivity|]. split; [reflexivity|].
  split; [eexists; reflexivity|].
  intros now. unfold Auth.isAuthenticated, UserStorage.getToken.
  cbn [toast Auth.clearFailedLogins set_loginAttempts set_currentUser set_token set_user
       Auth_currentUser storageAvailable attendance_token timestamp token].
  replace (storageAvailable s1) with true by (symmetry; exact Hav1).
  cbn [negb]. unfold token_life, timestamp.
  destruct (Z.ltb_spec (SECURITY_tokenExpiration cfg * 60 * 60 * 1000) (now - answered));
    destruct (Z.leb_spec (now - answered) (SECURITY_tokenExpiration cfg * 60 * 60 * 1000));
    try lia; reflexivity.
Qed.

(** X24. Registering and logging in: over a writable store, a
    registration with a name of two characters or more, a well-formed
    email that no account uses yet, a password that passes the
    configured rules and a department succeeds and appends the account.
    If the email is not locked out when the login is checked, that is,
    fewer failed logins than the maximum are recorded for it or the
    lockout time has passed since the last of them, a login with the
    same email and password then succeeds, makes the new account the
    current user, stores its profile without the password, and stores a
    token stamped with the time of the login; from then on
    [isAuthenticated] holds exactly as long as the token lifetime has
    not passed. *)
Theorem register_then_login (cfg : Settings) (name email password department : string)
    (newId tokenId : string) (registered checked answered : Z)
    (accounts : list Account) (s : Session) :
  store_ok s ->
  UserStorage.getUsers s = Users accounts ->
  (forall a, a ∈ accounts -> account_email a <> email) ->
  (Auth.isAccountLocked cfg email checked s).1 = false ->
  (2 <= String.length name)%nat ->
  Utils.validateEmail email = true ->
  Utils.isValid (Utils.validatePassword password (VALIDATION_password cfg)) = true ->
  password <> "" ->
  department <> "" ->
  let account :=
    {| account_id := newId; account_name := name; account_email := email;
       account_password := password; account_department := department;
       account_createdAt := registered |} in
  exists s1 s2,
    Auth.handleRegister cfg name email password department newId registered s
    = (Auth.Registered, s1)
    /\ registered_users s1 = Users (accounts ++ [ account ])
    /\ Auth.handleLogin cfg email password checked answered tokenId s1
       = (Auth.LoggedIn, s2)
    /\ Auth_currentUser s2 = Some (Member account)
    /\ attendance_user s2
       = Some {| profile_id := newId; profile_name := name; profile_email := email;
                 profile_department := department |}
    /\ (exists tok, attendance_token s2 = Some {| token := tok; timestamp := answered |})
    /\ forall now,
         (Auth.isAuthenticated cfg now s2).1 = (now - answered <=? token_life cfg).
Proof.
  intros [Hav Hfull] Hget Hfresh Hunlocked Hname Hemail Hpw Hpne Hdep account.
  assert (String.eqb name "" || (String.length name <? 2)%nat = false) as Hn.
  { apply orb_false_iff. split.
    - apply String.eqb_neq. intros ->. simpl in Hname. lia.
    - apply Nat.ltb_ge. exact Hname. }
  unfold Auth.handleRegister, Auth.validateRegisterInputs.
  rewrite Hn, Hemail, Hpw. cbn [negb].
  rewrite (proj2 (String.eqb_neq _ _) Hdep). cbn [negb]. rewrite Hget.
  rewrite find_none_of.
  2:{ intros a Ha. apply String.eqb_neq, Hfresh, list_elem_of_In, Ha. }
  unfold UserStorage.setItem. rewrite Hav, Hfull. cbn [negb snd]. fold account.
  set (s1 := toast (successText cfg SUCCESS_registerSuccess) "success"
               (set_users (Users (accounts ++ [ account ])) s)).
  assert (store_ok s1) as Hok1 by (split; [exact Hav | exact Hfull]).
  assert ((Auth.isAccountLocked cfg email checked s1).1 = false) as Hunlocked1.
  { revert Hunlocked. unfold Auth.isAccountLocked.
    change (Auth_loginAttempts s1) with (Auth_loginAttempts s).
    destruct (Auth_loginAttempts s !! email) as [a|]; [|auto].
    destruct (SECURITY_maxLoginAttempts cfg <=? attempts_count a); [|auto].
    destruct (_ <? _); auto. }
  assert (UserStorage.getUsers s1 = Users (accounts ++ [ account ])) as Hget1
    by (unfold UserStorage.getUsers;
        replace (storageAvailable s1) with true by (symmetry; exact Hav);
        reflexivity).
  destruct (handleLogin_found cfg email password checked answered tokenId
              (accounts ++ [ account ]) account s1 Hok1 Hemail Hpne Hunlocked1 Hget1)
    as (s2 & Hlogin & Hcur & Huser & Htok & Hauth).
  { apply find_app_fresh.
    - intros a Ha. apply andb_false_iff. left.
      apply String.eqb_neq, Hfresh, list_elem_of_In, Ha.
    - cbn [account account_email account_password]. rewrite !String.eqb_refl.
      reflexivity. }
  exists s1, s2. split; [reflexivity|]. split; [reflexivity|].
  split; [exact Hlogin|]. split; [exact Hcur|]. split; [exact Huser|].
  split; [exact Htok | exact Hauth].
Qed.

(** Bob registers while three failed logins are recorded for his email,
    the last of them twenty minutes ago: the lockout of fifteen minutes
    is over, and the login goes through. *)
Lemma register_then_login_witness :
  exists s1 s2,
    Auth.handleRegister SETTINGS "Bob" "bob@example.org" "secret2" "IT" "u2" 100
      Sample.session_failed = (Auth.Registered, s1)
    /\ Auth.handleLogin SETTINGS "bob@example.org" "secret2" 1200004 1200300 "id" s1
       = (Auth.LoggedIn, s2)
    /\ (Auth.isAuthenticated SETTINGS 1200400 s2).1 = true.
Proof.
  destruct (register_then_login SETTINGS "Bob" "bob@example.org" "secret2" "IT" "u2" "id"
              100 1200004 1200300 [ Sample.ann ] Sample.session_failed)
    as (s1 & s2 & Hreg & _ & Hlogin & _ & _ & _ & Hauth).
  - split; reflexivity.
  - reflexivity.
  - intros a Ha H. apply list_elem_of_singleton in Ha as ->.
    vm_compute in H. discriminate H.
  - vm_compute. reflexivity.
  - simpl. lia.
  - vm_compute. reflexivity.
  - vm_compute. reflexivity.
  - discriminate.
  - discriminate.
  - exists s1, s2. split; [exact Hreg|]. split; [exact Hlogin|].
    rewrite Hauth. reflexivity.
Defined.

(** While the lockout lasts the same login is refused, although the
    account has just been registered and the password is right. *)
Lemma register_then_login_locked :
  let s1 := (Auth.handleRegister SETTINGS "Bob" "bob@example.org" "secret2" "IT" "u2"
               100 Sample.session_failed).2 in
  (Auth.isAccountLocked SETTINGS "bob@example.org" 200 Sample.session_failed).1 = true
  /\ (Auth.handleLogin SETTINGS "bob@example.org" "secret2" 200 300 "id" s1).1
     = Auth.LoginLocked.
Proof. cbv zeta. split; vm_compute; reflexivity. Qed.

Lemma isAccountLocked_frame (cfg : Settings) (email : string) (now : Z) (s : Session) :
  exists b s1, Auth.isAccountLocked cfg email now s = (b, s1)
    /\ storageAvailable s1 = storageAvailable s
    /\ storageFull s1 = storageFull s
    /\ registered_users s1 = registered_users s
    /\ Auth_currentUser s1 = Auth_currentUser s
    /\ attendance_user s1 = attendance_user s
    /\ attendance_token s1 = attendance_token s.
Proof.
  unfold Auth.isAccountLocked.
  destruct (Auth_loginAttempts s !! email) as [a|]; [|eexists _, _; eauto 10].
  destruct (_ <=? _); [|eexists _, _; eauto 10].
  destruct (_ <? _); eexists _, _; split; try reflexivity; auto 10.
Qed.

(** X29. A confirmed logout ends the session for good: nobody is the
    current user, [isAuthenticated] is false at all times, and loading
    the page anew does not bring the user back, whether or not the store
    could be written. The registered accounts and the record of failed
    logins stay. A declined logout changes nothing. *)
Theorem handleLogout_ends_session (cfg : Settings) (s : Session) :
  let s' := Auth.handleLogout true s in
  Auth_currentUser s' = None
  /\ (forall now, (Auth.isAuthenticated cfg now s').1 = false)
  /\ (forall now,
        Auth_currentUser (Auth.checkExistingSession cfg now (page_load s')) = None)
  /\ registered_users s' = registered_users s
  /\ Auth_loginAttempts s' = Auth_loginAttempts s
  /\ Auth.handleLogout false s = s.
Proof.
  cbv zeta. unfold Auth.handleLogout, UserStorage.removeUser, UserStorage.removeToken,
    UserStorage.removeItem. cbn [negb].
  destruct (storageAvailable s) eqn:Hav; cbn [negb snd set_user storageAvailable];
    rewrite ?Hav; cbn [negb snd].
  - split; [reflexivity|]. split; [reflexivity|]. split; [|auto].
    intros now. unfold Auth.checkExistingSession, UserStorage.getUser, UserStorage.getToken.
    cbn. rewrite Hav. reflexivity.
  - split; [reflexivity|]. split; [reflexivity|]. split; [|auto].
    intros now. unfold Auth.checkExistingSession, UserStorage.getUser, UserStorage.getToken.
    cbn. rewrite Hav. reflexivity.
Qed.

(** X30. After a successful login over a writable store, loading the
    page anew restores the session from the store exactly while the
    token is fresh: within the token lifetime the current user is the
    stored profile of the account that logged in and [isAuthenticated]
    holds; after it nobody is logged in. The record of failed logins
    does not survive the reload: no address is locked after it. *)
Theorem page_load_after_login (cfg : Settings) (email password : string)
    (checked answered : Z) (tokenId : string) (s s' : Session) (now : Z) :
  store_ok s ->
  Auth.handleLogin cfg email password checked answered tokenId s = (Auth.LoggedIn, s') ->
  let s2 := Auth.checkExistingSession cfg now (page_load s') in
  (forall address t, (Auth.isAccountLocked cfg address t s2).1 = false)
  /\ exists a,
       Auth_currentUser s' = Some (Member a)
       /\ account_email a = email /\ account_password a = password
       /\ Auth_currentUser s2
          = (if now - answered <=? token_life cfg
             then Some (Restored (profile_of a)) else None)
       /\ (Auth.isAuthenticated cfg now s2).1 = (now - answered <=? token_life cfg).
Proof.
  intros [Hav Hfull] Hrun s2.
  unfold Auth.handleLogin, Auth.validateLoginInputs in Hrun.
  destruct (String.eqb email ""); [discriminate|].
  destruct (Utils.validateEmail email); cbn [negb] in Hrun; [|discriminate].
  destruct (String.eqb password ""); [discriminate|]. cbn [negb] in Hrun.
  destruct (isAccountLocked_frame cfg email checked s)
    as (b & s1 & Hl & Hav1 & Hfull1 & _).
  rewrite Hl in Hrun. rewrite Hav in Hav1. rewrite Hfull in Hfull1.
  destruct b; [discriminate|]. cbn [negb] in Hrun.
  destruct (UserStorage.getUsers s1) as [|accounts|]; [discriminate| |discriminate].
  destruct (List.find _ accounts) as [a|] eqn:Hfind; [|discriminate].
  apply find_some in Hfind as [_ Hmatch].
  apply andb_prop in Hmatch as [H1 H2]. apply String.eqb_eq in H1, H2.
  unfold UserStorage.saveUser, UserStorage.saveToken in Hrun.
  unfold UserStorage.setItem at 2 in Hrun. rewrite Hav1, Hfull1 in Hrun.
  cbn [negb snd] in Hrun. unfold UserStorage.setItem in Hrun.
  cbn [set_user storageAvailable storageFull] in Hrun. rewrite Hav1, Hfull1 in Hrun.
  cbn [negb snd] in Hrun. injection Hrun as <-.
  unfold s2, Auth.checkExistingSession, UserStorage.getUser, UserStorage.getToken,
    UserStorage.removeToken, UserStorage.removeItem, page_load, Auth.isAuthenticated,
    Auth.isAccountLocked, token_life.
  cbn [toast Auth.clearFailedLogins set_loginAttempts set_currentUser set_token set_user
       Auth_currentUser Auth_loginAttempts storageAvailable attendance_token
       attendance_user timestamp token].
  rewrite Hav1. cbn [negb timestamp token].
  destruct (Z.ltb_spec (SECURITY_tokenExpiration cfg * 60 * 60 * 1000) (now - answered));
    destruct (Z.leb_spec (now - answered) (SECURITY_tokenExpiration cfg * 60 * 60 * 1000));
    try lia.
  - cbn [snd set_token set_currentUser set_loginAttempts Auth_currentUser
         Auth_loginAttempts storageAvailable attendance_token fst].
    split; [intros; rewrite lookup_empty; reflexivity|].
    exists a. auto.
  - change (negb (("token_" +:+ tokenId +:+ "_" +:+ toString answered) =? "")%string)
      with true.
    cbn [snd set_token set_currentUser set_loginAttempts Auth_currentUser
         Auth_loginAttempts storageAvailable attendance_token fst toast
         Auth.clearFailedLogins set_user].
    split; [intros; rewrite lookup_empty; reflexivity|].
    exists a. split; [reflexivity|]. split; [exact H1|]. split; [exact H2|].
    split; [reflexivity|].
    unfold UserStorage.getToken.
    cbn [set_currentUser set_loginAttempts toast Auth.clearFailedLogins set_token
         set_user storageAvailable attendance_token].
    rewrite Hav1. cbn [negb timestamp token].
    destruct (Z.ltb_spec (SECURITY_tokenExpiration cfg * 60 * 60 * 1000) (now - answered));
      [lia|]. reflexivity.
Qed.

Lemma page_load_after_login_witness :
  let s' := (Auth.handleLogin SETTINGS "ann@example.org" "secret1" 10 11 "id"
               (Sample.session [ Sample.ann ])).2 in
  Auth_currentUser (Auth.checkExistingSession SETTINGS 12 (page_load s'))
  = Some (Restored (profile_of Sample.ann)).
Proof.
  intros s'.
  destruct (page_load_after_login SETTINGS "ann@example.org" "secret1" 10 11 "id"
              (Sample.session [ Sample.ann ]) s' 12 (conj eq_refl eq_refl)
              ltac:(vm_compute; reflexivity))
    as (_ & a & Ha & _ & _ & Hc & _).
  vm_compute in Ha. injection Ha as <-. exact Hc.
Defined.

(** ** Positions that are not positions *)

Lemma fsub_nan_l (x : float64) : fsub S754_nan x = S754_nan.
Proof. reflexivity. Qed.
Lemma fsub_nan_r (x : float64) : fsub x S754_nan = S754_nan.
Proof. destruct x as [[]|[]| |[] ? ?]; reflexivity. Qed.
Lemma fmul_nan_l (x : float64) : fmul S754_nan x = S754_nan.
Proof. reflexivity. Qed.
Lemma fmul_nan_r (x : float64) : fmul x S754_nan = S754_nan.
Proof. destruct x as [[]|[]| |[] ? ?]; reflexivity. Qed.
Lemma fdiv_nan_l (x : float64) : fdiv S754_nan x = S754_nan.
Proof. reflexivity. Qed.
Lemma fadd_nan_l (x : float64) : fadd S754_nan x = S754_nan.
Proof. reflexivity. Qed.
Lemma fadd_nan_r (x : float64) : fadd x S754_nan = S754_nan.
Proof. destruct x as [[]|[]| |[] ? ?]; reflexivity. Qed.
Lemma fle_nan_r (x : float64) : fle x S754_nan = false.
Proof. destruct x as [[]|[]| |[] ? ?]; reflexivity. Qed.

(** X25. The geofence fails closed on a bad number: when a coordinate of
    the user, a coordinate of the office or the radius is [NaN], the
    user is not within the geofence, whatever the other numbers are.
    Of [Math.sin] and [Math.atan2] only what the language fixes is
    used: both give [NaN] for [NaN]. *)
Theorem isWithinGeofence_nan
    (Math_sin Math_cos : float64 -> float64)
    (Math_atan2 : float64 -> float64 -> float64)
    (userLat userLon officeLat officeLon radius : float64) :
  Math_sin S754_nan = S754_nan ->
  (forall y, Math_atan2 S754_nan y = S754_nan) ->
  userLat = S754_nan \/ userLon = S754_nan \/ officeLat = S754_nan
  \/ officeLon = S754_nan \/ radius = S754_nan ->
  Utils.isWithinGeofence Math_sin Math_cos Math_atan2
    userLat userLon officeLat officeLon radius = false.
Proof.
  intros Hsin Hatan H. unfold Utils.isWithinGeofence.
  destruct H as [->|[->|[->|[->| ->]]]]; [| | | |apply fle_nan_r];
    unfold Utils.calculateDistance;
    rewrite ?fsub_nan_l, ?fsub_nan_r, ?fmul_nan_l, ?fdiv_nan_l, ?Hsin,
      ?fmul_nan_l, ?fmul_nan_r, ?fadd_nan_l, ?fadd_nan_r;
    change (fsqrt S754_nan) with S754_nan; rewrite Hatan, fmul_nan_r; reflexivity.
Qed.

Lemma isWithinGeofence_nan_witness :
  Utils.isWithinGeofence (fun x => x) (fun x => x) (fun y _ => y)
    S754_nan (of_Z 67) (of_Z 25) (of_Z 67) (of_Z 1000) = false.
Proof.
  apply isWithinGeofence_nan; [reflexivity | reflexivity | left; reflexivity].
Defined.

(** ** A position that cannot be validated *)

(** X26. When [Location.validateGeofence] answers no, because the
    browser reports a position error, has no geolocation at all, or the
    position is outside the fence, it has shown at most one toast of its
    own, an error, which for a position error is the message of that
    error. A time-in by a logged-in user then stops as rejected for the
    location after that toast and the outside-the-office error, and so
    does a time-out that has passed its guard; nothing else on the page
    changes. A position error is thus reported as being outside the
    office. *)
Theorem location_failure_reported
    (Math_sin Math_cos : float64 -> float64)
    (Math_atan2 : float64 -> float64 -> float64)
    (roundedText : float64 -> string)
    (cfg : Config) (msgs : Settings) (answer : Location.Answer)
    (env : Env) (w : World) :
  let v := Location.validateGeofence Math_sin Math_cos Math_atan2 roundedText
             cfg msgs answer in
  validateGeofence env = Location.isWithin v ->
  locationToasts env = Location.messages v ->
  isAuthenticated env = true ->
  Location.isWithin v = false ->
  let outside := mkToast (getError cfg ERRORS_outsideGeofence) "error" in
  (length (Location.messages v) <= 1)%nat
  /\ Forall (fun t => kind t = "error") (Location.messages v)
  /\ (forall error, answer = Location.Error error ->
        Location.messages v = [ mkToast (Location.errorMessage msgs error) "error" ])
  /\ Attendance.handleTimeIn cfg env w
     = (Ok Attendance.LocationRejected, add_toasts (Location.messages v ++ [ outside ]) w)
  /\ (forall r, todayRecord w = Some r -> truthy (field r "timeIn") = true ->
        Attendance.handleTimeOut cfg env w
        = (Ok Attendance.LocationRejected,
           add_toasts (Location.messages v ++ [ outside ]) w)).
Proof.
  intros v Hgeo Htoasts Hauth Hout outside. rewrite Hout in Hgeo.
  split; [|split; [|split; [|split]]].
  - unfold v in *. destruct answer as [coords|error|]; cbn in *; [|lia|lia].
    rewrite Hout. cbn. lia.
  - unfold v in *. destruct answer as [coords|error|]; cbn in *.
    + rewrite Hout. cbn. repeat constructor.
    + repeat constructor.
    + constructor.
  - intros error ->. reflexivity.
  - destruct (handleTimeIn_run cfg env w) as (o & ts & _ & ->).
    rewrite Hauth, Hgeo, Htoasts. reflexivity.
  - intros r Hr Hin. rewrite (handleTimeOut_pass cfg env w r Hauth Hr Hin).
    rewrite Hgeo, Htoasts. reflexivity.
Qed.

Lemma location_failure_reported_witness :
  Attendance.handleTimeIn CONFIG Sample.env_lost (Sample.page [] None)
  = (Ok Attendance.LocationRejected,
     add_toasts [ mkToast "Location request timed out. Please try again." "error";
                  mkToast (getError CONFIG ERRORS_outsideGeofence) "error" ]
                (Sample.page [] None)).
Proof.
  exact (proj1 (proj2 (proj2 (proj2
    (location_failure_reported (fun x => x) (fun x => x) (fun y _ => y) (fun _ => "")
       CONFIG SETTINGS (Location.Error Location.TIMEOUT) Sample.env_lost
       (Sample.page [] None) eq_refl eq_refl eq_refl eq_refl))))).
Defined.

(** ** Clock strings without a colon *)

(** X27. A clock string without a colon is never late and never an early
    leave: [isLate] answers no when either of its two times lacks the
    colon, and so does [isEarlyLeave] when the time given or the
    configured end of work lacks it. A schedule written as '0900' or
    '9' therefore switches the late marking off for everybody. *)
Theorem isLate_malformed (cfg : Config) (bad other : string) (threshold : Z) :
  no_colon bad = true ->
  Utils.isLate bad other threshold = false
  /\ Utils.isLate other bad threshold = false
  /\ Attendance.isEarlyLeave cfg bad = false
  /\ (endTime (WORK_SCHEDULE cfg) = bad ->
      forall timeString, Attendance.isEarlyLeave cfg timeString = false).
Proof.
  intros H.
  assert (nth_num 1 (split ":" bad) = None) as Hnone
    by (rewrite split_no_colon by exact H; reflexivity).
  split; [|split; [|split]].
  - unfold Utils.isLate. rewrite Hnone. destruct (num_mul _ _); reflexivity.
  - unfold Utils.isLate. rewrite Hnone.
    destruct (num_add (num_mul _ _) _); [|reflexivity].
    destruct (num_mul _ _); reflexivity.
  - unfold Attendance.isEarlyLeave. rewrite Hnone. destruct (num_mul _ _); reflexivity.
  - intros Hend timeString. unfold Attendance.isEarlyLeave. rewrite Hend, Hnone.
    destruct (num_add (num_mul _ _) _); [|reflexivity].
    destruct (num_mul _ _); reflexivity.
Qed.

Lemma isLate_malformed_witness :
  Utils.isLate "09:30" "0900" 15 = false
  /\ Attendance.isEarlyLeave CONFIG "1200" = false.
Proof.
  destruct (isLate_malformed CONFIG "0900" "09:30" 15 eq_refl) as (_ & H1 & _).
  destruct (isLate_malformed CONFIG "1200" "09:30" 15 eq_refl) as (_ & _ & H2 & _).
  split; [exact H1 | exact H2].
Defined.
